(** * sf-Profile-Splitter: the split and merge commands

    A shallow embedding of [src/commands/metadata/profiles/split.ts] and
    [src/commands/metadata/profiles/merge.ts].

    - JavaScript values as xml2js hands them to the commands: strings,
      arrays and objects (objects keep their keys in insertion order);
    - the file system as a finite map from normalised paths to nodes;
    - [fs], [path] and [Math.random] calls as a state-and-exception monad:
      a thrown exception keeps the file system as it was when it was raised;
    - the xml2js parser and builder as an interface ([Codec]). *)

From Stdlib Require Import ZArith NArith Lia List.
From Stdlib Require Import Ascii String DecimalString.
From stdpp Require Import base option list strings gmap.

Set Warnings "-register-all".
Local Open Scope string_scope.

(** ** JavaScript values *)

Inductive value :=
  | VUndef
  | VStr (s : string)
  | VArr (items : list value)
  | VObj (props : list (string * value)).

Module Js.

(** Own-property read [o[k]]; a missing property reads as [undefined].
    This is [o[k]] for every key that [Object.prototype] has no member of;
    [member] below is the read that looks at the prototype as well. *)
Fixpoint assoc (k : string) (props : list (string * value)) : value :=
  match props with
  | [] => VUndef
  | (k', v) :: rest => if String.eqb k k' then v else assoc k rest
  end.

(** Property write [o[k] = v] on the property list: an existing key keeps
    its place, a new key goes last. *)
Fixpoint assoc_set (k : string) (v : value) (props : list (string * value))
  : list (string * value) :=
  match props with
  | [] => [(k, v)]
  | (k', v') :: rest =>
      if String.eqb k k' then (k, v) :: rest else (k', v') :: assoc_set k v rest
  end.

(** An object literal [{ k1: v1, ..., kn: vn }] (computed keys included):
    the properties are defined from left to right. *)
Definition literal (kvs : list (string * value)) : list (string * value) :=
  fold_left (fun acc kv => assoc_set (fst kv) (snd kv) acc) kvs [].

Definition dec (n : N) : string := NilZero.string_of_uint (N.to_uint n).

Fixpoint chars (s : string) : list value :=
  match s with
  | EmptyString => []
  | String c rest => VStr (String c EmptyString) :: chars rest
  end.

Definition indexed (l : list value) : list (string * value) :=
  imap (fun i v => (dec (N.of_nat i), v)) l.

(** The own enumerable properties of a value, in the order in which
    [Object.entries] lists them: named ones for an object, in insertion
    order (no key of the documents at hand looks like an array index, which
    would come first), indices for an array or a string. *)
Definition own (v : value) : list (string * value) :=
  match v with
  | VUndef => []
  | VStr s => indexed (chars s)
  | VArr l => indexed l
  | VObj props => props
  end.

(** [v[k]] for a value that is known not to be [undefined]. *)
Definition get (v : value) (k : string) : value := assoc k (own v).

(** [v[0]] *)
Definition first (v : value) : value := get v "0".

(** Truthiness: [undefined] and the empty string are falsy. *)
Definition truthy (v : value) : bool :=
  match v with
  | VUndef => false
  | VStr EmptyString => false
  | _ => true
  end.

(** [typeof v === 'object'] *)
Definition isObject (v : value) : bool :=
  match v with VArr _ | VObj _ => true | _ => false end.

(** The names of the members that an object made by a literal inherits from
    [Object.prototype]: functions, and under [__proto__] the prototype
    itself. *)
Definition inherited : list string :=
  ["constructor"; "hasOwnProperty"; "isPrototypeOf"; "propertyIsEnumerable";
   "toLocaleString"; "toString"; "valueOf"; "__proto__";
   "__defineGetter__"; "__defineSetter__"; "__lookupGetter__"; "__lookupSetter__"].

Definition owns (k : string) (props : list (string * value)) : bool :=
  existsb (fun kv => String.eqb k (fst kv)) props.

(** What [o[k]] finds on an object made by a literal: the own property, or
    else the member of that name inherited from [Object.prototype], which is
    truthy and is no array, or else nothing. *)
Inductive member :=
  | Own (v : value)
  | Inherited
  | Missing.

Definition read (k : string) (props : list (string * value)) : member :=
  if owns k props then Own (assoc k props)
  else if existsb (String.eqb k) inherited then Inherited
  else Missing.

Definition member_truthy (m : member) : bool :=
  match m with
  | Own v => truthy v
  | Inherited => true
  | Missing => false
  end.

(** [Object.entries(v)]; [None] is the TypeError on [undefined]. *)
Definition entries (v : value) : option (list (string * value)) :=
  match v with
  | VUndef => None
  | _ => Some (own v)
  end.

(** String conversion in a template literal. *)
Fixpoint toString (v : value) : string :=
  match v with
  | VUndef => "undefined"
  | VStr s => s
  | VArr l =>
      String.concat ","
        (map (fun x => match x with VUndef => "" | _ => toString x end) l)
  | VObj _ => "[object Object]"
  end.

(** [s.replace(/c/g, '-')] *)
Fixpoint replaceAll (c : ascii) (s : string) : string :=
  match s with
  | EmptyString => EmptyString
  | String a rest =>
      String (if Ascii.eqb a c then "-"%char else a) (replaceAll c rest)
  end.

End Js.

(** ** The xml2js codec

    [parseString] is [new xml2js.Parser().parseStringPromise]: the parsed
    document, or the message of the error it rejects with.  [buildObject] is
    [new xml2js.Builder().buildObject]. *)

Class Codec (bytes : Type) := {
  parseString : bytes -> string + value;
  buildObject : value -> bytes
}.

(** xml2js keeps the attributes of an element in the object of the element,
    under the key [$] (its default [attrkey]), when it parses and when it
    builds; every other key of the object is a child element.  The root
    attributes of a document are what its [Profile] object holds there. *)
Definition root_attributes (doc : value) : value :=
  Js.get (Js.get doc "Profile") "$".

(** ** Paths *)

Definition path := list string.

Module Path.

(** The segments of a string between ['/'] separators. *)
Fixpoint segments (s : string) : list string :=
  match s with
  | EmptyString => [EmptyString]
  | String c rest =>
      if Ascii.eqb c "/"%char then EmptyString :: segments rest
      else match segments rest with
           | [] => [String c EmptyString]
           | seg :: segs => String c seg :: segs
           end
  end.

(** Normalisation as [path.join] does it: empty and ["."] segments vanish,
    [".."] removes the segment before it. *)
Definition push_segment (p : path) (seg : string) : path :=
  if String.eqb seg "" then p
  else if String.eqb seg "." then p
  else if String.eqb seg ".." then removelast p
  else (p ++ [seg])%list.

(** [path.join(dir, name)] *)
Definition join (dir : path) (name : string) : path :=
  fold_left push_segment (segments name) dir.

Definition show (p : path) : string := String.concat "/" p.

(** [s.endsWith(suffix)] *)
Fixpoint ends_with (suffix s : string) : bool :=
  String.eqb s suffix ||
  match s with
  | EmptyString => false
  | String _ rest => ends_with suffix rest
  end.

Definition drop_suffix (suffix s : string) : string :=
  String.substring 0 (String.length s - String.length suffix) s.

(** [path.basename(p)] and [path.basename(p, ext)]: the extension is
    removed when the last segment ends with it and is longer than it. *)
Definition basename (p : path) : string := List.last p "".

Definition basename_ext (p : path) (ext : string) : string :=
  let n := basename p in
  if ends_with ext n && negb (String.eqb n ext) then drop_suffix ext n else n.

(** [child dir q] is [Some n] when [q] is the entry [n] of directory [dir]. *)
Fixpoint child (dir q : path) : option string :=
  match dir, q with
  | [], [n] => Some n
  | a :: dir', b :: q' => if String.eqb a b then child dir' q' else None
  | _, _ => None
  end.

End Path.

(** ** The world: file system and random source *)

Inductive node (bytes : Type) :=
  | File (data : bytes)
  | Dir.
Arguments File {bytes} data.
Arguments Dir {bytes}.

(** What a call of the [fs] module changed on the disk. *)
Inductive event (bytes : Type) :=
  | Mkdir (p : path)
  | WriteFile (p : path) (data : bytes)
  | Unlink (p : path)
  | Rmdir (p : path).
Arguments Mkdir {bytes} p.
Arguments WriteFile {bytes} p data.
Arguments Unlink {bytes} p.
Arguments Rmdir {bytes} p.

(** [disk] maps every existing path, except the root [[]], which always is a
    directory, to its node.  [entropy] is the sequence of numbers behind the
    coming [Math.random()] calls: the n-th call returns
    [(entropy n mod 2^53) / 2^53].  [journal] records the changes made to
    the disk so far, oldest first; no command reads it. *)
Record world (bytes : Type) := World {
  disk : gmap path (node bytes);
  entropy : nat -> N;
  journal : list (event bytes)
}.
Arguments World {bytes} disk entropy journal.
Arguments disk {bytes} w.
Arguments entropy {bytes} w.
Arguments journal {bytes} w.

(** The disk changes by [ev], which goes into the journal. *)
Definition commit {bytes} (ev : event bytes) (d : gmap path (node bytes))
    (w : world bytes) : world bytes :=
  World d (entropy w) (journal w ++ [ev])%list.

Inductive outcome (bytes A : Type) :=
  | Ret (a : A) (w : world bytes)
  | Throw (message : string) (w : world bytes).
Arguments Ret {bytes A} a w.
Arguments Throw {bytes A} message w.

Definition final {bytes A} (o : outcome bytes A) : world bytes :=
  match o with Ret _ w => w | Throw _ w => w end.

Definition thrown {bytes A} (o : outcome bytes A) : option string :=
  match o with Ret _ _ => None | Throw m _ => Some m end.

Definition M (bytes A : Type) : Type := world bytes -> outcome bytes A.

Definition ret {bytes A} (a : A) : M bytes A := fun w => Ret a w.

Definition throw {bytes A} (message : string) : M bytes A :=
  fun w => Throw message w.

Definition bind {bytes A B} (m : M bytes A) (k : A -> M bytes B) : M bytes B :=
  fun w => match m w with
           | Ret a w' => k a w'
           | Throw e w' => Throw e w'
           end.

(** [try { m } catch (error) { handler(error.message) }] *)
Definition try_catch {bytes A} (m : M bytes A) (handler : string -> M bytes A)
  : M bytes A :=
  fun w => match m w with
           | Ret a w' => Ret a w'
           | Throw e w' => handler e w'
           end.

Declare Scope js_scope.
Delimit Scope js_scope with js.
Notation "'let*' x ':=' m 'in' k" := (bind m (fun x => k))
  (at level 10, x name, m at level 100, k at level 200) : js_scope.
Notation "m ';;' k" := (bind m (fun _ => k))
  (at level 100, k at level 200, right associativity) : js_scope.

(** [for (const x of l) { body(x) }] *)
Fixpoint for_of {bytes A} (l : list A) (body : A -> M bytes unit) : M bytes unit :=
  match l with
  | [] => ret tt
  | x :: rest => bind (body x) (fun _ => for_of rest body)
  end.

(** A loop that updates a local variable of type [S]. *)
Fixpoint fold_of {bytes A S} (l : list A) (body : A -> S -> M bytes S) (s : S)
  : M bytes S :=
  match l with
  | [] => ret s
  | x :: rest => bind (body x s) (fun s' => fold_of rest body s')
  end.

(** [l.filter(x => test(x))] with a test that may throw. *)
Fixpoint filter_of {bytes A} (test : A -> M bytes bool) (l : list A)
  : M bytes (list A) :=
  match l with
  | [] => ret []
  | x :: rest =>
      bind (test x) (fun keep =>
      bind (filter_of test rest) (fun kept =>
      ret (if keep then x :: kept else kept)))
  end.

(** [if (c) { m }] *)
Definition when {bytes} (c : bool) (m : M bytes unit) : M bytes unit :=
  if c then m else ret tt.

(** [this.error(message)] of the command class: raises a CLIError carrying
    [message] (no [exit: false] option is passed anywhere in the source). *)
Definition this_error {bytes A} (message : string) : M bytes A := throw message.

(** ** The [fs] module *)

Module Fs.
Section Ops.
Context {bytes : Type}.

Definition lookup (d : gmap path (node bytes)) (p : path) : option (node bytes) :=
  match p with
  | [] => Some Dir
  | _ => d !! p
  end.

(** The entry names of directory [p], in the enumeration order of the disk. *)
Definition names (d : gmap path (node bytes)) (p : path) : list string :=
  omap (fun kv => Path.child p (fst kv)) (map_to_list d).

Definition existsSync (p : path) : M bytes bool :=
  fun w => Ret (bool_decide (is_Some (lookup (disk w) p))) w.

(** [fs.statSync(p).isDirectory()] *)
Definition isDirectory (p : path) : M bytes bool :=
  fun w => match lookup (disk w) p with
           | Some Dir => Ret true w
           | Some (File _) => Ret false w
           | None => Throw ("ENOENT: no such file or directory, stat '" ++ Path.show p ++ "'") w
           end.

(** One level of [mkdir]: nothing to do on a directory. *)
Definition mkdir1 (p : path) : M bytes unit :=
  fun w => match lookup (disk w) p with
           | Some Dir => Ret tt w
           | Some (File _) => Throw ("ENOTDIR: not a directory, mkdir '" ++ Path.show p ++ "'") w
           | None => Ret tt (commit (Mkdir p) (<[p := Dir]> (disk w)) w)
           end.

(** The non-empty prefixes of [p], shortest first. *)
Definition ancestors (p : path) : list path :=
  map (fun n => take n p) (seq 1 (List.length p)).

(** [fs.mkdirSync(p, { recursive: true })] *)
Definition mkdirSync (p : path) : M bytes unit := for_of (ancestors p) mkdir1.

Definition readdirSync (p : path) : M bytes (list string) :=
  fun w => match lookup (disk w) p with
           | Some Dir => Ret (names (disk w) p) w
           | Some (File _) => Throw ("ENOTDIR: not a directory, scandir '" ++ Path.show p ++ "'") w
           | None => Throw ("ENOENT: no such file or directory, scandir '" ++ Path.show p ++ "'") w
           end.

Definition readFileSync (p : path) : M bytes bytes :=
  fun w => match lookup (disk w) p with
           | Some (File data) => Ret data w
           | Some Dir => Throw "EISDIR: illegal operation on a directory, read" w
           | None => Throw ("ENOENT: no such file or directory, open '" ++ Path.show p ++ "'") w
           end.

(** [fs.writeFileSync(p, data)]: the parent must be a directory and [p]
    must not be one; an existing file is replaced. *)
Definition writeFileSync (p : path) (data : bytes) : M bytes unit :=
  fun w => match lookup (disk w) p with
           | Some Dir => Throw ("EISDIR: illegal operation on a directory, open '" ++ Path.show p ++ "'") w
           | _ =>
               match lookup (disk w) (removelast p) with
               | Some Dir => Ret tt (commit (WriteFile p data) (<[p := File data]> (disk w)) w)
               | Some (File _) => Throw ("ENOTDIR: not a directory, open '" ++ Path.show p ++ "'") w
               | None => Throw ("ENOENT: no such file or directory, open '" ++ Path.show p ++ "'") w
               end
           end.

Definition unlinkSync (p : path) : M bytes unit :=
  fun w => match lookup (disk w) p with
           | Some (File _) => Ret tt (commit (Unlink p) (delete p (disk w)) w)
           | Some Dir => Throw ("EISDIR: illegal operation on a directory, unlink '" ++ Path.show p ++ "'") w
           | None => Throw ("ENOENT: no such file or directory, unlink '" ++ Path.show p ++ "'") w
           end.

Definition rmdirSync (p : path) : M bytes unit :=
  fun w => match p, lookup (disk w) p with
           | [], _ => Throw "EBUSY: resource busy or locked, rmdir" w
           | _, Some Dir =>
               match names (disk w) p with
               | [] => Ret tt (commit (Rmdir p) (delete p (disk w)) w)
               | _ => Throw ("ENOTEMPTY: directory not empty, rmdir '" ++ Path.show p ++ "'") w
               end
           | _, Some (File _) => Throw ("ENOTDIR: not a directory, rmdir '" ++ Path.show p ++ "'") w
           | _, None => Throw ("ENOENT: no such file or directory, rmdir '" ++ Path.show p ++ "'") w
           end.

End Ops.
End Fs.

(** [Math.floor(Math.random() * 10000)]: one number of the random source is
    used up.  The product is taken exactly. *)
Definition random_below_10000 {bytes} : M bytes N :=
  fun w => Ret ((entropy w 0 mod 2 ^ 53) * 10000 / 2 ^ 53)%N
               (World (disk w) (fun n => entropy w (S n)) (journal w)).

Local Open Scope js_scope.

(** [v.replace(/c/g, '-')]: only strings have the method. *)
Definition js_replace {bytes} (c : ascii) (v : value) : M bytes value :=
  match v with
  | VStr s => ret (VStr (Js.replaceAll c s))
  | _ => throw "replace is not a function"
  end.

(** [result.Profile]: reading a property of a null result is a TypeError. *)
Definition js_member {bytes} (v : value) (k : string) : M bytes value :=
  match v with
  | VUndef => throw ("Cannot read properties of null (reading '" ++ k ++ "')")
  | _ => ret (Js.get v k)
  end.

Definition js_entries {bytes} (v : value) : M bytes (list (string * value)) :=
  match Js.entries v with
  | Some kvs => ret kvs
  | None => throw "Cannot convert undefined or null to object"
  end.

Definition parseStringPromise `{Codec bytes} (content : bytes) : M bytes value :=
  match parseString content with
  | inl message => throw message
  | inr v => ret v
  end.

(** ** split.ts *)

Module Split.
Section Command.
Context `{Codec bytes}.

(** [item.k && item.k[0]] *)
Definition has_first (item : value) (k : string) : bool :=
  Js.truthy (Js.get item k) && Js.truthy (Js.first (Js.get item k)).

(** Lines 123-143: the name of the artifact of [item]. *)
Definition itemName (item : value) : M bytes value :=
  if Js.truthy (Js.get item "name") then
    ret (Js.first (Js.get item "name"))
  else if has_first item "application" then
    ret (Js.first (Js.get item "application"))
  else if has_first item "layout" then
    js_replace "/" (Js.first (Js.get item "layout"))
  else if has_first item "object" then
    ret (Js.first (Js.get item "object"))
  else if has_first item "field" then
    js_replace "." (Js.first (Js.get item "field"))
  else if has_first item "apexClass" then
    ret (Js.first (Js.get item "apexClass"))
  else if has_first item "apexPage" then
    ret (Js.first (Js.get item "apexPage"))
  else
    let* n := random_below_10000 in
    ret (VStr ("item-" ++ Js.dec n)).

(** Line 147: the object handed to the builder for one record. *)
Definition artifact (key : string) (item xmlns : value) : value :=
  VObj [("Profile", VObj (Js.literal [(key, VArr [item]); ("_xmlns", xmlns)]))].

(** Lines 121-154: one item of a category. *)
Definition splitItem (categoryDir : path) (key : string) (xmlns item : value)
  : M bytes unit :=
  when (Js.isObject item)
    (let* name := itemName item in
     let itemXml := buildObject (artifact key item xmlns) in
     let itemFileName := Js.toString name ++ ".xml" in
     let itemPath := Path.join categoryDir itemFileName in
     Fs.writeFileSync itemPath itemXml).

Definition nonempty_array (v : value) : bool :=
  match v with VArr (_ :: _) => true | _ => false end.

Definition array_items (v : value) : list value :=
  match v with VArr l => l | _ => [] end.

(** Lines 112-156: one entry of the profile object. *)
Definition splitCategory (profileDir : path) (xmlns : value) (kv : string * value)
  : M bytes unit :=
  let key := fst kv in
  let value := snd kv in
  when (nonempty_array value)
    (let categoryDir := Path.join profileDir key in
     let* present := Fs.existsSync categoryDir in
     when (negb present) (Fs.mkdirSync categoryDir);;
     for_of (array_items value) (splitItem categoryDir key xmlns)).

(** Lines 101-157: the body of the [try] block. *)
Definition splitParsed (profileName : string) (profileContent : bytes)
    (outputDir : path) : M bytes unit :=
  let* result := parseStringPromise profileContent in
  let* profile := js_member result "Profile" in
  let profileDir := Path.join outputDir profileName in
  let* present := Fs.existsSync profileDir in
  when (negb present) (Fs.mkdirSync profileDir);;
  let* categories := js_entries profile in
  for_of categories (splitCategory profileDir (Js.get profile "_xmlns")).

Definition splitProfile (profileFile outputDir : path) : M bytes unit :=
  let profileName := Path.basename_ext profileFile ".profile-meta.xml" in
  let* profileContent := Fs.readFileSync profileFile in
  try_catch (splitParsed profileName profileContent outputDir)
    (fun message =>
       this_error ("Error processing profile " ++ profileName ++ ": " ++ message)).

Definition run (inputDir outputDir : path) (shouldDelete : bool) : M bytes unit :=
  let* inputThere := Fs.existsSync inputDir in
  if negb inputThere then
    throw ("Input directory " ++ Path.show inputDir ++ " does not exist")
  else
    let* outputThere := Fs.existsSync outputDir in
    when (negb outputThere) (Fs.mkdirSync outputDir);;
    let* listing := Fs.readdirSync inputDir in
    let profileFiles :=
      map (Path.join inputDir)
          (List.filter (Path.ends_with ".profile-meta.xml") listing) in
    match profileFiles with
    | [] => ret tt
    | _ =>
        for_of profileFiles (fun profileFile => splitProfile profileFile outputDir);;
        when shouldDelete (for_of profileFiles Fs.unlinkSync)
    end.

End Command.
End Split.

(** ** merge.ts *)

Module Merge.
Section Command.
Context `{Codec bytes}.

Definition namespace : string := "http://soap.sforce.com/2006/04/metadata".

(** The profile object holds the namespace constant under [_xmlns]. *)
Definition canonical (profile : list (string * value)) : Prop :=
  Js.assoc "_xmlns" profile = VStr namespace.

(** Lines 132-137: [profile[categoryName]] is initialised when falsy, then
    [items] are pushed onto it; [push] exists on arrays only.  [profile] is
    made by the object literal of line 98, so the read finds the members of
    [Object.prototype] too. *)
Definition pushItems (categoryName : string) (items : list value)
    (profile : list (string * value)) : M bytes (list (string * value)) :=
  let profile1 :=
    if negb (Js.member_truthy (Js.read categoryName profile))
    then Js.assoc_set categoryName (VArr []) profile
    else profile in
  match Js.read categoryName profile1 with
  | Js.Own (VArr old) =>
      ret (Js.assoc_set categoryName (VArr (old ++ items)%list) profile1)
  | _ => throw "profile[categoryName].push is not a function"
  end.

(** Lines 123-139: the body of the [try] block for one artifact. *)
Definition mergeParsed (categoryName : string) (itemFile : path)
    (profile : list (string * value)) : M bytes (list (string * value)) :=
  let* itemContent := Fs.readFileSync itemFile in
  let* result := parseStringPromise itemContent in
  let* root := js_member result "Profile" in
  if Js.truthy root && Js.truthy (Js.get root categoryName) then
    match Js.get root categoryName with
    | VArr (first :: others) => pushItems categoryName (first :: others) profile
    | _ => ret profile
    end
  else ret profile.

Definition mergeItem (categoryName : string) (itemFile : path)
    (profile : list (string * value)) : M bytes (list (string * value)) :=
  try_catch (mergeParsed categoryName itemFile profile)
    (fun message =>
       this_error ("Error processing item file " ++ Path.show itemFile ++ ": " ++ message)).

(** Lines 107-144: one category directory. *)
Definition mergeCategory (categoryDir : path) (profile : list (string * value))
  : M bytes (list (string * value)) :=
  let categoryName := Path.basename categoryDir in
  let* listing := Fs.readdirSync categoryDir in
  let itemFiles :=
    map (Path.join categoryDir) (List.filter (Path.ends_with ".xml") listing) in
  fold_of itemFiles (mergeItem categoryName) profile.

(** Lines 98-144: the profile object that is handed to the builder. *)
Definition mergedProfile (profileDir : path) : M bytes (list (string * value)) :=
  let profile := [("_xmlns", VStr namespace)] in
  let* listing := Fs.readdirSync profileDir in
  let* subdirs :=
    filter_of (fun item => Fs.isDirectory (Path.join profileDir item)) listing in
  let categoryDirs := map (Path.join profileDir) subdirs in
  fold_of categoryDirs mergeCategory profile.

Definition outputFile (profileDir outputDir : path) : path :=
  Path.join outputDir (Path.basename profileDir ++ ".profile-meta.xml").

Definition mergeProfile (profileDir outputDir : path) : M bytes unit :=
  let* profile := mergedProfile profileDir in
  let profileXml := buildObject (VObj [("Profile", VObj profile)]) in
  Fs.writeFileSync (outputFile profileDir outputDir) profileXml.

(** Lines 156-168.  The recursion goes one directory level down at each
    call; [fuel] bounds the depth. *)
Fixpoint deleteDirectory (fuel : nat) (directory : path) : M bytes unit :=
  match fuel with
  | O => throw "Maximum call stack size exceeded"
  | S fuel' =>
      let* there := Fs.existsSync directory in
      when there
        (let* listing := Fs.readdirSync directory in
         for_of listing (fun file =>
           let currentPath := Path.join directory file in
           let* isDir := Fs.isDirectory currentPath in
           if isDir then deleteDirectory fuel' currentPath
           else Fs.unlinkSync currentPath);;
         Fs.rmdirSync directory)
  end.

(** The call from [run], with one more unit of fuel than the disk has
    entries. *)
Definition deleteDirectoryAll (directory : path) : M bytes unit :=
  fun w => deleteDirectory (S (size (disk w))) directory w.

Definition run (inputDir outputDir : path) (shouldDelete : bool) : M bytes unit :=
  let* inputThere := Fs.existsSync inputDir in
  if negb inputThere then
    throw ("Input directory " ++ Path.show inputDir ++ " does not exist")
  else
    let* outputThere := Fs.existsSync outputDir in
    when (negb outputThere) (Fs.mkdirSync outputDir);;
    let* listing := Fs.readdirSync inputDir in
    let* subdirs :=
      filter_of (fun item => Fs.isDirectory (Path.join inputDir item)) listing in
    let profileDirs := map (Path.join inputDir) subdirs in
    match profileDirs with
    | [] => ret tt
    | _ =>
        for_of profileDirs (fun profileDir => mergeProfile profileDir outputDir);;
        when shouldDelete (for_of profileDirs deleteDirectoryAll)
    end.

End Command.
End Merge.

(** ** A reference codec

    File contents are represented by what the parser makes of them: a
    malformed text with the parser's message, or the text of a document. *)

Inductive text :=
  | Malformed (message : string)
  | Xml (document : value).

#[export] Instance text_codec : Codec text := {
  parseString t := match t with Malformed m => inl m | Xml v => inr v end;
  buildObject := Xml
}.

Definition no_entropy : nat -> N := fun _ => 0%N.

(** A world whose disk holds [entries], before anything ran. *)
Definition world_of {bytes} (entries : list (path * node bytes)) : world bytes :=
  World (list_to_map entries) no_entropy [].

(** ** The Record Namer as a precedence list

    The candidate fields in order, each with the character that is
    replaced by ['-'] in its value, if any. *)

Module Namer.
Section Precedence.
Context {bytes : Type}.

Definition candidates : list (string * option ascii) :=
  [("name", None); ("application", None); ("layout", Some "/"%char);
   ("object", None); ("field", Some "."%char); ("apexClass", None);
   ("apexPage", None)].

Definition rewrite (c : option ascii) (v : value) : M bytes value :=
  match c with
  | None => ret v
  | Some c => js_replace c v
  end.

Definition placeholder : M bytes value :=
  let* n := random_below_10000 in
  ret (VStr ("item-" ++ Js.dec n)).

(** First match wins among the candidates that [usable] accepts. *)
Definition by_precedence (usable : value -> string -> bool) (item : value)
  : M bytes value :=
  match List.find (fun c => usable item (fst c)) candidates with
  | Some (field, c) => rewrite c (Js.first (Js.get item field))
  | None => placeholder
  end.

(** The field is there at all. *)
Definition present (item : value) (field : string) : bool :=
  match Js.get item field with VUndef => false | _ => true end.

(** The field is there and its first value is not empty. *)
Definition filled (item : value) (field : string) : bool :=
  Js.truthy (Js.get item field) && Js.truthy (Js.first (Js.get item field)).

(** What the code asks of a field: of [name] that it is truthy, of the
    others that their first value is truthy too. *)
Definition usable (item : value) (field : string) : bool :=
  if String.eqb field "name" then Js.truthy (Js.get item field)
  else filled item field.

End Precedence.
End Namer.

(** ** Reading the journal *)

(** The file writes among [evs], in order. *)
Definition written {bytes} (evs : list (event bytes)) : list (path * bytes) :=
  omap (fun ev => match ev with WriteFile p data => Some (p, data) | _ => None end) evs.

Definition removes {bytes} (ev : event bytes) : bool :=
  match ev with Unlink _ | Rmdir _ => true | _ => false end.

Definition is_mkdir {bytes} (ev : event bytes) : bool :=
  match ev with Mkdir _ => true | _ => false end.

Definition creates {bytes} (ev : event bytes) : bool := negb (removes ev).

(** From [w] to the outcome [o] the journal grew by events that are all
    [allowed]. *)
Definition grows {bytes A} (allowed : event bytes -> bool) (w : world bytes)
    (o : outcome bytes A) : Prop :=
  exists evs : list (event bytes),
    journal (final o) = (journal w ++ evs)%list /\ forallb allowed evs = true.

(** A run that first processes its units, giving [processed], and then
    removes the originals, giving [o]: what the units made comes first in
    the journal, the removals after it, and when a unit raised nothing is
    removed and the run ends with that unit's exception. *)
Definition removal_comes_last {bytes} (w : world bytes)
    (processed o : outcome bytes unit) : Prop :=
  exists made removed : list (event bytes),
    journal (final processed) = (journal w ++ made)%list /\
    journal (final o) = (journal w ++ made ++ removed)%list /\
    forallb creates made = true /\
    forallb removes removed = true /\
    (thrown processed <> None -> removed = [] /\ o = processed).

(** Every directory of [w] is still a directory in [w']. *)
Definition keeps_dirs {bytes} (w w' : world bytes) : Prop :=
  forall p : path,
    Fs.lookup (disk w) p = Some Dir -> Fs.lookup (disk w') p = Some Dir.

(** No file stands at [p]. *)
Definition no_file {bytes} (w : world bytes) (p : path) : Prop :=
  forall data : bytes, Fs.lookup (disk w) p <> Some (File data).

(** The records of a profile object that the Splitter goes through: the
    object-typed items of its array-valued entries, each with its category. *)
Definition records (categories : list (string * value)) : list (string * value) :=
  flat_map (fun kv => map (pair (fst kv))
                          (List.filter Js.isObject (Split.array_items (snd kv))))
           categories.

(** The write [wr] is the artifact of record [rc]: a file of the category
    directory whose name ends in [.xml], holding the one-record document. *)
Definition is_artifact_of `{Codec bytes} (profileDir : path) (xmlns : value)
    (wr : path * bytes) (rc : string * value) : Prop :=
  snd wr = buildObject (Split.artifact (fst rc) (snd rc) xmlns) /\
  exists name : value,
    fst wr = Path.join (Path.join profileDir (fst rc)) (Js.toString name ++ ".xml").

(** The outcome [o] of a step of the Splitter started in [w], measured
    against the records [recs] it had to write: nothing was removed, the
    writes are the artifacts of the records in order, one each, up to the
    point where an exception stopped the step, and all of them when there
    was no exception. *)
Definition writes_records `{Codec bytes} (profileDir : path) (xmlns : value)
    (recs : list (string * value)) (w : world bytes) (o : outcome bytes unit)
  : Prop :=
  exists (evs : list (event bytes)) (done : list (string * value)),
    journal (final o) = (journal w ++ evs)%list /\
    existsb removes evs = false /\
    Forall2 (is_artifact_of profileDir xmlns) (written evs) done /\
    (exists rest, recs = (done ++ rest)%list) /\
    (thrown o = None -> done = recs).

#[export] Instance value_eq_dec : EqDecision value.
Proof.
  refine (fix go (x y : value) {struct x} : Decision (x = y) :=
            match x, y with
            | VUndef, VUndef => left eq_refl
            | VStr s, VStr t => cast_if (decide (s = t))
            | VArr l, VArr m => cast_if (@list_eq_dec _ go l m)
            | VObj o, VObj q =>
                cast_if (@list_eq_dec _ (@prod_eq_dec _ _ _ go) o q)
            | _, _ => right _
            end); abstract congruence.
Defined.

(** ** Documents that survive the round trip *)

(** A name that [path.join] appends as one segment. *)
Definition simple (s : string) : Prop :=
  forall dir : path, Path.join dir s = (dir ++ [s])%list.

(** The parser reads back the record of the artifact that the split builds
    for [item] of category [key]: the text parses, and the category entry of
    the parsed document is the one-record list. *)
Definition reads_back `{Codec bytes} (key : string) (item xmlns : value) : Prop :=
  exists doc : value,
    parseString (buildObject (Split.artifact key item xmlns)) = inr doc /\
    doc <> VUndef /\
    Js.get (Js.get doc "Profile") key = VArr [item].

Section Round_trip_model.
Context `{Codec bytes}.
Variable label : value -> string.

(** The record is an object whose artifact gets the file name
    [label item], whatever the state of the world, and that file name is one
    path segment. *)
Definition record_ok (item : value) : Prop :=
  Js.isObject item = true /\
  simple (label item) /\
  forall w : world bytes,
    exists name : value,
      Split.itemName item w = Ret name w /\
      Js.toString name ++ ".xml" = label item.

Definition file_entry (profileDir : path) (xmlns : value) (key : string)
    (item : value) : path * node bytes :=
  ((profileDir ++ [key; label item])%list,
   File (buildObject (Split.artifact key item xmlns))).

End Round_trip_model.
Arguments record_ok : clear implicits.

(** The disk after the entries were put on it, one after the other. *)
Definition lay {bytes} (entries : list (path * node bytes))
    (d : gmap path (node bytes)) : gmap path (node bytes) :=
  fold_left (fun d e => <[fst e := snd e]> d) entries d.

(** The profile object of the Merger holds the namespace constant and, for
    every other key, the records [held key] (no property when there are
    none). *)
Definition represents (profile : list (string * value))
    (held : string -> list value) : Prop :=
  Merge.canonical profile /\
  forall key : string, key <> "_xmlns" ->
    Js.assoc key profile =
    match held key with [] => VUndef | items => VArr items end.

(** [held] with [items] added to what is held for [key]. *)
Definition extend (held : string -> list value) (key : string)
    (items : list value) : string -> list value :=
  fun k => if String.eqb k key then (held k ++ items)%list else held k.

(** *** The names that a split gives

    The random source of a world replaced by [e]. *)
Definition with_entropy {bytes} (e : nat -> N) (w : world bytes) : world bytes :=
  World (disk w) e (journal w).

Section Naming.
Variable bytes : Type.

(** Lines 123-150: the file name of the artifact of [item] when the random
    source is [e], and the random source that is left.  It is what the
    Record Namer returns on an empty disk: the Namer reads nothing but the
    random source.  [None] when the Namer raises. *)
Definition file_name (e : nat -> N) (item : value) : option (string * (nat -> N)) :=
  match Split.itemName item (World (∅ : gmap path (node bytes)) e []) with
  | Ret name w' => Some (Js.toString name ++ ".xml", entropy w')
  | Throw _ _ => None
  end.

(** Lines 120-154: the records of [items] that the split writes, the
    objects, each with its file name, in the order of the items. *)
Fixpoint named (e : nat -> N) (items : list value)
  : option (list (string * value) * (nat -> N)) :=
  match items with
  | [] => Some ([], e)
  | item :: rest =>
      if Js.isObject item then
        match file_name e item with
        | Some (n, e1) =>
            match named e1 rest with
            | Some (nrs, e') => Some ((n, item) :: nrs, e')
            | None => None
            end
        | None => None
        end
      else named e rest
  end.

(** Lines 111-156: the categories that the split makes a directory for, the
    entries holding a non-empty list, each with its named records, in the
    order of the entries of the profile object. *)
Fixpoint layout (e : nat -> N) (props : list (string * value))
  : option (list (string * list (string * value))) :=
  match props with
  | [] => Some []
  | kv :: rest =>
      if Split.nonempty_array (snd kv) then
        match named e (Split.array_items (snd kv)) with
        | Some (nrs, e1) =>
            match layout e1 rest with
            | Some cats => Some ((fst kv, nrs) :: cats)
            | None => None
            end
        | None => None
        end
      else layout e rest
  end.

End Naming.

Section Round_trip_plan.
Context `{Codec bytes}.

(** The file that the split writes for a named record of category [key]. *)
Definition entry (profileDir : path) (xmlns : value) (key : string)
    (nr : string * value) : path * node bytes :=
  ((profileDir ++ [key; fst nr])%list,
   File (buildObject (Split.artifact key (snd nr) xmlns))).

(** What the split of a category puts on the disk: the directory of the
    category and the files of its named records. *)
Definition category_plan (profileDir : path) (xmlns : value)
    (c : string * list (string * value)) : list (path * node bytes) :=
  ((profileDir ++ [fst c])%list, Dir) :: map (entry profileDir xmlns (fst c)) (snd c).

(** The category survives the round trip: its name is one path segment; the
    file names of its records are path segments that differ from each other;
    when it has records that are written, it is called neither [_xmlns] nor
    like a member of [Object.prototype]; and the parser reads back each of
    its records from the artifact of the record. *)
Definition category_ok (xmlns : value) (c : string * list (string * value)) : Prop :=
  simple (fst c) /\
  NoDup (map fst (snd c)) /\
  (snd c <> [] -> fst c <> "_xmlns" /\ ~ In (fst c) Js.inherited) /\
  Forall (fun nr => simple (fst nr) /\ reads_back (fst c) (snd nr) xmlns) (snd c).

End Round_trip_plan.

(** ** convert.ts

    [stringify] is [JSON.stringify(result, null, 2)] and [buildObjectPretty]
    is [new xml2js.Builder({ prettyPrint: true }).buildObject]. *)

Class Formats (bytes : Type) := {
  stringify : value -> bytes;
  buildObjectPretty : value -> bytes
}.

Module Convert.
Section Command.
Context `{Codec bytes} `{Formats bytes}.

(** Lines 283-292: the name of the output file; every format other than
    [json] is taken as XML. *)
Definition outputFileName (profileName format : string) : string :=
  if String.eqb format "json" then profileName ++ ".json"
  else profileName ++ ".profile-meta.xml".

Definition outputContent (format : string) (result : value) : bytes :=
  if String.eqb format "json" then stringify result
  else buildObjectPretty result.

(** Lines 278-297: the body of the [try] block. *)
Definition convertParsed (profileName : string) (profileContent : bytes)
    (outputDir : path) (format : string) : M bytes unit :=
  let* result := parseStringPromise profileContent in
  let outputFile := Path.join outputDir (outputFileName profileName format) in
  Fs.writeFileSync outputFile (outputContent format result).

Definition convertProfile (profileFile outputDir : path) (format : string)
  : M bytes unit :=
  let profileName := Path.basename_ext profileFile ".profile-meta.xml" in
  let* profileContent := Fs.readFileSync profileFile in
  try_catch (convertParsed profileName profileContent outputDir format)
    (fun message =>
       this_error ("Error converting profile " ++ profileName ++ ": " ++ message)).

Definition run (inputDir outputDir : path) (format : string) (shouldDelete : bool)
  : M bytes unit :=
  let* inputThere := Fs.existsSync inputDir in
  if negb inputThere then
    throw ("Input directory " ++ Path.show inputDir ++ " does not exist")
  else
    let* outputThere := Fs.existsSync outputDir in
    when (negb outputThere) (Fs.mkdirSync outputDir);;
    let* listing := Fs.readdirSync inputDir in
    let profileFiles :=
      map (Path.join inputDir)
          (List.filter (Path.ends_with ".profile-meta.xml") listing) in
    match profileFiles with
    | [] => ret tt
    | _ =>
        for_of profileFiles
          (fun profileFile => convertProfile profileFile outputDir format);;
        when shouldDelete (for_of profileFiles Fs.unlinkSync)
    end.

End Command.
End Convert.

(** A JSON dump is not an XML document: the reference parser rejects it. *)
#[export] Instance text_formats : Formats text := {
  stringify _ := Malformed "Non-whitespace before first tag.";
  buildObjectPretty := Xml
}.

(** ** What a unit may do to the disk *)

Definition same_kind {bytes} (a b : node bytes) : Prop :=
  match a, b with
  | Dir, Dir => True
  | File _, File _ => True
  | _, _ => False
  end.

(** Whatever exists in [w] exists in [w'] and is of the same kind there: a
    directory is still a directory and a file still a file. *)
Definition keeps_nodes {bytes} (w w' : world bytes) : Prop :=
  forall (p : path) (nd : node bytes),
    Fs.lookup (disk w) p = Some nd ->
    exists nd', Fs.lookup (disk w') p = Some nd' /\ same_kind nd nd'.

(** The artifact file [itemFile] parses to a document whose entry for the
    category [key] is the list [items]. *)
Definition holds_records `{Codec bytes} (w : world bytes) (key : string)
    (itemFile : path) (items : list value) : Prop :=
  exists (content : bytes) (doc : value),
    Fs.lookup (disk w) itemFile = Some (File content) /\
    parseString content = inr doc /\
    doc <> VUndef /\
    Js.get (Js.get doc "Profile") key = VArr items.

(** ** Directory trees *)

(** Every entry name on the disk is one path segment, as the names that a
    file system hands out are. *)
Definition tidy {bytes} (d : gmap path (node bytes)) : Prop :=
  forall (p : path) (n : string), is_Some (d !! (p ++ [n])%list) -> simple n.

(** [p] is [dir] or lies below it. *)
Definition below (dir p : path) : Prop := exists q : path, p = (dir ++ q)%list.

(** From [w] to [w'] nothing appeared, and nothing outside [dir] changed. *)
Definition shrinks_within {bytes} (dir : path) (w w' : world bytes) : Prop :=
  (forall p, ~ below dir p -> disk w' !! p = disk w !! p) /\
  (forall p, is_Some (disk w' !! p) -> is_Some (disk w !! p)).

(** Nothing on the disk lies more than [k] levels below [dir]. *)
Definition within_depth {bytes} (d : gmap path (node bytes)) (dir : path) (k : nat)
  : Prop :=
  forall q : path, is_Some (d !! (dir ++ q)%list) -> List.length q <= k.

(** Lines 158-165 of merge.ts: what [deleteDirectory] does with one entry
    of the directory, the callback of [forEach]. *)
Definition delete_entry `{Codec bytes} (fuel : nat) (directory : path)
    (file : string) : M bytes unit :=
  bind (Fs.isDirectory (Path.join directory file))
    (fun isDir =>
       if isDir then Merge.deleteDirectory fuel (Path.join directory file)
       else Fs.unlinkSync (Path.join directory file)).

(** ** Sample inputs *)

Module Sample.

(** [<application></application>] comes out of xml2js as an empty string. *)
Definition empty_application : value :=
  VObj [("application", VArr [VStr ""]); ("object", VArr [VStr "Account"])].

Definition empty_name : value :=
  VObj [("name", VArr [VStr ""]); ("object", VArr [VStr "Account"])].

Definition empty_world : world text := world_of [].

Definition classA : value :=
  VObj [("apexClass", VArr [VStr "A"]); ("enabled", VArr [VStr "true"])].

Definition classB : value :=
  VObj [("apexClass", VArr [VStr "B"]); ("enabled", VArr [VStr "false"])].

(** A split tree whose artifacts carry another namespace; [notes.xml] has
    no [classAccesses] entry. *)
Definition split_tree : world text :=
  world_of
    [(["split"], Dir); (["split"; "Admin"], Dir);
     (["split"; "Admin"; "classAccesses"], Dir);
     (["split"; "Admin"; "classAccesses"; "A.xml"],
      File (Xml (Split.artifact "classAccesses" classA (VStr "urn:other"))));
     (["split"; "Admin"; "classAccesses"; "notes.xml"],
      File (Xml (VObj [("Profile", VObj [("description", VArr [VStr "n/a"])])])));
     (["split"; "Admin"; "classAccesses"; "B.xml"],
      File (Xml (Split.artifact "classAccesses" classB (VStr "urn:other"))));
     (["merged"], Dir)].

(** A profile with a scalar entry, two class records and an empty category. *)
Definition admin_doc : value :=
  VObj [("Profile",
         VObj [("_xmlns", VStr "urn:ns");
               ("custom", VArr [VStr "false"]);
               ("classAccesses", VArr [classA; classB]);
               ("layoutAssignments", VArr [])])].

Definition standard_doc : value :=
  VObj [("Profile",
         VObj [("_xmlns", VStr "urn:ns"); ("classAccesses", VArr [classB])])].

(** Three profiles, the second of which is malformed. *)
Definition batch : world text :=
  world_of
    [(["in"], Dir); (["out"], Dir);
     (["in"; "Admin.profile-meta.xml"], File (Xml admin_doc));
     (["in"; "Custom.profile-meta.xml"], File (Malformed "Unclosed root tag"));
     (["in"; "Standard.profile-meta.xml"], File (Xml standard_doc))].

(** A profile without records, in a world where the output directory is
    yet to be made. *)
Definition empty_doc : value :=
  VObj [("Profile", VObj [("_xmlns", VStr "urn:ns"); ("layoutAssignments", VArr [])])].

Definition bare : world text :=
  world_of [(["in"], Dir); (["in"; "Empty.profile-meta.xml"], File (Xml empty_doc))].

Definition classA2 : value :=
  VObj [("apexClass", VArr [VStr "A"]); ("enabled", VArr [VStr "false"])].

Definition pageHome : value :=
  VObj [("apexPage", VArr [VStr "Home"]); ("enabled", VArr [VStr "true"])].

(** Two categories of records with different names. *)
Definition clean_props : list (string * value) :=
  [("_xmlns", VStr "urn:ns");
   ("classAccesses", VArr [classA; classB]);
   ("pageAccesses", VArr [pageHome])].

Definition clean_doc : value := VObj [("Profile", VObj clean_props)].

Definition clean_entries : list (path * node text) :=
  [(["in"], Dir); (["out"], Dir);
   (["in"; "Clean.profile-meta.xml"], File (Xml clean_doc))].

Definition clean : world text := world_of clean_entries.

(** The file name of the artifact of a class or page record. *)
Definition access_file (item : value) : string :=
  Js.toString
    (if Js.truthy (Js.get item "apexClass")
     then Js.first (Js.get item "apexClass")
     else Js.first (Js.get item "apexPage")) ++ ".xml".

(** An input directory with two profile files, the second malformed, and
    one split profile, whose only artifact is malformed. *)
Definition mixed : world text :=
  world_of
    [(["in"], Dir); (["out"], Dir);
     (["in"; "Admin.profile-meta.xml"], File (Xml admin_doc));
     (["in"; "Custom.profile-meta.xml"], File (Malformed "Unclosed root tag"));
     (["in"; "Guest"], Dir); (["in"; "Guest"; "classAccesses"], Dir);
     (["in"; "Guest"; "classAccesses"; "A.xml"], File (Malformed "Unexpected end"))].

(** A document whose root element is not [Profile]. *)
Definition stray_doc : value :=
  VObj [("PermissionSet", VObj [("label", VArr [VStr "Support"])])].

Definition stray : world text :=
  world_of [(["in"], Dir);
            (["in"; "Stray.profile-meta.xml"], File (Xml stray_doc))].

(** A layout assignment; the name of the layout holds a separator. *)
Definition layoutAccount : value :=
  VObj [("layout", VArr [VStr "Account-Account Layout/v2"])].

(** Documents as the parser yields them: the attributes of the root
    element under [$], every child element as a list, a text-only element as
    its text and an empty element as the empty text. *)
Definition parsed_doc : value :=
  VObj [("Profile",
         VObj [("$", VObj [("xmlns", VStr "http://soap.sforce.com/2006/04/metadata")]);
               ("classAccesses", VArr [classA; classB]);
               ("custom", VArr [VStr "false"])])].

Definition parsed : world text :=
  world_of [(["in"], Dir); (["out"], Dir);
            (["in"; "Admin.profile-meta.xml"], File (Xml parsed_doc))].

Definition hollow_doc : value :=
  VObj [("Profile",
         VObj [("$", VObj [("xmlns", VStr "http://soap.sforce.com/2006/04/metadata")]);
               ("layoutAssignments", VArr [VStr ""])])].

Definition hollow : world text :=
  world_of [(["in"], Dir); (["out"], Dir);
            (["in"; "Hollow.profile-meta.xml"], File (Xml hollow_doc))].

(** Two records of one category that are both named after class [A]. *)
Definition twins_doc : value :=
  VObj [("Profile",
         VObj [("$", VObj [("xmlns", VStr "http://soap.sforce.com/2006/04/metadata")]);
               ("classAccesses", VArr [classA; classA2])])].

Definition twins : world text :=
  world_of [(["in"], Dir); (["out"], Dir);
            (["in"; "Twins.profile-meta.xml"], File (Xml twins_doc))].

(** A profile with root attributes, two class records, a text-only element
    and two equal records that no field names; the random source gives the
    numbers 1250 and 2500. *)
Definition mondays : value := VObj [("mondayStart", VArr [VStr "300"])].

Definition varied_props : list (string * value) :=
  [("$", VObj [("xmlns", VStr "http://soap.sforce.com/2006/04/metadata")]);
   ("classAccesses", VArr [classA; classB]);
   ("custom", VArr [VStr "false"]);
   ("loginHours", VArr [mondays; mondays])].

Definition varied_doc : value := VObj [("Profile", VObj varied_props)].

Definition varied_entries : list (path * node text) :=
  [(["in"], Dir); (["out"], Dir);
   (["in"; "Varied.profile-meta.xml"], File (Xml varied_doc))].

Definition dice : nat -> N := fun n => ((N.of_nat n + 1) * 2 ^ 50)%N.

Definition varied : world text := World (list_to_map varied_entries) dice [].

Definition varied_cats : list (string * list (string * value)) :=
  [("classAccesses", [("A.xml", classA); ("B.xml", classB)]);
   ("custom", []);
   ("loginHours", [("item-1250.xml", mondays); ("item-2500.xml", mondays)])].

(** The artifacts of a split as the parser reads them: the [_xmlns] member
    that the split puts into every artifact is a child element. *)
Definition parsed_artifact (key : string) (item : value) : value :=
  VObj [("Profile", VObj [(key, VArr [item]); ("_xmlns", VArr [VStr ""])])].

Definition parsed_tree : world text :=
  world_of
    [(["split"], Dir); (["split"; "Admin"], Dir);
     (["split"; "Admin"; "classAccesses"], Dir);
     (["split"; "Admin"; "classAccesses"; "A.xml"],
      File (Xml (parsed_artifact "classAccesses" classA)));
     (["split"; "Admin"; "classAccesses"; "B.xml"],
      File (Xml (parsed_artifact "classAccesses" classB)));
     (["merged"], Dir)].

(** A split directory with a category that is called like a member of
    [Object.prototype]. *)
Definition odd_tree : world text :=
  world_of
    [(["split"], Dir); (["split"; "Odd"], Dir);
     (["split"; "Odd"; "constructor"], Dir);
     (["split"; "Odd"; "constructor"; "A.xml"],
      File (Xml (parsed_artifact "constructor" classA)));
     (["merged"], Dir)].

End Sample.

(** * Properties *)

Section Monad_facts.
Context {bytes : Type}.

Lemma fold_of_app {A S} (l1 l2 : list A) (body : A -> S -> M bytes S) (s : S)
    (w : world bytes) :
  fold_of (l1 ++ l2)%list body s w =
  match fold_of l1 body s w with
  | Ret s' w' => fold_of l2 body s' w'
  | Throw e w' => Throw e w'
  end.
Proof.
  revert s w; induction l1 as [|x l1 IH]; intros s w; simpl; [reflexivity|].
  unfold bind. destruct (body x s w); [apply IH | reflexivity].
Qed.

Lemma for_of_app {A} (l1 l2 : list A) (body : A -> M bytes unit) (w : world bytes) :
  for_of (l1 ++ l2)%list body w =
  match for_of l1 body w with
  | Ret _ w' => for_of l2 body w'
  | Throw e w' => Throw e w'
  end.
Proof.
  revert w; induction l1 as [|x l1 IH]; intros w; simpl; [reflexivity|].
  unfold bind. destruct (body x w); [apply IH | reflexivity].
Qed.

End Monad_facts.

(** ** The Record Namer *)

Section Namer_facts.
Context `{Codec bytes}.

Lemma random_below_10000_bound (w : world bytes) :
  exists n, (n < 10000)%N /\
    random_below_10000 w =
    Ret n (World (disk w) (fun k => entropy w (S k)) (journal w)).
Proof.
  eexists; split; [|reflexivity].
  apply N.Div0.div_lt_upper_bound.
  pose proof (N.mod_upper_bound (entropy w 0) (2 ^ 53)) as Hlt.
  assert (2 ^ 53 <> 0)%N as Hnz by (apply N.pow_nonzero; discriminate).
  specialize (Hlt Hnz). lia.
Qed.

(** C6, as the code has it: the artifact name comes from the first
    candidate, in the order name, application, layout ('/' to '-'), object,
    field ('.' to '-'), apexClass, apexPage, that is usable: [name] when it
    is there, a later field when it is there with a non-empty first value.
    When none is usable the name is [item-N] with [0 <= N < 10000]. *)
Theorem C6_namer_precedence (item : value) (w : world bytes) :
  Split.itemName item w = Namer.by_precedence Namer.usable item w /\
  exists n, (n < 10000)%N /\
    Namer.placeholder w =
    Ret (VStr ("item-" ++ Js.dec n))
        (World (disk w) (fun k => entropy w (S k)) (journal w)).
Proof.
  split.
  - unfold Split.itemName, Namer.by_precedence, Namer.usable, Namer.filled,
      Split.has_first, Namer.candidates, Namer.placeholder.
    cbn [List.find fst String.eqb Ascii.eqb Bool.eqb].
    destruct (Js.truthy (Js.get item "name")); [reflexivity|].
    repeat match goal with
           | |- context [Js.truthy (Js.get item ?f) && _] =>
               destruct (Js.truthy (Js.get item f) &&
                         Js.truthy (Js.first (Js.get item f))); [reflexivity|]
           end.
    reflexivity.
  - destruct (random_below_10000_bound w) as (n & Hn & Hr).
    exists n; split; [exact Hn|].
    unfold Namer.placeholder, bind. rewrite Hr. reflexivity.
Qed.

End Namer_facts.

(** C6 as stated fails: with "present" read as "the field is there", a
    record with an empty [application] and an [object] is named after
    [object]; with "present" read as "there and not empty", a record with
    an empty [name] and an [object] is named after [name]. *)
Lemma C6_first_present_counterexample :
  ~ (forall item : value,
       Split.itemName item Sample.empty_world =
       Namer.by_precedence Namer.present item Sample.empty_world) /\
  ~ (forall item : value,
       Split.itemName item Sample.empty_world =
       Namer.by_precedence Namer.filled item Sample.empty_world).
Proof.
  split; intros Hall.
  - specialize (Hall Sample.empty_application). vm_compute in Hall. discriminate.
  - specialize (Hall Sample.empty_name). vm_compute in Hall. discriminate.
Qed.

(** ** Reading does not change the world *)

Section Read_facts.
Context {bytes : Type}.

Lemma existsSync_ret (p : path) (w : world bytes) :
  Fs.existsSync p w = Ret (bool_decide (is_Some (Fs.lookup (disk w) p))) w.
Proof. reflexivity. Qed.

Lemma isDirectory_pure (p : path) (w w' : world bytes) (b : bool) :
  Fs.isDirectory p w = Ret b w' -> w' = w.
Proof.
  unfold Fs.isDirectory.
  destruct (Fs.lookup (disk w) p) as [[d|]|]; intros Heq; congruence.
Qed.

Lemma isDirectory_throw (p : path) (w w' : world bytes) (e : string) :
  Fs.isDirectory p w = Throw e w' -> w' = w.
Proof.
  unfold Fs.isDirectory.
  destruct (Fs.lookup (disk w) p) as [[d|]|]; intros Heq; congruence.
Qed.

Lemma readdirSync_pure (p : path) (w w' : world bytes) (l : list string) :
  Fs.readdirSync p w = Ret l w' -> w' = w /\ l = Fs.names (disk w) p.
Proof.
  unfold Fs.readdirSync.
  destruct (Fs.lookup (disk w) p) as [[d|]|]; intros Heq; split; congruence.
Qed.

Lemma readdirSync_throw (p : path) (w w' : world bytes) (e : string) :
  Fs.readdirSync p w = Throw e w' -> w' = w.
Proof.
  unfold Fs.readdirSync.
  destruct (Fs.lookup (disk w) p) as [[d|]|]; intros Heq; congruence.
Qed.

Lemma readFileSync_pure (p : path) (w w' : world bytes) (data : bytes) :
  Fs.readFileSync p w = Ret data w' ->
  w' = w /\ Fs.lookup (disk w) p = Some (File data).
Proof.
  unfold Fs.readFileSync.
  destruct (Fs.lookup (disk w) p) as [[d|]|]; intros Heq; split; congruence.
Qed.

Lemma readFileSync_throw (p : path) (w w' : world bytes) (e : string) :
  Fs.readFileSync p w = Throw e w' -> w' = w.
Proof.
  unfold Fs.readFileSync.
  destruct (Fs.lookup (disk w) p) as [[d|]|]; intros Heq; congruence.
Qed.

Lemma filter_of_isDirectory_final (dir : path) (l : list string) (w : world bytes) :
  final (filter_of (fun item => Fs.isDirectory (Path.join dir item)) l w) = w.
Proof.
  induction l as [|x l IH]; simpl; [reflexivity|].
  unfold bind.
  destruct (Fs.isDirectory (Path.join dir x) w) as [b w1|e w1] eqn:Hd.
  - apply isDirectory_pure in Hd; subst w1.
    destruct (filter_of _ l w) as [kept w2|e w2]; simpl in *; exact IH.
  - apply isDirectory_throw in Hd; subst w1. reflexivity.
Qed.

(** A loop whose body leaves the world alone and keeps [P] leaves the
    world alone and keeps [P]. *)
Lemma fold_of_pure {A S} (P : S -> Prop) (body : A -> S -> M bytes S)
    (l : list A) :
  (forall x s w s' w', P s -> body x s w = Ret s' w' -> P s' /\ w' = w) ->
  forall s w s' w', P s -> fold_of l body s w = Ret s' w' -> P s' /\ w' = w.
Proof.
  intros Hbody. induction l as [|x l IH]; intros s w s' w' HP; simpl.
  - unfold ret; intros [= <- <-]; auto.
  - unfold bind. destruct (body x s w) as [s1 w1|e w1] eqn:Hb; [|discriminate].
    destruct (Hbody _ _ _ _ _ HP Hb) as [HP1 ->]. apply IH; exact HP1.
Qed.

Lemma fold_of_final {A S} (body : A -> S -> M bytes S) (l : list A) :
  (forall x s w, final (body x s w) = w) ->
  forall s w, final (fold_of l body s w) = w.
Proof.
  intros Hbody. induction l as [|x l IH]; intros s w; simpl; [reflexivity|].
  unfold bind. specialize (Hbody x s w).
  destruct (body x s w) as [s1 w1|e w1]; simpl in Hbody; subst w1;
    [apply IH | reflexivity].
Qed.

End Read_facts.

(** ** Objects *)

Lemma assoc_set_same (k : string) (v : value) (props : list (string * value)) :
  Js.assoc k (Js.assoc_set k v props) = v.
Proof.
  induction props as [|[k' v'] props IH]; simpl.
  - rewrite String.eqb_refl. reflexivity.
  - destruct (String.eqb k k') eqn:Hk; simpl.
    + rewrite String.eqb_refl. reflexivity.
    + rewrite Hk. exact IH.
Qed.

Lemma assoc_set_other (k k' : string) (v : value) (props : list (string * value)) :
  k <> k' -> Js.assoc k (Js.assoc_set k' v props) = Js.assoc k props.
Proof.
  intros Hne. induction props as [|[k0 v0] props IH]; simpl.
  - apply String.eqb_neq in Hne. rewrite Hne. reflexivity.
  - destruct (String.eqb k' k0) eqn:Hk; simpl.
    + apply String.eqb_eq in Hk; subst k0.
      apply String.eqb_neq in Hne. rewrite Hne. reflexivity.
    + destruct (String.eqb k k0); [reflexivity | exact IH].
Qed.

Lemma owns_assoc_set (k k' : string) (v : value) (props : list (string * value)) :
  Js.owns k (Js.assoc_set k' v props) = String.eqb k k' || Js.owns k props.
Proof.
  unfold Js.owns. induction props as [|[k0 v0] props IH]; simpl.
  - rewrite orb_false_r. reflexivity.
  - destruct (String.eqb_spec k' k0) as [->|Hne]; simpl.
    + destruct (String.eqb k k0); reflexivity.
    + rewrite IH. destruct (String.eqb k k0), (String.eqb k k'); reflexivity.
Qed.

Lemma owns_false (k : string) (props : list (string * value)) :
  Js.owns k props = false -> Js.assoc k props = VUndef.
Proof.
  unfold Js.owns. induction props as [|[k0 v0] props IH]; simpl; [reflexivity|].
  destruct (String.eqb k k0); [discriminate | exact IH].
Qed.

(** The read of a key that [Object.prototype] has no member of. *)
Lemma read_plain (k : string) (props : list (string * value)) :
  ~ In k Js.inherited ->
  Js.read k props = if Js.owns k props then Js.Own (Js.assoc k props) else Js.Missing.
Proof.
  intros Hk. unfold Js.read. destruct (Js.owns k props); [reflexivity|].
  destruct (existsb (String.eqb k) Js.inherited) eqn:Hex; [|reflexivity].
  exfalso. apply existsb_exists in Hex as (k' & Hin & Heq).
  apply String.eqb_eq in Heq. subst k'. exact (Hk Hin).
Qed.

Lemma read_assoc_set (k : string) (v : value) (props : list (string * value)) :
  Js.read k (Js.assoc_set k v props) = Js.Own v.
Proof.
  unfold Js.read. rewrite owns_assoc_set, String.eqb_refl, assoc_set_same.
  reflexivity.
Qed.

(** ** The Merger *)

Section Merge_facts.
Context `{Codec bytes}.

Lemma pushItems_canonical (categoryName : string) (items : list value)
    (profile profile' : list (string * value)) (w w' : world bytes) :
  Merge.canonical profile ->
  Merge.pushItems categoryName items profile w = Ret profile' w' ->
  Merge.canonical profile' /\ w' = w.
Proof.
  unfold Merge.canonical, Merge.pushItems. intros Hc.
  destruct (String.eqb_spec categoryName "_xmlns") as [->|Hne].
  - assert (Js.read "_xmlns" profile = Js.Own (VStr Merge.namespace)) as Hread.
    { unfold Js.read. rewrite Hc.
      destruct (Js.owns "_xmlns" profile) eqn:Hown; [reflexivity|].
      apply owns_false in Hown. congruence. }
    rewrite Hread. simpl. rewrite Hread. discriminate.
  - set (profile1 := if negb _ then _ else _).
    assert (Js.assoc "_xmlns" profile1 = VStr Merge.namespace) as Hc1.
    { subst profile1. destruct (negb _); [|exact Hc].
      rewrite assoc_set_other by congruence. exact Hc. }
    destruct (Js.read categoryName profile1) as [[| |old|]| |]; try discriminate.
    unfold ret. intros [= <- <-]. split; [|reflexivity].
    rewrite assoc_set_other by congruence. exact Hc1.
Qed.

Lemma mergeParsed_canonical (categoryName : string) (itemFile : path)
    (profile profile' : list (string * value)) (w w' : world bytes) :
  Merge.canonical profile ->
  Merge.mergeParsed categoryName itemFile profile w = Ret profile' w' ->
  Merge.canonical profile' /\ w' = w.
Proof.
  intros Hc. unfold Merge.mergeParsed, bind.
  destruct (Fs.readFileSync itemFile w) as [data w1|e w1] eqn:Hr; [|discriminate].
  apply readFileSync_pure in Hr as [-> _].
  unfold parseStringPromise. destruct (parseString data) as [m|result]; [discriminate|].
  unfold ret at 1. unfold js_member.
  destruct result as [|s|l|props]; try discriminate; unfold ret at 1;
    (destruct (_ && _); [|unfold ret; intros [= <- <-]; auto]);
    (destruct (Js.get _ categoryName) as [|s'|[|first others]|props'];
       try (unfold ret; intros [= <- <-]; auto));
    apply pushItems_canonical; exact Hc.
Qed.

Lemma mergeItem_canonical (categoryName : string) (itemFile : path)
    (profile profile' : list (string * value)) (w w' : world bytes) :
  Merge.canonical profile ->
  Merge.mergeItem categoryName itemFile profile w = Ret profile' w' ->
  Merge.canonical profile' /\ w' = w.
Proof.
  intros Hc. unfold Merge.mergeItem, try_catch.
  destruct (Merge.mergeParsed categoryName itemFile profile w) as [p1 w1|e w1] eqn:Hm.
  - intros [= <- <-]. eapply mergeParsed_canonical; eassumption.
  - discriminate.
Qed.

Lemma mergeCategory_canonical (categoryDir : path)
    (profile profile' : list (string * value)) (w w' : world bytes) :
  Merge.canonical profile ->
  Merge.mergeCategory categoryDir profile w = Ret profile' w' ->
  Merge.canonical profile' /\ w' = w.
Proof.
  intros Hc. unfold Merge.mergeCategory, bind.
  destruct (Fs.readdirSync categoryDir w) as [l w1|e w1] eqn:Hr; [|discriminate].
  apply readdirSync_pure in Hr as [-> _].
  apply (fold_of_pure Merge.canonical); [|exact Hc].
  intros x s w0 s' w0'. apply mergeItem_canonical.
Qed.

Lemma mergedProfile_canonical (profileDir : path)
    (profile : list (string * value)) (w w' : world bytes) :
  Merge.mergedProfile profileDir w = Ret profile w' ->
  Merge.canonical profile /\ w' = w.
Proof.
  unfold Merge.mergedProfile, bind.
  destruct (Fs.readdirSync profileDir w) as [l w1|e w1] eqn:Hr; [|discriminate].
  apply readdirSync_pure in Hr as [-> _].
  pose proof (filter_of_isDirectory_final profileDir l w) as Hf.
  destruct (filter_of _ l w) as [subdirs w1|e w1]; [|discriminate].
  simpl in Hf; subst w1.
  apply (fold_of_pure Merge.canonical); [|reflexivity].
  intros x s w0 s' w0'. apply mergeCategory_canonical.
Qed.

Lemma mergeItem_skips (categoryName : string) (itemFile : path) (data : bytes)
    (result : value) (profile : list (string * value)) (w : world bytes) :
  Fs.lookup (disk w) itemFile = Some (File data) ->
  parseString data = inr result ->
  result <> VUndef ->
  Js.get (Js.get result "Profile") categoryName = VUndef \/
  Js.get (Js.get result "Profile") categoryName = VArr [] ->
  Merge.mergeItem categoryName itemFile profile w = Ret profile w.
Proof.
  intros Hfile Hparse Hres Hkey.
  unfold Merge.mergeItem, try_catch, Merge.mergeParsed, bind, Fs.readFileSync.
  rewrite Hfile. unfold parseStringPromise. rewrite Hparse. unfold ret at 1.
  unfold js_member. destruct result as [|s|l|props]; [congruence| | |];
    unfold ret at 1;
    (destruct Hkey as [-> | ->]; simpl;
     [rewrite andb_false_r | destruct (Js.truthy _)]; reflexivity).
Qed.

Lemma mergeItem_world (categoryName : string) (itemFile : path)
    (profile profile' : list (string * value)) (w w' : world bytes) :
  Merge.mergeItem categoryName itemFile profile w = Ret profile' w' -> w' = w.
Proof.
  unfold Merge.mergeItem, try_catch, Merge.mergeParsed, bind.
  destruct (Fs.readFileSync itemFile w) as [data w1|e w1] eqn:Hr; [|discriminate].
  apply readFileSync_pure in Hr as [-> _].
  unfold parseStringPromise. destruct (parseString data) as [m|result]; [discriminate|].
  unfold ret at 1. unfold js_member.
  destruct result as [|s|l|props]; try discriminate; unfold ret at 1;
    (destruct (_ && _); [|unfold ret; congruence]);
    (destruct (Js.get _ categoryName) as [|s'|[|first others]|props'];
       try (unfold ret; congruence));
    unfold Merge.pushItems;
    (destruct (Js.read categoryName _) as [[| |old|]| |]; try discriminate;
     unfold ret; congruence).
Qed.

(** C9: an artifact whose parsed document has no entry for the category's
    directory name, or an empty list there, adds nothing to the profile
    object and raises nothing; the artifacts before and after it in the
    category are merged as if it were not there. *)
Theorem C9_artifact_without_records_is_skipped
    (categoryName : string) (itemFile : path) (data : bytes) (result : value)
    (w : world bytes) :
  Fs.lookup (disk w) itemFile = Some (File data) ->
  parseString data = inr result ->
  result <> VUndef ->
  Js.get (Js.get result "Profile") categoryName = VUndef \/
  Js.get (Js.get result "Profile") categoryName = VArr [] ->
  (forall profile, Merge.mergeItem categoryName itemFile profile w = Ret profile w) /\
  (forall before after profile,
     fold_of (before ++ itemFile :: after)%list (Merge.mergeItem categoryName) profile w =
     fold_of (before ++ after)%list (Merge.mergeItem categoryName) profile w).
Proof.
  intros Hfile Hparse Hres Hkey. split.
  - intros profile. eapply mergeItem_skips; eassumption.
  - intros before after profile. rewrite !fold_of_app.
    destruct (fold_of before (Merge.mergeItem categoryName) profile w)
      as [profile1 w1|e w1] eqn:Hb; [|reflexivity].
    assert (w1 = w) as ->.
    { eapply (fold_of_pure (fun _ => True)); [| exact I | exact Hb].
      intros x s w0 s' w0' _ Hx. split; [exact I|].
      eapply mergeItem_world; exact Hx. }
    simpl. unfold bind.
    rewrite (mergeItem_skips _ _ _ _ _ _ Hfile Hparse Hres Hkey). reflexivity.
Qed.

End Merge_facts.

Lemma C9_skipped_artifact_witness :
  (forall profile,
     Merge.mergeItem "classAccesses" ["split"; "Admin"; "classAccesses"; "notes.xml"]
       profile Sample.split_tree = Ret profile Sample.split_tree) /\
  (forall before after profile,
     fold_of (before ++ ["split"; "Admin"; "classAccesses"; "notes.xml"] :: after)%list
       (Merge.mergeItem "classAccesses") profile Sample.split_tree =
     fold_of (before ++ after)%list
       (Merge.mergeItem "classAccesses") profile Sample.split_tree).
Proof.
  apply (C9_artifact_without_records_is_skipped "classAccesses"
           ["split"; "Admin"; "classAccesses"; "notes.xml"]
           (Xml (VObj [("Profile", VObj [("description", VArr [VStr "n/a"])])]))
           (VObj [("Profile", VObj [("description", VArr [VStr "n/a"])])])
           Sample.split_tree).
  - vm_compute. reflexivity.
  - reflexivity.
  - discriminate.
  - left. reflexivity.
Defined.

(** ** The Splitter: what it does to the disk *)

Section Split_effects.
Context `{Codec bytes}.

Lemma js_replace_final (c : ascii) (v : value) (w : world bytes) :
  final (js_replace c v w) = w.
Proof. destruct v; reflexivity. Qed.

(** Naming a record touches neither the disk nor the journal. *)
Lemma itemName_final (item : value) (w : world bytes) :
  disk (final (Split.itemName item w)) = disk w /\
  journal (final (Split.itemName item w)) = journal w.
Proof.
  unfold Split.itemName.
  repeat match goal with
         | |- context [if ?b then _ else _] => destruct b
         end;
    try (rewrite js_replace_final); split; reflexivity.
Qed.

Lemma writeFileSync_ret (p : path) (data : bytes) (w w' : world bytes) :
  Fs.writeFileSync p data w = Ret tt w' ->
  w' = commit (WriteFile p data) (<[p := File data]> (disk w)) w /\
  Fs.lookup (disk w) (removelast p) = Some Dir /\
  Fs.lookup (disk w) p <> Some Dir.
Proof.
  unfold Fs.writeFileSync.
  destruct (Fs.lookup (disk w) p) as [[d|]|]; try discriminate;
    (destruct (Fs.lookup (disk w) (removelast p)) as [[d'|]|]; try discriminate);
    intros [= <-]; repeat split; congruence.
Qed.

Lemma writeFileSync_throw (p : path) (data : bytes) (w w' : world bytes) (e : string) :
  Fs.writeFileSync p data w = Throw e w' -> w' = w.
Proof.
  unfold Fs.writeFileSync.
  destruct (Fs.lookup (disk w) p) as [[d|]|]; try congruence;
    (destruct (Fs.lookup (disk w) (removelast p)) as [[d'|]|]; congruence).
Qed.

Lemma mkdir1_effect (p : path) (w : world bytes) :
  exists evs, journal (final (Fs.mkdir1 p w)) = (journal w ++ evs)%list /\
              forallb is_mkdir evs = true /\
              entropy (final (Fs.mkdir1 p w)) = entropy w.
Proof.
  unfold Fs.mkdir1. destruct (Fs.lookup (disk w) p) as [[d|]|]; simpl.
  - exists []. rewrite app_nil_r. auto.
  - exists []. rewrite app_nil_r. auto.
  - exists [Mkdir p]. auto.
Qed.

Lemma for_of_mkdir1_effect (ps : list path) (w : world bytes) :
  exists evs, journal (final (for_of ps Fs.mkdir1 w)) = (journal w ++ evs)%list /\
              forallb is_mkdir evs = true /\
              entropy (final (for_of ps Fs.mkdir1 w)) = entropy w.
Proof.
  revert w. induction ps as [|p ps IH]; intros w; simpl.
  - exists []. rewrite app_nil_r. auto.
  - unfold bind. destruct (mkdir1_effect p w) as (evs1 & Hj1 & Hm1 & He1).
    destruct (Fs.mkdir1 p w) as [[] w1|e w1]; simpl in *.
    + destruct (IH w1) as (evs2 & Hj2 & Hm2 & He2).
      exists (evs1 ++ evs2)%list. rewrite Hj2, Hj1, <- app_assoc.
      rewrite forallb_app, Hm1, Hm2, He2, He1. auto.
    + exists evs1. auto.
Qed.

Lemma mkdirSync_effect (p : path) (w : world bytes) :
  exists evs, journal (final (Fs.mkdirSync p w)) = (journal w ++ evs)%list /\
              forallb is_mkdir evs = true /\
              entropy (final (Fs.mkdirSync p w)) = entropy w.
Proof. apply for_of_mkdir1_effect. Qed.

Lemma written_app (evs1 evs2 : list (event bytes)) :
  written (evs1 ++ evs2)%list = (written evs1 ++ written evs2)%list.
Proof. unfold written. apply omap_app. Qed.

Lemma written_mkdirs (evs : list (event bytes)) :
  forallb is_mkdir evs = true -> written evs = [].
Proof.
  induction evs as [|[p|p d|p|p] evs IH]; simpl; try discriminate; auto.
Qed.

Lemma removes_mkdirs (evs : list (event bytes)) :
  forallb is_mkdir evs = true -> existsb removes evs = false.
Proof.
  induction evs as [|[p|p d|p|p] evs IH]; simpl; try discriminate; auto.
Qed.

(** One item: either its artifact is written, by one write, or nothing is
    changed; the latter without an exception only for an item that is not
    an object. *)
Lemma splitItem_effect (profileDir : path) (key : string) (xmlns item : value)
    (w : world bytes) :
  let o := Split.splitItem (Path.join profileDir key) key xmlns item w in
  (exists wr, Js.isObject item = true /\ thrown o = None /\
              is_artifact_of profileDir xmlns wr (key, item) /\
              journal (final o) = (journal w ++ [WriteFile (fst wr) (snd wr)])%list) \/
  (journal (final o) = journal w /\
   (thrown o = None -> Js.isObject item = false)).
Proof.
  unfold Split.splitItem, when.
  destruct (Js.isObject item) eqn:Hobj; [|right; simpl; auto].
  unfold bind.
  pose proof (itemName_final item w) as [_ Hj].
  destruct (Split.itemName item w) as [name w1|e w1]; simpl in Hj.
  - destruct (Fs.writeFileSync _ _ w1) as [[] w2|e w2] eqn:Hw.
    + apply writeFileSync_ret in Hw as (-> & _ & _). left.
      eexists (_, _). simpl. rewrite Hj.
      repeat split; try reflexivity. exists name. reflexivity.
    + apply writeFileSync_throw in Hw as ->. right. simpl.
      split; [exact Hj | discriminate].
  - right. simpl. split; [exact Hj | discriminate].
Qed.

Lemma writes_records_nothing (profileDir : path) (xmlns : value)
    (w : world bytes) (o : outcome bytes unit) (evs : list (event bytes)) :
  journal (final o) = (journal w ++ evs)%list ->
  forallb is_mkdir evs = true ->
  writes_records profileDir xmlns [] w o.
Proof.
  intros Hj Hm. exists evs, []. rewrite (written_mkdirs _ Hm).
  repeat split; auto using removes_mkdirs. exists []. reflexivity.
Qed.

Lemma writes_records_seq (profileDir : path) (xmlns : value)
    (recs1 recs2 : list (string * value)) (m1 : M bytes unit) (m2 : M bytes unit)
    (w : world bytes) :
  writes_records profileDir xmlns recs1 w (m1 w) ->
  (forall w1, writes_records profileDir xmlns recs2 w1 (m2 w1)) ->
  writes_records profileDir xmlns (recs1 ++ recs2)%list w (bind m1 (fun _ => m2) w).
Proof.
  intros (evs1 & done1 & Hj1 & Hr1 & Hf1 & [rest1 Hp1] & Hd1) H2.
  unfold bind. destruct (m1 w) as [[] w1|e w1]; simpl in *.
  - specialize (Hd1 eq_refl). subst done1.
    destruct (H2 w1) as (evs2 & done2 & Hj2 & Hr2 & Hf2 & [rest2 Hp2] & Hd2).
    exists (evs1 ++ evs2)%list, (recs1 ++ done2)%list.
    rewrite Hj2, Hj1, <- app_assoc, existsb_app, Hr1, Hr2, written_app.
    repeat split; auto.
    + apply Forall2_app; assumption.
    + exists rest2. rewrite <- app_assoc. congruence.
    + intros Hn. rewrite (Hd2 Hn). reflexivity.
  - exists evs1, done1. repeat split; auto; try discriminate.
    exists (rest1 ++ recs2)%list. rewrite app_assoc. congruence.
Qed.

Lemma splitItem_writes (profileDir : path) (key : string) (xmlns item : value)
    (w : world bytes) :
  writes_records profileDir xmlns
    (map (pair key) (List.filter Js.isObject [item])) w
    (Split.splitItem (Path.join profileDir key) key xmlns item w).
Proof.
  destruct (splitItem_effect profileDir key xmlns item w)
    as [([p data] & Hobj & Hn & Ha & Hj) | (Hj & Hobj)]; simpl in *.
  - rewrite Hobj. simpl. exists [WriteFile p data], [(key, item)].
    split; [exact Hj|]. split; [reflexivity|].
    split; [simpl; constructor; [exact Ha | constructor]|].
    split; [exists []; reflexivity | reflexivity].
  - exists [], []. rewrite app_nil_r. repeat split; auto.
    + eexists. reflexivity.
    + intros Hn. rewrite (Hobj Hn). reflexivity.
Qed.

Lemma splitItems_writes (profileDir : path) (key : string) (xmlns : value)
    (items : list value) (w : world bytes) :
  writes_records profileDir xmlns
    (map (pair key) (List.filter Js.isObject items)) w
    (for_of items (Split.splitItem (Path.join profileDir key) key xmlns) w).
Proof.
  revert w. induction items as [|item items IH]; intros w.
  - simpl. exists [], []. rewrite app_nil_r. repeat split; auto.
    exists []. reflexivity.
  - change (item :: items) with ([item] ++ items)%list.
    rewrite List.filter_app, map_app.
    change (for_of ([item] ++ items)%list ?f w)
      with (bind (f item) (fun _ => for_of items f) w).
    apply writes_records_seq; [apply splitItem_writes | exact IH].
Qed.

Lemma splitCategory_writes (profileDir : path) (xmlns : value)
    (kv : string * value) (w : world bytes) :
  writes_records profileDir xmlns (records [kv]) w
    (Split.splitCategory profileDir xmlns kv w).
Proof.
  destruct kv as [key v]. unfold records, Split.splitCategory, when. simpl.
  rewrite app_nil_r.
  destruct (Split.nonempty_array v) eqn:Hne.
  - change (map (pair key) ?l) with ([] ++ map (pair key) l)%list.
    unfold bind at 1. rewrite existsSync_ret.
    apply writes_records_seq.
    + destruct (negb _).
      * destruct (mkdirSync_effect (Path.join profileDir key) w) as (evs & Hj & Hm & _).
        eapply writes_records_nothing; eassumption.
      * eapply (writes_records_nothing _ _ _ _ []); [|reflexivity].
        simpl. rewrite app_nil_r. reflexivity.
    + intros w1. apply splitItems_writes.
  - assert (Split.array_items v = []) as ->.
    { destruct v as [| |[|]|]; try reflexivity. discriminate. }
    simpl. eapply (writes_records_nothing _ _ _ _ []); [|reflexivity].
    simpl. rewrite app_nil_r. reflexivity.
Qed.

Lemma splitCategories_writes (profileDir : path) (xmlns : value)
    (categories : list (string * value)) (w : world bytes) :
  writes_records profileDir xmlns (records categories) w
    (for_of categories (Split.splitCategory profileDir xmlns) w).
Proof.
  revert w. induction categories as [|kv categories IH]; intros w.
  - simpl. exists [], []. rewrite app_nil_r. repeat split; auto.
    exists []. reflexivity.
  - replace (records (kv :: categories))
      with (records [kv] ++ records categories)%list
      by (unfold records; simpl; rewrite app_nil_r; reflexivity).
    change (for_of (kv :: categories) ?f w)
      with (bind (f kv) (fun _ => for_of categories f) w).
    apply writes_records_seq; [apply splitCategory_writes | exact IH].
Qed.

Lemma splitParsed_writes (profileName : string) (content : bytes)
    (result : value) (outputDir : path) (w : world bytes) :
  parseString content = inr result ->
  writes_records (Path.join outputDir profileName)
    (Js.get (Js.get result "Profile") "_xmlns")
    (records (Js.own (Js.get result "Profile"))) w
    (Split.splitParsed profileName content outputDir w).
Proof.
  intros Hparse. unfold Split.splitParsed, parseStringPromise.
  rewrite Hparse. unfold bind at 1, ret at 1.
  set (profileDir := Path.join outputDir profileName).
  destruct (decide (result = VUndef)) as [->|Hres].
  { exists [], []. simpl. rewrite app_nil_r.
    repeat split; auto. exists []. reflexivity. }
  assert (js_member (bytes := bytes) result "Profile" =
          ret (Js.get result "Profile")) as ->
    by (destruct result; [congruence|reflexivity..]).
  unfold bind at 1, ret at 1. unfold bind at 1. rewrite existsSync_ret.
  set (profile := Js.get result "Profile").
  change (records (Js.own profile)) with ([] ++ records (Js.own profile))%list.
  apply writes_records_seq.
  - destruct (negb _).
    + destruct (mkdirSync_effect profileDir w) as (evs & Hj & Hm & _).
      eapply writes_records_nothing; eassumption.
    + eapply (writes_records_nothing _ _ _ _ []); [|reflexivity].
      simpl. rewrite app_nil_r. reflexivity.
  - intros w1. unfold js_entries, bind.
    destruct profile; simpl Js.entries; unfold ret, throw;
      try apply splitCategories_writes.
    exists [], []. simpl. rewrite app_nil_r.
    repeat split; auto. exists []. reflexivity.
Qed.

Lemma try_catch_error_final {A} (m : M bytes A) (wrap : string -> string)
    (w : world bytes) :
  final (try_catch m (fun e => this_error (wrap e)) w) = final (m w) /\
  (thrown (try_catch m (fun e => this_error (wrap e)) w) = None <->
   thrown (m w) = None).
Proof.
  unfold try_catch, this_error, throw.
  destruct (m w); simpl; split; try reflexivity; split; discriminate.
Qed.

Lemma splitProfile_writes (profileFile outputDir : path) (content : bytes)
    (result : value) (w : world bytes) :
  Fs.lookup (disk w) profileFile = Some (File content) ->
  parseString content = inr result ->
  writes_records
    (Path.join outputDir (Path.basename_ext profileFile ".profile-meta.xml"))
    (Js.get (Js.get result "Profile") "_xmlns")
    (records (Js.own (Js.get result "Profile"))) w
    (Split.splitProfile profileFile outputDir w).
Proof.
  intros Hfile Hparse. unfold Split.splitProfile, bind, Fs.readFileSync.
  rewrite Hfile.
  set (name := Path.basename_ext profileFile ".profile-meta.xml").
  pose proof (splitParsed_writes name content result outputDir w Hparse)
    as (evs & done & Hj & Hr & Hf & Hp & Hd).
  destruct (try_catch_error_final (Split.splitParsed name content outputDir)
              (fun m => "Error processing profile " ++ name ++ ": " ++ m) w)
    as [Hfin Hthr].
  exists evs, done. rewrite Hfin. repeat split; auto.
  intros Hn. apply Hd, Hthr, Hn.
Qed.

Lemma artifact_profile (key : string) (item xmlns : value) :
  Js.get (Split.artifact key item xmlns) "Profile" =
  VObj (Js.assoc_set "_xmlns" xmlns (Js.assoc_set key (VArr [item]) [])).
Proof.
  unfold Split.artifact, Js.get, Js.literal.
  cbn [Js.own Js.assoc fold_left fst snd]. rewrite String.eqb_refl. reflexivity.
Qed.

Lemma artifact_xmlns (key : string) (item xmlns : value) :
  Js.get (Js.get (Split.artifact key item xmlns) "Profile") "_xmlns" = xmlns.
Proof.
  rewrite artifact_profile. unfold Js.get. cbn [Js.own].
  apply assoc_set_same.
Qed.

Lemma artifact_category (key : string) (item xmlns : value) :
  key <> "_xmlns" ->
  Js.get (Js.get (Split.artifact key item xmlns) "Profile") key = VArr [item].
Proof.
  intros Hne. rewrite artifact_profile. unfold Js.get. cbn [Js.own].
  rewrite assoc_set_other by exact Hne. apply assoc_set_same.
Qed.

(** C4, as the code has it: when a profile is split without an exception,
    the files written are, in order, exactly one per object-typed item of
    the array-valued entries of the profile object, each the artifact of its
    record in its category directory.  Items that are not objects are not in
    [records]: they are passed over. *)
Theorem C4_object_records_written_once (profileFile outputDir : path)
    (content : bytes) (result : value) (w w' : world bytes) :
  Fs.lookup (disk w) profileFile = Some (File content) ->
  parseString content = inr result ->
  Split.splitProfile profileFile outputDir w = Ret tt w' ->
  exists evs : list (event bytes),
    journal w' = (journal w ++ evs)%list /\
    Forall2
      (is_artifact_of
         (Path.join outputDir (Path.basename_ext profileFile ".profile-meta.xml"))
         (Js.get (Js.get result "Profile") "_xmlns"))
      (written evs) (records (Js.own (Js.get result "Profile"))).
Proof.
  intros Hfile Hparse Hret.
  destruct (splitProfile_writes profileFile outputDir content result w Hfile Hparse)
    as (evs & done & Hj & _ & Hf & _ & Hd).
  rewrite Hret in Hj, Hd. simpl in Hj, Hd.
  exists evs. split; [exact Hj|]. rewrite <- (Hd eq_refl). exact Hf.
Qed.

End Split_effects.

(** ** Categories without records, and failing units *)

Section Split_units.
Context `{Codec bytes}.

(** The entry of a category with zero records is passed over: going
    through it changes nothing, and the profile is split as if the entry
    were not there. *)
Lemma empty_category_is_skipped (profileDir : path) (xmlns : value)
    (key : string) (w : world bytes) :
  Split.splitCategory profileDir xmlns (key, VArr []) w = Ret tt w /\
  forall before after,
    for_of (before ++ (key, VArr []) :: after)%list
      (Split.splitCategory profileDir xmlns) w =
    for_of (before ++ after)%list (Split.splitCategory profileDir xmlns) w.
Proof.
  split; [reflexivity|].
  intros before after. rewrite !for_of_app.
  destruct (for_of before _ w) as [[] w1|e w1]; reflexivity.
Qed.

Lemma splitProfile_parse_error (profileFile outputDir : path) (content : bytes)
    (message : string) (w : world bytes) :
  Fs.lookup (disk w) profileFile = Some (File content) ->
  parseString content = inl message ->
  Split.splitProfile profileFile outputDir w =
  Throw ("Error processing profile " ++
         Path.basename_ext profileFile ".profile-meta.xml" ++ ": " ++ message) w.
Proof.
  intros Hfile Hparse.
  unfold Split.splitProfile, bind, Fs.readFileSync. rewrite Hfile.
  unfold try_catch, Split.splitParsed, bind, parseStringPromise.
  rewrite Hparse. reflexivity.
Qed.

(** C2, as the code has it: a unit whose document does not parse raises
    an error that carries the unit's name and the parser's message, and
    changes nothing; the exception ends the loop over the batch, so the
    units listed before it have been processed and the units listed after
    it are not. *)
Theorem C2_batch_stops_at_unparsable_unit (before after : list path)
    (failing outputDir : path) (content : bytes) (message : string)
    (w w1 : world bytes) :
  for_of before (fun profileFile => Split.splitProfile profileFile outputDir) w =
    Ret tt w1 ->
  Fs.lookup (disk w1) failing = Some (File content) ->
  parseString content = inl message ->
  for_of (before ++ failing :: after)%list
    (fun profileFile => Split.splitProfile profileFile outputDir) w =
  Throw ("Error processing profile " ++
         Path.basename_ext failing ".profile-meta.xml" ++ ": " ++ message) w1.
Proof.
  intros Hbefore Hfile Hparse. rewrite for_of_app, Hbefore. simpl. unfold bind.
  rewrite (splitProfile_parse_error _ _ _ _ _ Hfile Hparse). reflexivity.
Qed.

End Split_units.

(** C2 as stated fails: of the three profiles Admin, Custom and Standard,
    listed in this order, Custom is malformed; the run ends with the error
    naming Custom, Admin has been split, and nothing was made for Standard. *)
Lemma C2_sibling_not_processed :
  let o := Split.run ["in"] ["out"] false Sample.batch in
  Fs.names (disk Sample.batch) ["in"] =
    ["Admin.profile-meta.xml"; "Custom.profile-meta.xml";
     "Standard.profile-meta.xml"] /\
  thrown o = Some "Error processing profile Custom: Unclosed root tag" /\
  Fs.lookup (disk (final o)) ["out"; "Admin"] = Some Dir /\
  Fs.lookup (disk (final o)) ["out"; "Standard"] = None /\
  Fs.names (disk (final o)) ["out"] = ["Admin"].
Proof. vm_compute. repeat split; reflexivity. Qed.

Lemma C2_batch_stops_witness :
  for_of ([["in"; "Admin.profile-meta.xml"]] ++
          ["in"; "Custom.profile-meta.xml"] ::
          [["in"; "Standard.profile-meta.xml"]])%list
    (fun profileFile => Split.splitProfile profileFile ["out"]) Sample.batch =
  Throw ("Error processing profile " ++
         Path.basename_ext ["in"; "Custom.profile-meta.xml"] ".profile-meta.xml" ++
         ": " ++ "Unclosed root tag")
    (final (Split.splitProfile ["in"; "Admin.profile-meta.xml"] ["out"] Sample.batch)).
Proof.
  apply (C2_batch_stops_at_unparsable_unit
           [["in"; "Admin.profile-meta.xml"]] [["in"; "Standard.profile-meta.xml"]]
           ["in"; "Custom.profile-meta.xml"] ["out"]
           (Malformed "Unclosed root tag") "Unclosed root tag" Sample.batch).
  - vm_compute. reflexivity.
  - vm_compute. reflexivity.
  - reflexivity.
Defined.

(** ** Creation comes before removal *)

Section Journal_order.
Context `{Codec bytes}.

Lemma grows_same {A} (allowed : event bytes -> bool) (w : world bytes)
    (o : outcome bytes A) :
  journal (final o) = journal w -> grows allowed w o.
Proof. intros Hj. exists []. rewrite app_nil_r. auto. Qed.

Lemma grows_bind {A B} (allowed : event bytes -> bool) (m : M bytes A)
    (k : A -> M bytes B) (w : world bytes) :
  grows allowed w (m w) ->
  (forall a w1, grows allowed w1 (k a w1)) ->
  grows allowed w (bind m k w).
Proof.
  intros (evs1 & Hj1 & Ha1) Hk. unfold bind.
  destruct (m w) as [a w1|e w1]; simpl in *.
  - destruct (Hk a w1) as (evs2 & Hj2 & Ha2).
    exists (evs1 ++ evs2)%list.
    rewrite Hj2, Hj1, <- app_assoc, forallb_app, Ha1, Ha2. auto.
  - exists evs1. auto.
Qed.

Lemma grows_for_of {A} (allowed : event bytes -> bool) (body : A -> M bytes unit)
    (l : list A) :
  (forall x w, grows allowed w (body x w)) ->
  forall w, grows allowed w (for_of l body w).
Proof.
  intros Hbody. induction l as [|x l IH]; intros w; simpl.
  - apply grows_same. reflexivity.
  - apply grows_bind; [apply Hbody | intros _ w1; apply IH].
Qed.

Lemma grows_when (allowed : event bytes -> bool) (c : bool) (m : M bytes unit)
    (w : world bytes) :
  grows allowed w (m w) -> grows allowed w (when c m w).
Proof. destruct c; [auto | intros _; apply grows_same; reflexivity]. Qed.

Lemma splitProfile_creates (profileFile outputDir : path) (w : world bytes) :
  grows creates w (Split.splitProfile profileFile outputDir w).
Proof.
  unfold Split.splitProfile, bind.
  destruct (Fs.readFileSync profileFile w) as [content w1|e w1] eqn:Hr.
  - apply readFileSync_pure in Hr as [-> Hfile].
    set (name := Path.basename_ext profileFile ".profile-meta.xml").
    destruct (try_catch_error_final (Split.splitParsed name content outputDir)
                (fun m => "Error processing profile " ++ name ++ ": " ++ m) w)
      as [Hfin _].
    unfold grows. rewrite Hfin.
    unfold Split.splitParsed, bind at 1, parseStringPromise.
    destruct (parseString content) as [m|result] eqn:Hparse.
    + exists []. simpl. rewrite app_nil_r. auto.
    + pose proof (splitParsed_writes name content result outputDir w Hparse)
        as (evs & done & Hj & Hrm & _).
      unfold Split.splitParsed, bind at 1, parseStringPromise in Hj.
      rewrite Hparse in Hj. exists evs. split; [exact Hj|].
      clear -Hrm. induction evs as [|ev evs IH]; [reflexivity|].
      simpl in *. apply orb_false_iff in Hrm as [Hev Hrm].
      unfold creates at 1. rewrite Hev. simpl. auto.
  - apply readFileSync_throw in Hr as ->. apply grows_same. reflexivity.
Qed.

Lemma unlinkSync_removes (p : path) (w : world bytes) :
  grows removes w (Fs.unlinkSync p w).
Proof.
  unfold Fs.unlinkSync. destruct (Fs.lookup (disk w) p) as [[d|]|].
  - exists [Unlink p]. auto.
  - apply grows_same. reflexivity.
  - apply grows_same. reflexivity.
Qed.

Lemma rmdirSync_removes (p : path) (w : world bytes) :
  grows removes w (Fs.rmdirSync p w).
Proof.
  unfold Fs.rmdirSync.
  destruct p as [|seg p]; [apply grows_same; reflexivity|].
  destruct (Fs.lookup (disk w) (seg :: p)) as [[d|]|];
    try (apply grows_same; reflexivity).
  destruct (Fs.names (disk w) (seg :: p)).
  - exists [Rmdir (seg :: p)]. auto.
  - apply grows_same. reflexivity.
Qed.

Lemma deleteDirectory_removes (fuel : nat) (directory : path) (w : world bytes) :
  grows removes w (Merge.deleteDirectory fuel directory w).
Proof.
  revert directory w. induction fuel as [|fuel IH]; intros directory w; simpl.
  - apply grows_same. reflexivity.
  - unfold bind at 1. rewrite existsSync_ret. apply grows_when.
    apply grows_bind.
    + destruct (Fs.readdirSync directory w) as [l w1|e w1] eqn:Hr.
      * apply readdirSync_pure in Hr as [-> _]. apply grows_same. reflexivity.
      * apply readdirSync_throw in Hr as ->. apply grows_same. reflexivity.
    + intros listing w1. apply grows_bind; [|intros _ w2; apply rmdirSync_removes].
      apply grows_for_of. intros file w2. apply grows_bind.
      * destruct (Fs.isDirectory (Path.join directory file) w2) as [b w3|e w3] eqn:Hd.
        -- apply isDirectory_pure in Hd as ->. apply grows_same. reflexivity.
        -- apply isDirectory_throw in Hd as ->. apply grows_same. reflexivity.
      * intros [|] w3; [apply IH | apply unlinkSync_removes].
Qed.

Lemma pushItems_final (categoryName : string) (items : list value)
    (profile : list (string * value)) (w : world bytes) :
  final (Merge.pushItems categoryName items profile w) = w.
Proof.
  unfold Merge.pushItems.
  destruct (Js.read categoryName _) as [[| |old|]| |]; reflexivity.
Qed.

Lemma mergeItem_final (categoryName : string) (itemFile : path)
    (profile : list (string * value)) (w : world bytes) :
  final (Merge.mergeItem categoryName itemFile profile w) = w.
Proof.
  unfold Merge.mergeItem.
  match goal with
  | |- final (try_catch ?m (fun e => this_error (@?wrap e)) w) = w =>
      destruct (try_catch_error_final m wrap w) as [-> _]
  end.
  unfold Merge.mergeParsed, bind.
  destruct (Fs.readFileSync itemFile w) as [data w1|e w1] eqn:Hr.
  - apply readFileSync_pure in Hr as [-> _].
    unfold parseStringPromise. destruct (parseString data) as [m|result]; [reflexivity|].
    unfold ret at 1. unfold js_member.
    destruct result as [|s|l|props]; try reflexivity; unfold ret at 1;
      (destruct (_ && _); [|reflexivity]);
      (destruct (Js.get _ categoryName) as [|s'|[|first others]|props'];
         try reflexivity);
      apply pushItems_final.
  - apply readFileSync_throw in Hr as ->. reflexivity.
Qed.

Lemma mergeCategory_final (categoryDir : path) (profile : list (string * value))
    (w : world bytes) :
  final (Merge.mergeCategory categoryDir profile w) = w.
Proof.
  unfold Merge.mergeCategory, bind.
  destruct (Fs.readdirSync categoryDir w) as [l w1|e w1] eqn:Hr.
  - apply readdirSync_pure in Hr as [-> _].
    apply fold_of_final. intros x s w0. apply mergeItem_final.
  - apply readdirSync_throw in Hr as ->. reflexivity.
Qed.

Lemma mergedProfile_final (profileDir : path) (w : world bytes) :
  final (Merge.mergedProfile profileDir w) = w.
Proof.
  unfold Merge.mergedProfile, bind.
  destruct (Fs.readdirSync profileDir w) as [l w1|e w1] eqn:Hr.
  - apply readdirSync_pure in Hr as [-> _].
    pose proof (filter_of_isDirectory_final profileDir l w) as Hf.
    destruct (filter_of _ l w) as [subdirs w1|e w1]; simpl in Hf; subst w1.
    + apply fold_of_final. intros x s w0. apply mergeCategory_final.
    + reflexivity.
  - apply readdirSync_throw in Hr as ->. reflexivity.
Qed.

Lemma mergeProfile_creates (profileDir outputDir : path) (w : world bytes) :
  grows creates w (Merge.mergeProfile profileDir outputDir w).
Proof.
  unfold Merge.mergeProfile. apply grows_bind.
  - apply grows_same. rewrite mergedProfile_final. reflexivity.
  - intros profile w1.
    destruct (Fs.writeFileSync _ _ w1) as [[] w2|e w2] eqn:Hw.
    + apply writeFileSync_ret in Hw as (-> & _). eexists [_]. split; reflexivity.
    + apply writeFileSync_throw in Hw as ->. apply grows_same. reflexivity.
Qed.

(** A loop over the units followed by the removal of the originals: the
    journal grows by what the units make and then by the removals, and
    there are no removals when a unit raised. *)
Lemma process_then_delete {A} (units : list A) (process remove : A -> M bytes unit)
    (shouldDelete : bool) (w : world bytes) :
  (forall x w0, grows creates w0 (process x w0)) ->
  (forall x w0, grows removes w0 (remove x w0)) ->
  let processed := for_of units process w in
  let o := bind (for_of units process)
                (fun _ => when shouldDelete (for_of units remove)) w in
  removal_comes_last w processed o.
Proof.
  intros Hp Hr processed o. unfold removal_comes_last.
  destruct (grows_for_of creates process units Hp w) as (made & Hj & Hc).
  fold processed in Hj. subst o. unfold bind.
  destruct processed as [[] w1|e w1] eqn:Hpr; fold processed; rewrite Hpr; simpl in *.
  - assert (grows removes w1 (when shouldDelete (for_of units remove) w1))
      as (removed & Hj2 & Hr2)
      by (apply grows_when, grows_for_of, Hr).
    exists made, removed. rewrite Hj2, Hj, <- app_assoc.
    repeat split; auto; contradiction.
  - exists made, []. rewrite app_nil_r. repeat split; auto.
Qed.

Lemma split_run_units (inputDir outputDir : path) (shouldDelete : bool)
    (w : world bytes) :
  Fs.lookup (disk w) inputDir = Some Dir ->
  is_Some (Fs.lookup (disk w) outputDir) ->
  let profileFiles :=
    map (Path.join inputDir)
        (List.filter (Path.ends_with ".profile-meta.xml")
                     (Fs.names (disk w) inputDir)) in
  Split.run inputDir outputDir shouldDelete w =
  bind (for_of profileFiles (fun f => Split.splitProfile f outputDir))
       (fun _ => when shouldDelete (for_of profileFiles Fs.unlinkSync)) w.
Proof.
  intros Hin Hout. unfold Split.run, bind, Fs.existsSync, Fs.readdirSync.
  rewrite (bool_decide_eq_true_2 (is_Some (Fs.lookup (disk w) inputDir)))
    by (rewrite Hin; eauto).
  cbv beta iota delta [negb].
  rewrite (bool_decide_eq_true_2 _ Hout).
  unfold when at 1, ret at 1. cbv beta iota delta [negb]. rewrite Hin.
  destruct (map _ _); [destruct shouldDelete|]; reflexivity.
Qed.

Lemma merge_run_units (inputDir outputDir : path) (shouldDelete : bool)
    (subdirs : list string) (w : world bytes) :
  Fs.lookup (disk w) inputDir = Some Dir ->
  is_Some (Fs.lookup (disk w) outputDir) ->
  filter_of (fun item => Fs.isDirectory (Path.join inputDir item))
            (Fs.names (disk w) inputDir) w = Ret subdirs w ->
  let profileDirs := map (Path.join inputDir) subdirs in
  Merge.run inputDir outputDir shouldDelete w =
  bind (for_of profileDirs (fun d => Merge.mergeProfile d outputDir))
       (fun _ => when shouldDelete (for_of profileDirs Merge.deleteDirectoryAll)) w.
Proof.
  intros Hin Hout Hsub. unfold Merge.run, bind, Fs.existsSync, Fs.readdirSync.
  rewrite (bool_decide_eq_true_2 (is_Some (Fs.lookup (disk w) inputDir)))
    by (rewrite Hin; eauto).
  cbv beta iota delta [negb].
  rewrite (bool_decide_eq_true_2 _ Hout).
  unfold when at 1, ret at 1. cbv beta iota delta [negb]. rewrite Hin.
  rewrite Hsub.
  destruct (map _ _); [destruct shouldDelete|]; reflexivity.
Qed.

(** C3, as the code has it, for both commands run with the delete flag:
    the originals are removed only after the loop over all units, and only
    when no unit raised.  When a unit fails, the run ends with that unit's
    exception and removes nothing: not the failed unit's original, and not
    the originals of the units processed before it. *)
Theorem C3_originals_removed_only_after_every_unit (inputDir outputDir : path)
    (subdirs : list string) (w : world bytes) :
  Fs.lookup (disk w) inputDir = Some Dir ->
  is_Some (Fs.lookup (disk w) outputDir) ->
  filter_of (fun item => Fs.isDirectory (Path.join inputDir item))
            (Fs.names (disk w) inputDir) w = Ret subdirs w ->
  let profileFiles :=
    map (Path.join inputDir)
        (List.filter (Path.ends_with ".profile-meta.xml")
                     (Fs.names (disk w) inputDir)) in
  let profileDirs := map (Path.join inputDir) subdirs in
  removal_comes_last w
    (for_of profileFiles (fun f => Split.splitProfile f outputDir) w)
    (Split.run inputDir outputDir true w) /\
  removal_comes_last w
    (for_of profileDirs (fun d => Merge.mergeProfile d outputDir) w)
    (Merge.run inputDir outputDir true w).
Proof.
  intros Hin Hout Hsub profileFiles profileDirs. split.
  - rewrite (split_run_units inputDir outputDir true w Hin Hout).
    apply process_then_delete.
    + intros f w0. apply splitProfile_creates.
    + intros f w0. apply unlinkSync_removes.
  - rewrite (merge_run_units inputDir outputDir true subdirs w Hin Hout Hsub).
    apply process_then_delete.
    + intros d w0. apply mergeProfile_creates.
    + intros d w0. apply deleteDirectory_removes.
Qed.

End Journal_order.

(** C3 as stated fails: in the batch Admin, Custom, Standard with Custom
    malformed and the delete flag set, Admin is split without error and its
    original is still there after the run; nothing at all was removed. *)
Lemma C3_processed_original_not_removed :
  let o := Split.run ["in"] ["out"] true Sample.batch in
  thrown (Split.splitProfile ["in"; "Admin.profile-meta.xml"] ["out"] Sample.batch) = None /\
  thrown o = Some "Error processing profile Custom: Unclosed root tag" /\
  Fs.lookup (disk (final o)) ["in"; "Admin.profile-meta.xml"] =
    Some (File (Xml Sample.admin_doc)) /\
  Fs.names (disk (final o)) ["out"; "Admin"; "classAccesses"] = ["B.xml"; "A.xml"] /\
  existsb removes (journal (final o)) = false.
Proof. vm_compute. repeat split; reflexivity. Qed.

Lemma C3_removal_order_witness :
  removal_comes_last Sample.mixed
    (for_of [["in"; "Admin.profile-meta.xml"]; ["in"; "Custom.profile-meta.xml"]]
       (fun f => Split.splitProfile f ["out"]) Sample.mixed)
    (Split.run ["in"] ["out"] true Sample.mixed) /\
  removal_comes_last Sample.mixed
    (for_of [["in"; "Guest"]] (fun d => Merge.mergeProfile d ["out"]) Sample.mixed)
    (Merge.run ["in"] ["out"] true Sample.mixed).
Proof.
  apply (C3_originals_removed_only_after_every_unit ["in"] ["out"] ["Guest"] Sample.mixed).
  - reflexivity.
  - exists Dir. reflexivity.
  - vm_compute. reflexivity.
Defined.

(** C4 as stated fails: the [custom] category of the Admin profile holds
    one record, the text [false]; the profile is split without an error,
    the category directory is made and stays empty: no write carries the
    record. *)
Lemma C4_scalar_record_dropped :
  let o := Split.splitProfile ["in"; "Admin.profile-meta.xml"] ["out"] Sample.batch in
  Split.array_items (Js.get (Js.get Sample.admin_doc "Profile") "custom") =
    [VStr "false"] /\
  thrown o = None /\
  Fs.lookup (disk (final o)) ["out"; "Admin"; "custom"] = Some Dir /\
  Fs.names (disk (final o)) ["out"; "Admin"; "custom"] = [] /\
  map fst (written (journal (final o))) =
    [["out"; "Admin"; "classAccesses"; "A.xml"];
     ["out"; "Admin"; "classAccesses"; "B.xml"]].
Proof. vm_compute. repeat split; reflexivity. Qed.

Lemma C4_written_once_witness :
  exists evs : list (event text),
    journal (final (Split.splitProfile ["in"; "Admin.profile-meta.xml"] ["out"]
                      Sample.batch)) =
      (journal Sample.batch ++ evs)%list /\
    Forall2
      (is_artifact_of
         (Path.join ["out"]
            (Path.basename_ext ["in"; "Admin.profile-meta.xml"] ".profile-meta.xml"))
         (Js.get (Js.get Sample.admin_doc "Profile") "_xmlns"))
      (written evs) (records (Js.own (Js.get Sample.admin_doc "Profile"))).
Proof.
  apply (C4_object_records_written_once ["in"; "Admin.profile-meta.xml"] ["out"]
           (Xml Sample.admin_doc) Sample.admin_doc Sample.batch).
  - reflexivity.
  - reflexivity.
  - vm_compute. reflexivity.
Defined.

(** ** Directories *)

Section Directories.
Context `{Codec bytes}.

Lemma lookup_insert_fs (d : gmap path (node bytes)) (p q : path) (x : node bytes) :
  p <> [] ->
  Fs.lookup (<[p := x]> d) q = if decide (q = p) then Some x else Fs.lookup d q.
Proof.
  intros Hp. unfold Fs.lookup. destruct q as [|seg q].
  - rewrite decide_False by congruence. reflexivity.
  - case_decide as Hd.
    + subst p. apply lookup_insert_eq.
    + apply lookup_insert_ne. congruence.
Qed.

Lemma keeps_dirs_refl (w : world bytes) : keeps_dirs w w.
Proof. intros p Hp. exact Hp. Qed.

Lemma keeps_dirs_trans (w1 w2 w3 : world bytes) :
  keeps_dirs w1 w2 -> keeps_dirs w2 w3 -> keeps_dirs w1 w3.
Proof. intros H12 H23 p Hp. apply H23, H12, Hp. Qed.

Lemma keeps_dirs_bind {A B} (m : M bytes A) (k : A -> M bytes B) (w : world bytes) :
  keeps_dirs w (final (m w)) ->
  (forall a w1, keeps_dirs w1 (final (k a w1))) ->
  keeps_dirs w (final (bind m k w)).
Proof.
  intros Hm Hk. unfold bind. destruct (m w) as [a w1|e w1]; simpl in *.
  - eapply keeps_dirs_trans; [exact Hm | apply Hk].
  - exact Hm.
Qed.

Lemma keeps_dirs_for_of {A} (body : A -> M bytes unit) (l : list A) :
  (forall x w, keeps_dirs w (final (body x w))) ->
  forall w, keeps_dirs w (final (for_of l body w)).
Proof.
  intros Hbody. induction l as [|x l IH]; intros w; simpl.
  - apply keeps_dirs_refl.
  - apply keeps_dirs_bind; [apply Hbody | intros _ w1; apply IH].
Qed.

Lemma keeps_dirs_when (c : bool) (m : M bytes unit) (w : world bytes) :
  keeps_dirs w (final (m w)) -> keeps_dirs w (final (when c m w)).
Proof. destruct c; [auto | intros _; apply keeps_dirs_refl]. Qed.

Lemma mkdir1_keeps (p : path) (w : world bytes) :
  keeps_dirs w (final (Fs.mkdir1 p w)).
Proof.
  unfold Fs.mkdir1. destruct (Fs.lookup (disk w) p) as [[d|]|] eqn:Hl; simpl;
    try apply keeps_dirs_refl.
  intros q Hq. simpl. rewrite lookup_insert_fs.
  - destruct (decide (q = p)); [reflexivity | exact Hq].
  - intros ->. discriminate.
Qed.

Lemma mkdirSync_keeps (p : path) (w : world bytes) :
  keeps_dirs w (final (Fs.mkdirSync p w)).
Proof. apply keeps_dirs_for_of. intros q w0. apply mkdir1_keeps. Qed.

Lemma writeFileSync_keeps (p : path) (data : bytes) (w : world bytes) :
  keeps_dirs w (final (Fs.writeFileSync p data w)).
Proof.
  destruct (Fs.writeFileSync p data w) as [[] w1|e w1] eqn:Hw; simpl.
  - apply writeFileSync_ret in Hw as (-> & _ & Hnd).
    intros q Hq. simpl. rewrite lookup_insert_fs.
    + destruct (decide (q = p)) as [->|_]; [contradiction | exact Hq].
    + intros ->. apply Hnd. reflexivity.
  - apply writeFileSync_throw in Hw as ->. apply keeps_dirs_refl.
Qed.

Lemma splitItem_keeps (categoryDir : path) (key : string) (xmlns item : value)
    (w : world bytes) :
  keeps_dirs w (final (Split.splitItem categoryDir key xmlns item w)).
Proof.
  unfold Split.splitItem. apply keeps_dirs_when, keeps_dirs_bind.
  - intros p Hp. destruct (itemName_final item w) as [-> _]. exact Hp.
  - intros name w1. apply writeFileSync_keeps.
Qed.

Lemma splitCategory_keeps (profileDir : path) (xmlns : value)
    (kv : string * value) (w : world bytes) :
  keeps_dirs w (final (Split.splitCategory profileDir xmlns kv w)).
Proof.
  unfold Split.splitCategory. apply keeps_dirs_when, keeps_dirs_bind.
  - rewrite existsSync_ret. apply keeps_dirs_refl.
  - intros present w1. apply keeps_dirs_bind.
    + apply keeps_dirs_when, mkdirSync_keeps.
    + intros _ w2. apply keeps_dirs_for_of. intros item w3. apply splitItem_keeps.
Qed.

(** Making the directories [ps], none of which is a file: all are
    directories afterwards, and only they were made. *)
Lemma for_of_mkdir1_makes (ps : list path) (w : world bytes) :
  Forall (no_file w) ps ->
  exists (w' : world bytes) (evs : list (event bytes)),
    for_of ps Fs.mkdir1 w = Ret tt w' /\
    Forall (fun q => Fs.lookup (disk w') q = Some Dir) ps /\
    journal w' = (journal w ++ evs)%list /\
    Forall (fun ev => exists q, ev = Mkdir q /\ In q ps) evs.
Proof.
  revert w. induction ps as [|p ps IH]; intros w Hnf.
  - exists w, []. simpl. rewrite app_nil_r. repeat split; constructor.
  - apply Forall_cons in Hnf as [Hp Hps].
    assert (exists w1 evs1, Fs.mkdir1 p w = Ret tt w1 /\
              Fs.lookup (disk w1) p = Some Dir /\
              journal w1 = (journal w ++ evs1)%list /\
              Forall (fun ev => ev = Mkdir p) evs1 /\
              Forall (no_file w1) ps) as (w1 & evs1 & Hm & Hd & Hj & He & Hnf1).
    { unfold Fs.mkdir1. destruct (Fs.lookup (disk w) p) as [[d|]|] eqn:Hl.
      - exfalso. eapply Hp. exact Hl.
      - exists w, []. rewrite app_nil_r. repeat split; auto.
      - exists (commit (Mkdir p) (<[p := Dir]> (disk w)) w), [Mkdir p].
        assert (p <> []) as Hne by (intros ->; discriminate).
        simpl. rewrite lookup_insert_fs by exact Hne.
        rewrite decide_True by reflexivity. repeat split; auto.
        eapply Forall_impl; [exact Hps|]. intros q Hq data. simpl.
        rewrite lookup_insert_fs by exact Hne.
        destruct (decide (q = p)); [discriminate | apply Hq]. }
    destruct (IH w1 Hnf1) as (w' & evs & Hfor & Hall & Hj' & He').
    exists w', (evs1 ++ evs)%list. simpl. unfold bind. rewrite Hm.
    split; [exact Hfor|]. split; [|split].
    + constructor; [|exact Hall].
      pose proof (keeps_dirs_for_of Fs.mkdir1 ps mkdir1_keeps w1) as Hk.
      rewrite Hfor in Hk. apply Hk, Hd.
    + rewrite Hj', Hj, app_assoc. reflexivity.
    + apply Forall_app. split.
      * eapply Forall_impl; [exact He|]. intros ev ->. exists p. simpl. auto.
      * eapply Forall_impl; [exact He'|]. intros ev (q & -> & Hq).
        exists q. simpl. auto.
Qed.

Lemma ancestors_last (p : path) : p <> [] -> In p (Fs.ancestors p).
Proof.
  intros Hne. unfold Fs.ancestors. apply in_map_iff.
  exists (List.length p). split; [apply firstn_all|].
  apply in_seq. destruct p; [congruence | simpl; lia].
Qed.

Lemma ensure_directory (p : path) (w : world bytes) :
  Forall (no_file w) (Fs.ancestors p) ->
  exists (w1 : world bytes) (evs : list (event bytes)),
    bind (Fs.existsSync p)
      (fun present => when (negb present) (Fs.mkdirSync p)) w = Ret tt w1 /\
    Fs.lookup (disk w1) p = Some Dir /\
    journal w1 = (journal w ++ evs)%list /\
    Forall (fun ev => exists q, ev = Mkdir q /\ In q (Fs.ancestors p)) evs.
Proof.
  intros Hnf. unfold bind at 1. rewrite existsSync_ret.
  destruct (decide (p = [])) as [->|Hne].
  { exists w, []. rewrite app_nil_r. repeat split; constructor. }
  case_bool_decide as Hex; cbv beta iota delta [negb when].
  - exists w, []. rewrite app_nil_r. repeat split; try constructor.
    destruct Hex as [[data|] Hx]; [|exact Hx].
    exfalso. rewrite List.Forall_forall in Hnf.
    apply (Hnf p (ancestors_last p Hne) data Hx).
  - destruct (for_of_mkdir1_makes (Fs.ancestors p) w Hnf)
      as (w1 & evs & Hfor & Hall & Hj & He).
    exists w1, evs. repeat split; auto.
    rewrite List.Forall_forall in Hall. apply Hall, ancestors_last, Hne.
Qed.

Lemma splitCategories_nothing (profileDir : path) (xmlns : value)
    (categories : list (string * value)) (w : world bytes) :
  Forall (fun kv => Split.nonempty_array (snd kv) = false) categories ->
  for_of categories (Split.splitCategory profileDir xmlns) w = Ret tt w.
Proof.
  induction 1 as [|kv categories Hkv _ IH]; simpl; [reflexivity|].
  unfold bind, Split.splitCategory at 1. rewrite Hkv. simpl. exact IH.
Qed.

(** C10: when the document of a profile parses, the profile directory is
    made (with its missing parents) before the categories are gone
    through: it is a directory afterwards whatever the categories do, also
    when they raise.  When no entry of the profile is a non-empty array the
    split ends without error having made the profile directory and its
    missing parents, and nothing else. *)
Theorem C10_profile_directory_is_made_first (profileFile outputDir : path)
    (content : bytes) (result : value) (w : world bytes) :
  Fs.lookup (disk w) profileFile = Some (File content) ->
  parseString content = inr result ->
  result <> VUndef ->
  let profileDir :=
    Path.join outputDir (Path.basename_ext profileFile ".profile-meta.xml") in
  let profile := Js.get result "Profile" in
  let o := Split.splitProfile profileFile outputDir w in
  Forall (no_file w) (Fs.ancestors profileDir) ->
  Fs.lookup (disk (final o)) profileDir = Some Dir /\
  (profile <> VUndef ->
   Forall (fun kv => Split.nonempty_array (snd kv) = false) (Js.own profile) ->
   thrown o = None /\
   exists evs : list (event bytes),
     journal (final o) = (journal w ++ evs)%list /\
     Forall (fun ev => exists q, ev = Mkdir q /\ In q (Fs.ancestors profileDir)) evs).
Proof.
  intros Hfile Hparse Hres profileDir profile o Hnf.
  destruct (ensure_directory profileDir w Hnf) as (w1 & evs & Hens & Hdir & Hj & He).
  set (name := Path.basename_ext profileFile ".profile-meta.xml") in *.
  set (rest := bind (js_entries profile)
                 (fun categories =>
                    for_of categories
                      (Split.splitCategory profileDir (Js.get profile "_xmlns")))).
  assert (Split.splitParsed name content outputDir w = rest w1) as Hsp.
  { unfold Split.splitParsed, parseStringPromise. rewrite Hparse.
    unfold bind at 1, ret at 1.
    assert (js_member (bytes := bytes) result "Profile" = ret profile) as ->
      by (destruct result; [congruence|reflexivity..]).
    unfold bind at 1, ret at 1. fold profileDir.
    unfold bind at 1 in Hens. unfold bind at 1.
    change (bind (Fs.existsSync profileDir) ?k w)
      with (match Fs.existsSync profileDir w with
            | Ret a w' => k a w' | Throw e w' => Throw e w' end).
    rewrite existsSync_ret in *. unfold bind at 1. rewrite Hens. reflexivity. }
  assert (final o = final (rest w1) /\ (thrown o = None <-> thrown (rest w1) = None))
    as [Hfin Hthr].
  { subst o. unfold Split.splitProfile, bind, Fs.readFileSync. rewrite Hfile.
    fold name. rewrite <- Hsp. apply try_catch_error_final. }
  split.
  - rewrite Hfin.
    assert (keeps_dirs w1 (final (rest w1))) as Hk; [|apply Hk, Hdir].
    subst rest. apply keeps_dirs_bind.
    + unfold js_entries. destruct (Js.entries profile); apply keeps_dirs_refl.
    + intros categories w2. apply keeps_dirs_for_of.
      intros kv w3. apply splitCategory_keeps.
  - intros Hprofile Hempty.
    assert (rest w1 = Ret tt w1) as Hrest.
    { subst rest. unfold bind, js_entries.
      assert (Js.entries profile = Some (Js.own profile)) as ->
        by (destruct profile; [congruence|reflexivity..]).
      unfold ret. apply splitCategories_nothing, Hempty. }
    rewrite Hrest in Hfin, Hthr. simpl in Hfin, Hthr.
    split; [apply Hthr; reflexivity|].
    exists evs. rewrite Hfin. auto.
Qed.

End Directories.

Lemma C10_profile_directory_witness :
  let o := Split.splitProfile ["in"; "Empty.profile-meta.xml"] ["out"] Sample.bare in
  Fs.lookup (disk (final o)) ["out"; "Empty"] = Some Dir /\
  thrown o = None /\
  exists evs : list (event text),
    journal (final o) = (journal Sample.bare ++ evs)%list /\
    Forall (fun ev => exists q, ev = Mkdir q /\ In q (Fs.ancestors ["out"; "Empty"])) evs.
Proof.
  destruct (C10_profile_directory_is_made_first
              ["in"; "Empty.profile-meta.xml"] ["out"]
              (Xml Sample.empty_doc) Sample.empty_doc Sample.bare)
    as [Hdir Hrest].
  - reflexivity.
  - reflexivity.
  - discriminate.
  - repeat constructor; intros data; vm_compute; discriminate.
  - split; [exact Hdir|]. apply Hrest.
    + discriminate.
    + repeat constructor.
Defined.

(** ** Laying entries on the disk *)

Section Lay_facts.
Context {bytes : Type}.

Lemma lay_app (l1 l2 : list (path * node bytes)) (d : gmap path (node bytes)) :
  lay (l1 ++ l2)%list d = lay l2 (lay l1 d).
Proof. unfold lay. apply fold_left_app. Qed.

Lemma lookup_lay_notin (l : list (path * node bytes)) (d : gmap path (node bytes))
    (p : path) :
  ~ In p (map fst l) -> lay l d !! p = d !! p.
Proof.
  revert d. induction l as [|[q nd] l IH]; intros d Hnot; [reflexivity|].
  simpl in *. rewrite IH by tauto.
  apply lookup_insert_ne. intros ->. tauto.
Qed.

Lemma lookup_lay_in (l : list (path * node bytes)) (d : gmap path (node bytes))
    (p : path) (nd : node bytes) :
  NoDup (map fst l) -> In (p, nd) l -> lay l d !! p = Some nd.
Proof.
  revert d. induction l as [|[q nd'] l IH]; intros d Hnd Hin; [contradiction|].
  simpl in *. apply NoDup_cons in Hnd as [Hq Hnd].
  destruct Hin as [[= -> ->]|Hin].
  - rewrite lookup_lay_notin; [apply lookup_insert_eq|].
    intros Hp. apply Hq. apply list_elem_of_In. exact Hp.
  - apply IH; assumption.
Qed.

Lemma lookup_lay_is_Some (l : list (path * node bytes)) (d : gmap path (node bytes))
    (p : path) :
  is_Some (lay l d !! p) -> In p (map fst l) \/ is_Some (d !! p).
Proof.
  destruct (in_dec (list_eq_dec (A := string)) p (map fst l)) as [Hin|Hnot];
    [left; exact Hin|].
  rewrite (lookup_lay_notin l d p Hnot). right. assumption.
Qed.

End Lay_facts.

(** ** What the Splitter lays on the disk *)

Section Split_disk.
Context `{Codec bytes}.
Variable label : value -> string.

Lemma lookup_nonempty (d : gmap path (node bytes)) (p : path) (seg : string) :
  Fs.lookup d (p ++ [seg])%list = d !! (p ++ [seg])%list.
Proof. destruct p; reflexivity. Qed.

Lemma splitItem_lay (profileDir : path) (xmlns : value) (key : string)
    (item : value) (w : world bytes) :
  record_ok bytes label item ->
  Fs.lookup (disk w) (profileDir ++ [key])%list = Some Dir ->
  disk w !! fst (file_entry label profileDir xmlns key item) <> Some Dir ->
  exists w' : world bytes,
    Split.splitItem (profileDir ++ [key])%list key xmlns item w = Ret tt w' /\
    disk w' = lay [file_entry label profileDir xmlns key item] (disk w).
Proof.
  intros (Hobj & Hsimple & Hname) Hdir Hfree.
  destruct (Hname w) as (name & Hn & Hs).
  unfold Split.splitItem, when. rewrite Hobj. unfold bind. rewrite Hn, Hs.
  unfold file_entry in *. simpl fst in Hfree.
  rewrite (Hsimple (profileDir ++ [key])%list), <- app_assoc. simpl app.
  unfold Fs.writeFileSync.
  replace (Fs.lookup (disk w) (profileDir ++ [key; label item])%list)
    with (disk w !! (profileDir ++ [key; label item])%list)
    by (destruct profileDir; reflexivity).
  replace (removelast (profileDir ++ [key; label item])%list)
    with (profileDir ++ [key])%list
    by (change [key; label item] with ([key] ++ [label item])%list;
        rewrite app_assoc, removelast_last; reflexivity).
  rewrite Hdir.
  destruct (disk w !! (profileDir ++ [key; label item])%list)
    as [[data|]|] eqn:Hl; [|exfalso; apply Hfree; exact Hl|];
    eexists; split; reflexivity.
Qed.

Lemma splitItems_lay (profileDir : path) (xmlns : value) (key : string)
    (items : list value) (w : world bytes) :
  Forall (record_ok bytes label) items ->
  Fs.lookup (disk w) (profileDir ++ [key])%list = Some Dir ->
  (forall item, In item items ->
     disk w !! fst (file_entry label profileDir xmlns key item) <> Some Dir) ->
  exists w' : world bytes,
    for_of items (Split.splitItem (profileDir ++ [key])%list key xmlns) w = Ret tt w' /\
    disk w' = lay (map (file_entry label profileDir xmlns key) items) (disk w).
Proof.
  revert w. induction items as [|item items IH]; intros w Hok Hdir Hfree.
  - exists w. split; reflexivity.
  - apply Forall_cons in Hok as [Hitem Hok].
    destruct (splitItem_lay profileDir xmlns key item w Hitem Hdir)
      as (w1 & Hsplit & Hdisk); [apply Hfree; left; reflexivity|].
    destruct (IH w1 Hok) as (w' & Hfor & Hdisk').
    + rewrite lookup_nonempty, Hdisk. unfold lay. cbn [fold_left].
      rewrite lookup_insert_ne.
      * rewrite <- lookup_nonempty. exact Hdir.
      * unfold file_entry. cbn [fst]. intros Heq.
        apply app_inv_head in Heq. discriminate.
    + intros item' Hin. rewrite Hdisk. unfold lay. cbn [fold_left].
      destruct (decide (fst (file_entry label profileDir xmlns key item) =
                        fst (file_entry label profileDir xmlns key item')))
        as [Heq|Hne].
      * rewrite <- Heq, lookup_insert_eq. discriminate.
      * rewrite lookup_insert_ne by exact Hne. apply Hfree. right. exact Hin.
    + exists w'. simpl. unfold bind. rewrite Hsplit. split; [exact Hfor|].
      rewrite Hdisk'. rewrite Hdisk. reflexivity.
Qed.

Lemma ancestors_snoc (p : path) (seg : string) :
  Fs.ancestors (p ++ [seg])%list = (Fs.ancestors p ++ [(p ++ [seg])%list])%list.
Proof.
  unfold Fs.ancestors. rewrite length_app. simpl List.length.
  rewrite Nat.add_1_r, seq_S, map_app. simpl. f_equal.
  - apply map_ext_in. intros n Hn. apply in_seq in Hn.
    apply take_app_le. lia.
  - f_equal. rewrite firstn_all2; [reflexivity|]. rewrite length_app. simpl. lia.
Qed.

Lemma for_of_mkdir1_noop (ps : list path) (w : world bytes) :
  Forall (fun q => Fs.lookup (disk w) q = Some Dir) ps ->
  for_of ps Fs.mkdir1 w = Ret tt w.
Proof.
  induction 1 as [|q ps Hq _ IH]; simpl; [reflexivity|].
  unfold bind, Fs.mkdir1 at 1. rewrite Hq. exact IH.
Qed.

End Split_disk.

(** ** Directory listings *)

Section Listings.
Context {bytes : Type}.

Lemma child_spec (dir q : path) (n : string) :
  Path.child dir q = Some n <-> q = (dir ++ [n])%list.
Proof.
  revert q. induction dir as [|a dir IH]; intros q; simpl.
  - destruct q as [|b [|c q]]; split; intros Heq; try discriminate; congruence.
  - destruct q as [|b q]; [split; intros; discriminate|].
    destruct (String.eqb_spec a b) as [->|Hne].
    + rewrite IH. split; intros Heq; congruence.
    + split; intros Heq; [discriminate | congruence].
Qed.

Lemma names_spec (d : gmap path (node bytes)) (dir : path) (n : string) :
  In n (Fs.names d dir) <-> is_Some (d !! (dir ++ [n])%list).
Proof.
  unfold Fs.names. rewrite <- list_elem_of_In, list_elem_of_omap. split.
  - intros ([q x] & Hin & Hchild). simpl in Hchild.
    apply child_spec in Hchild as ->.
    apply elem_of_map_to_list in Hin. eauto.
  - intros [x Hx]. exists ((dir ++ [n])%list, x). split.
    + apply elem_of_map_to_list. exact Hx.
    + simpl. apply child_spec. reflexivity.
Qed.

Lemma NoDup_omap_inj {A B} (f : A -> option B) (l : list A) :
  (forall x y z, x ∈ l -> y ∈ l -> f x = Some z -> f y = Some z -> x = y) ->
  NoDup l -> NoDup (omap f l).
Proof.
  intros Hinj Hnd. induction Hnd as [|x l Hx Hnd IH]; simpl; [constructor|].
  assert (NoDup (omap f l)) as IH'.
  { apply IH. intros a b z Ha Hb. apply Hinj; right; assumption. }
  destruct (f x) as [z|] eqn:Hfx; [|exact IH'].
  constructor; [|exact IH'].
  intros Hin. apply list_elem_of_omap in Hin as (y & Hy & Hfy).
  rewrite (Hinj x y z) in Hx; auto; [left | right; exact Hy].
Qed.

Lemma names_NoDup (d : gmap path (node bytes)) (dir : path) :
  NoDup (Fs.names d dir).
Proof.
  unfold Fs.names. apply NoDup_omap_inj; [|apply NoDup_map_to_list].
  intros [q1 x1] [q2 x2] n H1 H2 Hc1 Hc2. simpl in Hc1, Hc2.
  apply child_spec in Hc1, Hc2. subst q1 q2.
  apply elem_of_map_to_list in H1, H2. congruence.
Qed.

(** A listing is determined, up to its order, by what exists. *)
Lemma names_Permutation (d : gmap path (node bytes)) (dir : path)
    (expected : list string) :
  NoDup expected ->
  (forall n, In n expected <-> is_Some (d !! (dir ++ [n])%list)) ->
  Fs.names d dir ≡ₚ expected.
Proof.
  intros Hnd Hspec. apply NoDup_Permutation; [apply names_NoDup | exact Hnd|].
  intros n. rewrite !list_elem_of_In, names_spec, Hspec. reflexivity.
Qed.

End Listings.


(** ** Merging the artifacts of a split *)

Section Merge_artifacts.
Context `{Codec bytes}.

Lemma represents_ext (profile : list (string * value))
    (held held' : string -> list value) :
  (forall key, held key = held' key) ->
  represents profile held -> represents profile held'.
Proof.
  intros Hext [Hc Hr]. split; [exact Hc|].
  intros key Hkey. rewrite <- Hext. apply Hr, Hkey.
Qed.

Lemma pushItems_represents (key : string) (first : value) (others : list value)
    (profile : list (string * value)) (held : string -> list value)
    (w : world bytes) :
  represents profile held ->
  key <> "_xmlns" ->
  ~ In key Js.inherited ->
  exists profile',
    Merge.pushItems key (first :: others) profile w = Ret profile' w /\
    represents profile' (extend held key (first :: others)).
Proof.
  intros [Hc Hr] Hkey Hplain. unfold Merge.pushItems.
  assert (forall base old,
            Merge.canonical base ->
            (forall k, k <> "_xmlns" -> k <> key -> Js.assoc k base = Js.assoc k profile) ->
            old = held key ->
            represents (Js.assoc_set key (VArr (old ++ first :: others)) base)
              (extend held key (first :: others))) as Hset.
  { intros base old Hcb Hbase ->. split.
    - unfold Merge.canonical. rewrite assoc_set_other by congruence. exact Hcb.
    - intros k Hk. unfold extend. destruct (String.eqb_spec k key) as [->|Hne].
      + rewrite assoc_set_same. destruct (held key); reflexivity.
      + rewrite assoc_set_other by exact Hne. rewrite Hbase by assumption.
        apply Hr, Hk. }
  pose proof (Hr key Hkey) as Hheld.
  destruct (held key) as [|x l] eqn:Hhk.
  - assert (Js.member_truthy (Js.read key profile) = false) as ->.
    { rewrite (read_plain key profile Hplain).
      destruct (Js.owns key profile); [rewrite Hheld|]; reflexivity. }
    cbn [negb]. rewrite read_assoc_set. eexists. split; [reflexivity|].
    apply Hset; [| |reflexivity].
    + unfold Merge.canonical. rewrite assoc_set_other by congruence. exact Hc.
    + intros k _ Hne. apply assoc_set_other, Hne.
  - assert (Js.read key profile = Js.Own (VArr (x :: l))) as Hread.
    { rewrite (read_plain key profile Hplain), Hheld.
      destruct (Js.owns key profile) eqn:Hown; [reflexivity|].
      apply owns_false in Hown. congruence. }
    rewrite Hread. cbn [Js.member_truthy Js.truthy negb]. rewrite Hread.
    eexists. split; [reflexivity|]. apply Hset; auto.
Qed.

Lemma mergeItem_records (key : string) (itemFile : path) (items : list value)
    (profile : list (string * value)) (held : string -> list value)
    (w : world bytes) :
  key <> "_xmlns" ->
  ~ In key Js.inherited ->
  holds_records w key itemFile items ->
  represents profile held ->
  exists profile',
    Merge.mergeItem key itemFile profile w = Ret profile' w /\
    represents profile' (extend held key items).
Proof.
  intros Hkey Hplain (content & doc & Hfile & Hparse & Hdoc & Hentry) Hrep.
  destruct items as [|first others].
  - exists profile. split.
    + eapply mergeItem_skips; eauto.
    + eapply represents_ext; [|exact Hrep].
      intros k. unfold extend. destruct (String.eqb k key); [|reflexivity].
      rewrite app_nil_r. reflexivity.
  - destruct (pushItems_represents key first others profile held w Hrep Hkey Hplain)
      as (profile' & Hpush & Hrep').
    exists profile'. split; [|exact Hrep'].
    unfold Merge.mergeItem, try_catch, Merge.mergeParsed, bind, Fs.readFileSync.
    rewrite Hfile. unfold parseStringPromise. rewrite Hparse. unfold ret at 1.
    assert (js_member (bytes := bytes) doc "Profile" = ret (Js.get doc "Profile")) as ->
      by (destruct doc; [congruence | reflexivity..]).
    unfold ret at 1. rewrite Hentry.
    assert (Js.truthy (Js.get doc "Profile") = true) as ->.
    { destruct (Js.get doc "Profile") as [|[|c s]| |]; try reflexivity; discriminate. }
    cbn [Js.truthy andb]. rewrite Hpush. reflexivity.
Qed.

Lemma ends_with_app (suffix s : string) :
  Path.ends_with suffix (s ++ suffix) = true.
Proof.
  induction s as [|c s IH].
  - simpl. destruct suffix; simpl.
    + reflexivity.
    + rewrite Ascii.eqb_refl, String.eqb_refl. reflexivity.
  - simpl. rewrite IH. apply orb_true_r.
Qed.

End Merge_artifacts.

(** ** Objects with distinct keys *)

Lemma assoc_in (props : list (string * value)) (k : string) (v : value) :
  NoDup (map fst props) -> In (k, v) props -> Js.assoc k props = v.
Proof.
  induction props as [|[k' v'] props IH]; intros Hnd Hin; [contradiction|].
  simpl in Hnd. apply NoDup_cons in Hnd as [Hnew Hnd]. simpl.
  destruct Hin as [[= -> ->]|Hin].
  - rewrite String.eqb_refl. reflexivity.
  - destruct (String.eqb_spec k k') as [->|Hne]; [|apply IH; assumption].
    exfalso. apply Hnew, list_elem_of_In. apply (in_map fst _ _ Hin).
Qed.

Lemma assoc_found (props : list (string * value)) (k : string) :
  Js.assoc k props <> VUndef -> In (k, Js.assoc k props) props.
Proof.
  induction props as [|[k' v'] props IH]; simpl; [congruence|].
  destruct (String.eqb_spec k k') as [->|Hne]; intros Hv.
  - left. reflexivity.
  - right. apply IH, Hv.
Qed.

Lemma filter_of_all_true {bytes A} (test : A -> M bytes bool) (l : list A)
    (w : world bytes) :
  (forall x, In x l -> test x w = Ret true w) ->
  filter_of test l w = Ret l w.
Proof.
  induction l as [|x l IH]; intros Hall; [reflexivity|].
  simpl. unfold bind. rewrite (Hall x (or_introl eq_refl)).
  rewrite IH by (intros y Hy; apply Hall; right; exact Hy). reflexivity.
Qed.

(** ** The names that a split gives *)

Section Naming_facts.
Context `{Codec bytes}.

(** The Record Namer reads the random source and nothing else. *)
Lemma itemName_probe (item : value) (w : world bytes) :
  Split.itemName item w =
  match Split.itemName item (World (∅ : gmap path (node bytes)) (entropy w) []) with
  | Ret name w0 => Ret name (with_entropy (entropy w0) w)
  | Throw message _ => Throw message w
  end.
Proof.
  destruct w as [d e j]. unfold Split.itemName, with_entropy. simpl.
  repeat match goal with
         | |- context [if ?c then _ else _] => destruct c
         end;
    try reflexivity;
    match goal with
    | |- context [js_replace ?c ?v] => destruct v; reflexivity
    end.
Qed.

Lemma itemName_file_name (item : value) (n : string) (e1 : nat -> N)
    (w : world bytes) :
  file_name bytes (entropy w) item = Some (n, e1) ->
  exists name : value,
    Split.itemName item w = Ret name (with_entropy e1 w) /\
    Js.toString name ++ ".xml" = n.
Proof.
  unfold file_name. rewrite (itemName_probe item w).
  destruct (Split.itemName item _) as [name w0|m w0]; [|discriminate].
  intros [= <- <-]. exists name. split; reflexivity.
Qed.

Lemma file_name_xml (e e1 : nat -> N) (item : value) (n : string) :
  file_name bytes e item = Some (n, e1) -> Path.ends_with ".xml" n = true.
Proof.
  unfold file_name. destruct (Split.itemName item _) as [name w0|m w0]; [|discriminate].
  intros [= <- _]. apply ends_with_app.
Qed.

(** The named records are the objects among the items, and every file name
    has the extension. *)
Lemma named_spec (items : list value) :
  forall (e e' : nat -> N) (nrs : list (string * value)),
    named bytes e items = Some (nrs, e') ->
    map snd nrs = List.filter Js.isObject items /\
    Forall (fun nr => Path.ends_with ".xml" (fst nr) = true) nrs.
Proof.
  induction items as [|item items IH]; intros e e' nrs; simpl.
  - intros [= <- _]. split; constructor.
  - destruct (Js.isObject item); [|apply IH].
    destruct (file_name bytes e item) as [[n e1]|] eqn:Hn; [|discriminate].
    destruct (named bytes e1 items) as [[nrs1 e2]|] eqn:Hrest; [|discriminate].
    intros [= <- _]. destruct (IH _ _ _ Hrest) as [Hsnd Hxml].
    split; [simpl; rewrite Hsnd; reflexivity|].
    constructor; [exact (file_name_xml _ _ _ _ Hn) | exact Hxml].
Qed.

(** The categories of the layout are the entries holding a non-empty list,
    in their order. *)
Lemma layout_spec (props : list (string * value)) :
  forall (e : nat -> N) (cats : list (string * list (string * value))),
    layout bytes e props = Some cats ->
    map fst cats =
      map fst (List.filter (fun kv => Split.nonempty_array (snd kv)) props) /\
    forall c, In c cats ->
      exists v, In (fst c, v) props /\ Split.nonempty_array v = true /\
                map snd (snd c) = List.filter Js.isObject (Split.array_items v) /\
                Forall (fun nr => Path.ends_with ".xml" (fst nr) = true) (snd c).
Proof.
  induction props as [|[key v] props IH]; intros e cats; simpl.
  - intros [= <-]. split; [reflexivity | intros c []].
  - destruct (Split.nonempty_array v) eqn:Hv.
    + destruct (named bytes e (Split.array_items v)) as [[nrs e1]|] eqn:Hn;
        [|discriminate].
      destruct (layout bytes e1 props) as [cats1|] eqn:Hrest; [|discriminate].
      intros [= <-]. destruct (IH _ _ Hrest) as [Hkeys Hcats].
      split; [simpl; rewrite Hkeys; reflexivity|].
      intros c [<-|Hc].
      * exists v. destruct (named_spec _ _ _ _ Hn) as [Hsnd Hxml].
        simpl. auto.
      * destruct (Hcats c Hc) as (v' & Hin & Hrest'). exists v'. auto.
    + intros Hl. destruct (IH _ _ Hl) as [Hkeys Hcats]. split; [exact Hkeys|].
      intros c Hc. destruct (Hcats c Hc) as (v' & Hin & Hrest'). exists v'. auto.
Qed.

Lemma layout_keys_NoDup (props : list (string * value)) (e : nat -> N)
    (cats : list (string * list (string * value))) :
  NoDup (map fst props) -> layout bytes e props = Some cats ->
  NoDup (map fst cats).
Proof.
  intros Hnd Hl. rewrite (proj1 (layout_spec props e cats Hl)).
  clear Hl. induction props as [|kv props IH]; [constructor|].
  simpl in *. apply NoDup_cons in Hnd as [Hnew Hnd].
  destruct (Split.nonempty_array (snd kv)); [|apply IH, Hnd].
  simpl. constructor; [|apply IH, Hnd].
  intros Hin. apply Hnew. apply list_elem_of_In in Hin. apply list_elem_of_In.
  apply in_map_iff in Hin as (kv' & Heq & Hin). apply filter_In in Hin as [Hin _].
  rewrite <- Heq. apply in_map, Hin.
Qed.

End Naming_facts.

(** ** What a split puts on the disk *)

Section Split_plan.
Context `{Codec bytes}.

Lemma splitItem_entry (profileDir : path) (xmlns : value) (key : string)
    (item : value) (n : string) (e1 : nat -> N) (w : world bytes) :
  Js.isObject item = true ->
  file_name bytes (entropy w) item = Some (n, e1) ->
  simple n ->
  Fs.lookup (disk w) (profileDir ++ [key])%list = Some Dir ->
  disk w !! (profileDir ++ [key; n])%list <> Some Dir ->
  exists w' : world bytes,
    Split.splitItem (profileDir ++ [key])%list key xmlns item w = Ret tt w' /\
    disk w' = lay [entry profileDir xmlns key (n, item)] (disk w) /\
    entropy w' = e1.
Proof.
  intros Hobj Hname Hsimple Hdir Hfree.
  destruct (itemName_file_name item n e1 w Hname) as (name & Hn & Hs).
  unfold Split.splitItem, when. rewrite Hobj. unfold bind. rewrite Hn, Hs.
  rewrite (Hsimple (profileDir ++ [key])%list), <- app_assoc. simpl app.
  unfold Fs.writeFileSync, with_entropy. cbn [disk].
  replace (Fs.lookup (disk w) (profileDir ++ [key; n])%list)
    with (disk w !! (profileDir ++ [key; n])%list)
    by (destruct profileDir; reflexivity).
  replace (removelast (profileDir ++ [key; n])%list)
    with (profileDir ++ [key])%list
    by (change [key; n] with ([key] ++ [n])%list;
        rewrite app_assoc, removelast_last; reflexivity).
  rewrite Hdir.
  destruct (disk w !! (profileDir ++ [key; n])%list)
    as [[data|]|]; [|exfalso; apply Hfree; reflexivity|];
    eexists; (split; [reflexivity|]); split; reflexivity.
Qed.

Lemma splitItems_plan (profileDir : path) (xmlns : value) (key : string)
    (items : list value) :
  forall (nrs : list (string * value)) (e' : nat -> N) (w : world bytes),
    named bytes (entropy w) items = Some (nrs, e') ->
    Forall (fun nr => simple (fst nr)) nrs ->
    Fs.lookup (disk w) (profileDir ++ [key])%list = Some Dir ->
    (forall nr, In nr nrs ->
       disk w !! (profileDir ++ [key; fst nr])%list <> Some Dir) ->
    exists w' : world bytes,
      for_of items (Split.splitItem (profileDir ++ [key])%list key xmlns) w =
        Ret tt w' /\
      disk w' = lay (map (entry profileDir xmlns key) nrs) (disk w) /\
      entropy w' = e'.
Proof.
  induction items as [|item items IH]; intros nrs e' w Hnamed Hsimple Hdir Hfree.
  - injection Hnamed as <- <-. exists w. repeat split; reflexivity.
  - simpl in Hnamed. destruct (Js.isObject item) eqn:Hobj.
    + destruct (file_name bytes (entropy w) item) as [[n e1]|] eqn:Hn; [|discriminate].
      destruct (named bytes e1 items) as [[nrs1 e2]|] eqn:Hrest; [|discriminate].
      injection Hnamed as <- <-.
      apply Forall_cons in Hsimple as [Hsn Hsimple]. simpl in Hsn.
      destruct (splitItem_entry profileDir xmlns key item n e1 w Hobj Hn Hsn Hdir)
        as (w1 & Hsplit & Hdisk & He1);
        [apply (Hfree (n, item)); left; reflexivity|].
      destruct (IH nrs1 e2 w1) as (w' & Hfor & Hdisk' & He').
      * rewrite He1. exact Hrest.
      * exact Hsimple.
      * rewrite lookup_nonempty, Hdisk. unfold lay. cbn [fold_left].
        rewrite lookup_insert_ne.
        -- rewrite <- lookup_nonempty. exact Hdir.
        -- unfold entry. cbn [fst]. intros Heq.
           apply app_inv_head in Heq. discriminate.
      * intros nr Hin. rewrite Hdisk. unfold lay. cbn [fold_left].
        destruct (decide (fst (entry profileDir xmlns key (n, item)) =
                          (profileDir ++ [key; fst nr])%list)) as [Heq|Hne].
        -- rewrite <- Heq, lookup_insert_eq. discriminate.
        -- rewrite lookup_insert_ne by exact Hne. apply Hfree. right. exact Hin.
      * exists w'. simpl for_of. unfold bind. rewrite Hsplit.
        split; [exact Hfor|]. split; [|exact He'].
        rewrite Hdisk', Hdisk. reflexivity.
    + destruct (IH nrs e' w Hnamed Hsimple Hdir Hfree) as (w' & Hfor & Hrest).
      exists w'. simpl for_of. unfold bind, Split.splitItem at 1, when.
      rewrite Hobj. split; [exact Hfor | exact Hrest].
Qed.

Lemma plan_paths (profileDir : path) (xmlns : value)
    (c : string * list (string * value)) (p : path) :
  In p (map fst (category_plan profileDir xmlns c)) ->
  exists q, p = (profileDir ++ fst c :: q)%list.
Proof.
  unfold category_plan. intros [<-|Hin]; [exists []; reflexivity|].
  rewrite map_map in Hin. apply in_map_iff in Hin as (nr & <- & _).
  eexists [_]. reflexivity.
Qed.

Lemma splitCategory_plan (profileDir : path) (xmlns : value)
    (kv : string * value) (nrs : list (string * value)) (e1 : nat -> N)
    (w : world bytes) :
  Split.nonempty_array (snd kv) = true ->
  named bytes (entropy w) (Split.array_items (snd kv)) = Some (nrs, e1) ->
  simple (fst kv) ->
  Forall (fun nr => simple (fst nr)) nrs ->
  Forall (fun q => Fs.lookup (disk w) q = Some Dir) (Fs.ancestors profileDir) ->
  (forall q, disk w !! (profileDir ++ fst kv :: q)%list = None) ->
  exists w' : world bytes,
    Split.splitCategory profileDir xmlns kv w = Ret tt w' /\
    disk w' = lay (category_plan profileDir xmlns (fst kv, nrs)) (disk w) /\
    entropy w' = e1.
Proof.
  destruct kv as [key v]. unfold category_plan, Split.splitCategory.
  simpl fst; simpl snd. intros Hv Hnamed Hkey Hsimple Hanc Hfresh.
  rewrite Hv. cbv beta iota delta [when]. rewrite (Hkey profileDir).
  unfold bind at 1. rewrite existsSync_ret, lookup_nonempty.
  rewrite bool_decide_eq_false_2
    by (rewrite (Hfresh []); intros [x Hx]; discriminate).
  cbv beta iota delta [negb when].
  unfold Fs.mkdirSync. rewrite ancestors_snoc.
  unfold bind at 1. rewrite for_of_app, (for_of_mkdir1_noop _ _ Hanc).
  simpl for_of. unfold bind at 1, Fs.mkdir1 at 1.
  rewrite lookup_nonempty, (Hfresh []).
  set (w1 := commit (Mkdir (profileDir ++ [key])%list)
               (<[(profileDir ++ [key])%list := Dir]> (disk w)) w).
  unfold ret at 1.
  destruct (splitItems_plan profileDir xmlns key (Split.array_items v) nrs e1 w1)
    as (w' & Hfor & Hdisk & He); auto.
  - rewrite lookup_nonempty. simpl. apply lookup_insert_eq.
  - intros nr _. cbn [disk w1 commit].
    rewrite lookup_insert_ne.
    + rewrite Hfresh. discriminate.
    + intros Heq. apply app_inv_head in Heq. discriminate.
  - exists w'. split; [exact Hfor|]. split; [|exact He].
    rewrite Hdisk. reflexivity.
Qed.

Lemma splitCategories_plan (profileDir : path) (xmlns : value)
    (props : list (string * value)) :
  forall (cats : list (string * list (string * value))) (w : world bytes),
    layout bytes (entropy w) props = Some cats ->
    NoDup (map fst props) ->
    Forall (fun c => simple (fst c) /\ Forall (fun nr => simple (fst nr)) (snd c))
           cats ->
    Forall (fun q => Fs.lookup (disk w) q = Some Dir) (Fs.ancestors profileDir) ->
    (forall kv q, In kv props -> disk w !! (profileDir ++ fst kv :: q)%list = None) ->
    exists w' : world bytes,
      for_of props (Split.splitCategory profileDir xmlns) w = Ret tt w' /\
      disk w' = lay (flat_map (category_plan profileDir xmlns) cats) (disk w).
Proof.
  induction props as [|kv props IH]; intros cats w Hlayout Hnd Hok Hanc Hfresh.
  - injection Hlayout as <-. exists w. split; reflexivity.
  - simpl in Hnd. apply NoDup_cons in Hnd as [Hnew Hnd].
    simpl in Hlayout. destruct (Split.nonempty_array (snd kv)) eqn:Hv.
    + destruct (named bytes (entropy w) (Split.array_items (snd kv)))
        as [[nrs e1]|] eqn:Hnamed; [|discriminate].
      destruct (layout bytes e1 props) as [cats1|] eqn:Hrest; [|discriminate].
      injection Hlayout as <-.
      apply Forall_cons in Hok as [[Hkey Hnames] Hok]. simpl in Hkey, Hnames.
      destruct (splitCategory_plan profileDir xmlns kv nrs e1 w Hv Hnamed Hkey
                  Hnames Hanc)
        as (w1 & Hsplit & Hdisk & He1); [intros q; apply Hfresh; left; reflexivity|].
      destruct (IH cats1 w1) as (w' & Hfor & Hdisk'); auto.
      * rewrite He1. exact Hrest.
      * pose proof (splitCategory_keeps profileDir xmlns kv w) as Hkeep.
        rewrite Hsplit in Hkeep. simpl in Hkeep.
        eapply Forall_impl; [exact Hanc|]. intros q Hq. apply Hkeep, Hq.
      * intros kv' q Hin. rewrite Hdisk, lookup_lay_notin.
        -- apply Hfresh. right. exact Hin.
        -- intros Hp. apply plan_paths in Hp as [q' Hp].
           apply app_inv_head in Hp. injection Hp as Hk _. simpl in Hk.
           apply Hnew. rewrite <- Hk. apply list_elem_of_In, in_map, Hin.
      * exists w'. simpl for_of. unfold bind. rewrite Hsplit. split; [exact Hfor|].
        cbn [flat_map]. rewrite lay_app, <- Hdisk. exact Hdisk'.
    + destruct (IH cats w) as (w' & Hfor & Hdisk'); auto.
      * intros kv' q Hin. apply Hfresh. right. exact Hin.
      * exists w'. simpl for_of. unfold bind, Split.splitCategory at 1, when.
        rewrite Hv. split; [exact Hfor | exact Hdisk'].
Qed.

Lemma plan_inv (profileDir : path) (xmlns : value)
    (cats : list (string * list (string * value))) (p : path) :
  In p (map fst (flat_map (category_plan profileDir xmlns) cats)) ->
  exists c, In c cats /\
    (p = (profileDir ++ [fst c])%list \/
     exists nr, In nr (snd c) /\ p = (profileDir ++ [fst c; fst nr])%list).
Proof.
  intros Hin. apply in_map_iff in Hin as ([q nd] & <- & Hin).
  apply in_flat_map in Hin as (c & Hc & Hin). exists c. split; [exact Hc|].
  destruct Hin as [[= <- _]|Hin]; [left; reflexivity|].
  apply in_map_iff in Hin as (nr & [= <- _] & Hnr). right. eauto.
Qed.

Lemma category_plan_NoDup (profileDir : path) (xmlns : value)
    (c : string * list (string * value)) :
  NoDup (map fst (snd c)) ->
  NoDup (map fst (category_plan profileDir xmlns c)).
Proof.
  intros Hnd. unfold category_plan. cbn [map fst]. rewrite map_map. cbn [entry fst].
  constructor.
  - intros Hin. apply list_elem_of_In, in_map_iff in Hin as (nr & Heq & _).
    apply app_inv_head in Heq. discriminate.
  - rewrite <- (map_map fst (fun s => (profileDir ++ [fst c; s])%list)).
    assert (Inj eq eq (fun s : string => (profileDir ++ [fst c; s])%list)) as Hinj
      by (intros s t Heq; apply app_inv_head in Heq; congruence).
    exact (NoDup_fmap_2 _ _ Hnd).
Qed.

Lemma plan_NoDup (profileDir : path) (xmlns : value)
    (cats : list (string * list (string * value))) :
  NoDup (map fst cats) ->
  Forall (fun c => NoDup (map fst (snd c))) cats ->
  NoDup (map fst (flat_map (category_plan profileDir xmlns) cats)).
Proof.
  induction cats as [|c cats IH]; intros Hnd Hok; [constructor|].
  apply Forall_cons in Hok as [Hc Hok]. simpl in Hnd.
  apply NoDup_cons in Hnd as [Hnew Hnd].
  cbn [flat_map]. rewrite map_app. apply NoDup_app. split; [|split].
  - apply category_plan_NoDup, Hc.
  - intros p Hp Hp'. apply list_elem_of_In in Hp, Hp'.
    apply plan_paths in Hp as [q Hq].
    apply plan_inv in Hp' as (c' & Hin & Hcase).
    apply Hnew, list_elem_of_In.
    assert (fst c = fst c') as ->; [|apply in_map, Hin].
    destruct Hcase as [->|(nr & _ & ->)];
      apply app_inv_head in Hq; congruence.
  - apply IH; assumption.
Qed.

End Split_plan.

(** ** Merging a freshly split profile *)

Lemma NoDup_fst_eq {A B} (l : list (A * B)) (a b : A * B) :
  NoDup (map fst l) -> In a l -> In b l -> fst a = fst b -> a = b.
Proof.
  induction l as [|x l IH]; intros Hnd Ha Hb Heq; [contradiction|].
  simpl in Hnd. apply NoDup_cons in Hnd as [Hnew Hnd].
  destruct Ha as [->|Ha], Hb as [->|Hb]; auto.
  - exfalso. apply Hnew. rewrite Heq. apply list_elem_of_In, in_map, Hb.
  - exfalso. apply Hnew. rewrite <- Heq. apply list_elem_of_In, in_map, Ha.
Qed.

Section Merge_split.
Context `{Codec bytes}.
Variables (outputDir : path) (name : string) (xmlns : value).
Variable cats : list (string * list (string * value)).
Variable d0 : gmap path (node bytes).
Variable w : world bytes.

Let profileDir : path := (outputDir ++ [name])%list.
Let plan := flat_map (category_plan profileDir xmlns) cats.

Hypothesis Hok : Forall (category_ok xmlns) cats.
Hypothesis Hkeys : NoDup (map fst cats).
Hypothesis Hxml :
  Forall (fun c => Forall (fun nr => Path.ends_with ".xml" (fst nr) = true) (snd c))
         cats.
Hypothesis Hfresh : forall q, q <> [] -> d0 !! (profileDir ++ q)%list = None.
Hypothesis Hdisk : disk w = lay plan (<[profileDir := Dir]> d0).

Lemma split_plan_NoDup : NoDup (map fst plan).
Proof.
  apply plan_NoDup; [exact Hkeys|].
  eapply Forall_impl; [exact Hok|]. intros c (_ & Hnd & _). exact Hnd.
Qed.

Lemma split_has_profileDir : Fs.lookup (disk w) profileDir = Some Dir.
Proof.
  unfold profileDir. rewrite lookup_nonempty. fold profileDir.
  rewrite Hdisk, lookup_lay_notin; [apply lookup_insert_eq|].
  intros Hin. apply plan_inv in Hin as (c & _ & Hcase).
  destruct Hcase as [Heq|(nr & _ & Heq)];
    rewrite <- (app_nil_r profileDir) in Heq at 1;
    apply app_inv_head in Heq; discriminate.
Qed.

Lemma split_has_category (c : string * list (string * value)) :
  In c cats -> disk w !! (profileDir ++ [fst c])%list = Some Dir.
Proof.
  intros Hin. rewrite Hdisk. apply lookup_lay_in; [apply split_plan_NoDup|].
  apply in_flat_map. exists c. split; [exact Hin | left; reflexivity].
Qed.

Lemma split_has_file (c : string * list (string * value)) (nr : string * value) :
  In c cats -> In nr (snd c) ->
  disk w !! ((profileDir ++ [fst c]) ++ [fst nr])%list =
  Some (File (buildObject (Split.artifact (fst c) (snd nr) xmlns))).
Proof.
  intros Hin Hnr. rewrite Hdisk, <- app_assoc.
  apply (lookup_lay_in plan _ _ _ split_plan_NoDup).
  apply in_flat_map. exists c. split; [exact Hin|].
  right. apply (in_map (entry profileDir xmlns (fst c)) _ _ Hnr).
Qed.

Lemma split_below (q : path) :
  q <> [] -> is_Some (disk w !! (profileDir ++ q)%list) ->
  In (profileDir ++ q)%list (map fst plan).
Proof.
  intros Hq Hsome. rewrite Hdisk in Hsome.
  apply lookup_lay_is_Some in Hsome as [Hin|Hbase]; [exact Hin|].
  rewrite lookup_insert_ne in Hbase.
  - destruct Hbase as [x Hx].
    pose proof (eq_trans (eq_sym Hx) (Hfresh q Hq)) as Habs. discriminate.
  - intros Heq. rewrite <- (app_nil_r profileDir) in Heq at 1.
    apply app_inv_head in Heq. congruence.
Qed.

Lemma split_listing : Fs.names (disk w) profileDir ≡ₚ map fst cats.
Proof.
  apply names_Permutation; [exact Hkeys|].
  intros n. split.
  - intros Hn. apply in_map_iff in Hn as (c & <- & Hc).
    rewrite (split_has_category c Hc). eauto.
  - intros Hsome. apply split_below in Hsome; [|discriminate].
    apply plan_inv in Hsome as (c & Hc & Hcase).
    destruct Hcase as [Heq|(nr & _ & Heq)]; apply app_inv_head in Heq;
      [|discriminate].
    injection Heq as ->. apply in_map, Hc.
Qed.

Lemma split_category_listing (c : string * list (string * value)) :
  In c cats ->
  Fs.names (disk w) (profileDir ++ [fst c])%list ≡ₚ map fst (snd c).
Proof.
  intros Hin. apply names_Permutation.
  - rewrite List.Forall_forall in Hok. apply (Hok _ Hin).
  - intros f. split.
    + intros Hf. apply in_map_iff in Hf as (nr & <- & Hnr).
      rewrite (split_has_file c nr Hin Hnr). eauto.
    + intros Hsome. rewrite <- app_assoc in Hsome.
      apply split_below in Hsome; [|discriminate].
      apply plan_inv in Hsome as (c' & Hin' & Hcase).
      destruct Hcase as [Heq|(nr & Hnr & Heq)]; apply app_inv_head in Heq;
        [discriminate|].
      injection Heq as Hc ->.
      rewrite (NoDup_fst_eq cats c c' Hkeys Hin Hin' Hc). apply in_map, Hnr.
Qed.

Lemma mergeItems_split (key : string) (dir : path)
    (nrs : list (string * value)) :
  (nrs <> [] -> key <> "_xmlns" /\ ~ In key Js.inherited) ->
  (forall nr, In nr nrs ->
     disk w !! (dir ++ [fst nr])%list =
       Some (File (buildObject (Split.artifact key (snd nr) xmlns))) /\
     reads_back key (snd nr) xmlns) ->
  forall profile held,
    represents profile held ->
    exists profile',
      fold_of (map (fun nr => (dir ++ [fst nr])%list) nrs)
        (Merge.mergeItem key) profile w = Ret profile' w /\
      represents profile' (extend held key (map snd nrs)).
Proof.
  intros Hkey Hfiles.
  induction nrs as [|nr nrs IH]; intros profile held Hrep.
  - exists profile. split; [reflexivity|].
    eapply represents_ext; [|exact Hrep].
    intros k. unfold extend. destruct (String.eqb k key); [|reflexivity].
    rewrite app_nil_r. reflexivity.
  - destruct Hkey as [Hx Hplain]; [discriminate|].
    destruct (Hfiles nr (or_introl eq_refl)) as [Hfile (doc & Hparse & Hdoc & Hentry)].
    destruct (mergeItem_records key (dir ++ [fst nr])%list [snd nr] profile held w
                Hx Hplain) as (profile1 & Hitem & Hrep1); [|exact Hrep|].
    { exists (buildObject (Split.artifact key (snd nr) xmlns)), doc.
      rewrite lookup_nonempty. auto. }
    destruct (IH (fun _ => conj Hx Hplain)
                 (fun nr' Hin => Hfiles nr' (or_intror Hin)) profile1 _ Hrep1)
      as (profile' & Hfold & Hrep').
    exists profile'. simpl. unfold bind. rewrite Hitem. split; [exact Hfold|].
    eapply represents_ext; [|exact Hrep'].
    intros k. unfold extend. destruct (String.eqb k key); [|reflexivity].
    rewrite <- app_assoc. reflexivity.
Qed.

Lemma mergeCategory_split (c : string * list (string * value)) :
  In c cats ->
  forall profile held,
    represents profile held ->
    exists nrs profile',
      Merge.mergeCategory (profileDir ++ [fst c])%list profile w = Ret profile' w /\
      represents profile' (extend held (fst c) (map snd nrs)) /\
      nrs ≡ₚ snd c.
Proof.
  intros Hin profile held Hrep.
  pose proof (split_category_listing c Hin) as Hnames.
  apply Permutation_map_inv in Hnames as (nrs & Hlist & Hperm).
  assert (forall nr, In nr nrs -> In nr (snd c)) as Hsub.
  { intros nr Hnr. eapply Permutation_in; [symmetry; exact Hperm | exact Hnr]. }
  pose proof Hok as Hcat. rewrite List.Forall_forall in Hcat.
  destruct (Hcat c Hin) as (_ & _ & Hkey & Hrecords).
  rewrite List.Forall_forall in Hrecords.
  destruct (mergeItems_split (fst c) (profileDir ++ [fst c])%list nrs)
    with (profile := profile) (held := held) as (profile' & Hfold & Hrep').
  { intros Hne. apply Hkey. intros Hnil. apply Hne.
    apply Permutation_nil. rewrite <- Hnil. exact Hperm. }
  { intros nr Hnr. split.
    - apply (split_has_file c nr Hin (Hsub nr Hnr)).
    - apply (Hrecords nr (Hsub nr Hnr)). }
  { exact Hrep. }
  exists nrs, profile'. split; [|split; [exact Hrep' | symmetry; exact Hperm]].
  unfold Merge.mergeCategory, bind, Fs.readdirSync, Path.basename.
  rewrite lookup_nonempty, (split_has_category c Hin), last_last, Hlist.
  rewrite forallb_filter_id.
  - rewrite map_map.
    rewrite (map_ext_in _ (fun nr => ((profileDir ++ [fst c]) ++ [fst nr])%list));
      [exact Hfold|].
    intros nr Hnr. apply (Hrecords nr (Hsub nr Hnr)).
  - apply forallb_forall. intros f Hf. apply in_map_iff in Hf as (nr & <- & Hnr).
    rewrite List.Forall_forall in Hxml. pose proof (Hxml c Hin) as Hc.
    rewrite List.Forall_forall in Hc. apply Hc, Hsub, Hnr.
Qed.

Lemma mergeCategories_split (cs : list (string * list (string * value))) :
  NoDup (map fst cs) ->
  (forall c, In c cs -> In c cats) ->
  forall profile held,
    represents profile held ->
    (forall c, In c cs -> held (fst c) = []) ->
    exists profile' held',
      fold_of (map (fun c => (profileDir ++ [fst c])%list) cs)
        Merge.mergeCategory profile w = Ret profile' w /\
      represents profile' held' /\
      (forall c, In c cs -> held' (fst c) ≡ₚ map snd (snd c)) /\
      (forall k, ~ In k (map fst cs) -> held' k = held k).
Proof.
  induction cs as [|c cs IH]; intros Hnd Hsub profile held Hrep Hempty.
  - exists profile, held. split; [reflexivity|]. split; [exact Hrep|].
    split; [intros c [] | reflexivity].
  - simpl in Hnd. apply NoDup_cons in Hnd as [Hnew Hnd].
    destruct (mergeCategory_split c (Hsub c (or_introl eq_refl)) profile held Hrep)
      as (nrs & profile1 & Hmerge & Hrep1 & Hperm).
    destruct (IH Hnd (fun c' Hc' => Hsub c' (or_intror Hc')) profile1 _ Hrep1)
      as (profile' & held' & Hfold & Hrep' & Hheld & Hrest).
    { intros c' Hc'. unfold extend.
      destruct (String.eqb_spec (fst c') (fst c)) as [Heq|_].
      - exfalso. apply Hnew. rewrite <- Heq. apply list_elem_of_In, in_map, Hc'.
      - apply Hempty. right. exact Hc'. }
    exists profile', held'. simpl. unfold bind. rewrite Hmerge.
    split; [exact Hfold|]. split; [exact Hrep'|]. split.
    + intros c' [<-|Hc']; [|apply Hheld, Hc'].
      rewrite Hrest by (intros Hk; apply Hnew, list_elem_of_In, Hk).
      unfold extend. rewrite String.eqb_refl, (Hempty c (or_introl eq_refl)).
      simpl. apply Permutation_map, Hperm.
    + intros k Hk. rewrite Hrest by (intros Hin; apply Hk; right; exact Hin).
      unfold extend. destruct (String.eqb_spec k (fst c)) as [->|_]; [|reflexivity].
      exfalso. apply Hk. left. reflexivity.
Qed.

Lemma mergedProfile_split :
  exists merged held,
    Merge.mergedProfile profileDir w = Ret merged w /\
    represents merged held /\
    (forall c, In c cats -> held (fst c) ≡ₚ map snd (snd c)) /\
    (forall k, ~ In k (map fst cats) -> held k = []).
Proof.
  pose proof split_listing as Hlist.
  apply Permutation_map_inv in Hlist as (cs & Hnames & Hperm).
  assert (forall c, In c cs <-> In c cats) as Hcs.
  { intros c. split; apply Permutation_in; [symmetry; exact Hperm | exact Hperm]. }
  assert (forall c, In c cs ->
            Path.join profileDir (fst c) = (profileDir ++ [fst c])%list /\
            disk w !! (profileDir ++ [fst c])%list = Some Dir) as Hjoin.
  { intros c Hc. apply Hcs in Hc. split; [|apply (split_has_category c Hc)].
    pose proof Hok as Hcat. rewrite List.Forall_forall in Hcat.
    destruct (Hcat _ Hc) as (Hsimple & _). apply Hsimple. }
  destruct (mergeCategories_split cs)
    with (profile := [("_xmlns", VStr Merge.namespace)])
         (held := fun _ : string => @nil value)
    as (merged & held & Hfold & Hrep & Hheld & Hrest).
  - rewrite <- Hnames. apply names_NoDup.
  - intros c. apply Hcs.
  - split; [reflexivity|]. intros key Hkey. simpl.
    destruct (String.eqb_spec key "_xmlns"); [contradiction | reflexivity].
  - reflexivity.
  - exists merged, held. split; [|split; [exact Hrep|split]].
    + unfold Merge.mergedProfile, bind, Fs.readdirSync.
      rewrite split_has_profileDir, Hnames.
      rewrite filter_of_all_true.
      * rewrite map_map.
        rewrite (map_ext_in _ (fun c => (profileDir ++ [fst c])%list));
          [exact Hfold|].
        intros c Hc. apply Hjoin, Hc.
      * intros k Hk. apply in_map_iff in Hk as (c & <- & Hc).
        destruct (Hjoin c Hc) as [-> Hdir].
        unfold Fs.isDirectory. rewrite lookup_nonempty, Hdir. reflexivity.
    + intros c Hc. apply Hheld, Hcs, Hc.
    + intros k Hk. apply Hrest. intros Hin. apply Hk.
      apply in_map_iff in Hin as (c & <- & Hc). apply in_map, Hcs, Hc.
Qed.

End Merge_split.

(** ** The round trip *)

Section Round_trip.
Context `{Codec bytes}.


End Round_trip.



(** ** Root attributes and empty elements *)

(** C5 fails on the code: the parser keeps the attributes of the root
    element under [$], and line 147 copies [profile._xmlns], which no parsed
    profile has.  The profile [<Profile xmlns=...>] with two class records
    and a text-only element is split without error into two artifacts, and
    the object handed to the builder for either has no root attribute: its
    [_xmlns] member is [undefined] and it has no [$] member. *)
Theorem C5_root_attributes_are_not_propagated :
  let o := Split.splitProfile ["in"; "Admin.profile-meta.xml"] ["out"] Sample.parsed in
  let artifactA := Split.artifact "classAccesses" Sample.classA VUndef in
  let artifactB := Split.artifact "classAccesses" Sample.classB VUndef in
  root_attributes Sample.parsed_doc =
    VObj [("xmlns", VStr "http://soap.sforce.com/2006/04/metadata")] /\
  thrown o = None /\
  written (journal (final o)) =
    [(["out"; "Admin"; "classAccesses"; "A.xml"], buildObject artifactA);
     (["out"; "Admin"; "classAccesses"; "B.xml"], buildObject artifactB)] /\
  root_attributes artifactA = VUndef /\
  root_attributes artifactB = VUndef /\
  Js.get (Js.get artifactA "Profile") "_xmlns" = VUndef /\
  Js.get (Js.get artifactB "Profile") "_xmlns" = VUndef.
Proof. vm_compute. repeat split; reflexivity. Qed.

(** C7 fails on the code: lines 98-100 put the namespace constant into the
    member [_xmlns] of the profile object, which the builder writes as a
    child element; the attributes of the root element would be under [$].
    The split tree of the Admin profile is merged without error, and the
    object handed to the builder has the constant under [_xmlns], next to the
    category, and no root attribute. *)
Theorem C7_merged_document_has_no_root_attribute :
  let o := Merge.mergeProfile ["split"; "Admin"] ["merged"] Sample.parsed_tree in
  let merged :=
    VObj [("Profile",
           VObj [("_xmlns", VStr "http://soap.sforce.com/2006/04/metadata");
                 ("classAccesses", VArr [Sample.classB; Sample.classA])])] in
  thrown o = None /\
  written (journal (final o)) =
    [(["merged"; "Admin.profile-meta.xml"], buildObject merged)] /\
  root_attributes merged = VUndef /\
  Js.own (Js.get merged "Profile") =
    [("_xmlns", VStr "http://soap.sforce.com/2006/04/metadata");
     ("classAccesses", VArr [Sample.classB; Sample.classA])].
Proof. vm_compute. repeat split; reflexivity. Qed.


(** * Further properties of the commands *)

(** ** The start of a run *)

Section Run_start.
Context `{Codec bytes} `{Formats bytes}.

(** Lines 55-58 of each command: without the input directory the run
    raises before anything is read, made or removed. *)
Theorem run_without_input_directory (inputDir outputDir : path) (format : string)
    (shouldDelete : bool) (w : world bytes) :
  Fs.lookup (disk w) inputDir = None ->
  let message := "Input directory " ++ Path.show inputDir ++ " does not exist" in
  Split.run inputDir outputDir shouldDelete w = Throw message w /\
  Merge.run inputDir outputDir shouldDelete w = Throw message w /\
  Convert.run inputDir outputDir format shouldDelete w = Throw message w.
Proof.
  intros Hin message.
  assert (bool_decide (is_Some (Fs.lookup (disk w) inputDir)) = false) as Hex
    by (apply bool_decide_eq_false_2; rewrite Hin; intros [x Hx]; discriminate).
  unfold Split.run, Merge.run, Convert.run, bind, Fs.existsSync.
  rewrite Hex. repeat split; reflexivity.
Qed.

(** The world in which a run lists its input: the output directory has
    been made when it was missing. *)
Lemma run_prelude (inputDir outputDir : path) (w : world bytes) :
  Fs.lookup (disk w) inputDir = Some Dir ->
  Forall (no_file w) (Fs.ancestors outputDir) ->
  exists (w1 : world bytes) (evs : list (event bytes)),
    bind (Fs.existsSync outputDir)
      (fun present => when (negb present) (Fs.mkdirSync outputDir)) w = Ret tt w1 /\
    Fs.lookup (disk w1) inputDir = Some Dir /\
    Fs.lookup (disk w1) outputDir = Some Dir /\
    journal w1 = (journal w ++ evs)%list /\
    Forall (fun ev => exists q, ev = Mkdir q /\ In q (Fs.ancestors outputDir)) evs.
Proof.
  intros Hin Hnf.
  destruct (ensure_directory outputDir w Hnf) as (w1 & evs & Hens & Hout & Hj & He).
  exists w1, evs. repeat split; auto.
  assert (keeps_dirs w w1) as Hk; [|apply Hk, Hin].
  replace w1 with
    (final (bind (Fs.existsSync outputDir)
              (fun present => when (negb present) (Fs.mkdirSync outputDir)) w))
    by (rewrite Hens; reflexivity).
  apply keeps_dirs_bind.
  - rewrite existsSync_ret. apply keeps_dirs_refl.
  - intros present w0. apply keeps_dirs_when, mkdirSync_keeps.
Qed.

Lemma after_prelude {C} (outputDir : path) (k : M bytes C) (w w1 : world bytes) :
  bind (Fs.existsSync outputDir)
    (fun present => when (negb present) (Fs.mkdirSync outputDir)) w = Ret tt w1 ->
  bind (Fs.existsSync outputDir)
    (fun present => bind (when (negb present) (Fs.mkdirSync outputDir))
                      (fun _ => k)) w = k w1.
Proof.
  unfold bind. rewrite existsSync_ret.
  destruct (when _ _ w) as [[] w2|e w2]; [|discriminate].
  intros [= ->]. reflexivity.
Qed.

(** Lines 66-73 of each command: when the listing of the input directory
    holds no unit, the run ends without error, whatever the delete flag;
    all it did is make the output directory where that was missing. *)
Theorem run_without_units (inputDir outputDir : path) (format : string)
    (shouldDelete : bool) (w : world bytes) :
  Fs.lookup (disk w) inputDir = Some Dir ->
  Forall (no_file w) (Fs.ancestors outputDir) ->
  let w1 :=
    final (bind (Fs.existsSync outputDir)
             (fun present => when (negb present) (Fs.mkdirSync outputDir)) w) in
  (exists evs : list (event bytes),
     journal w1 = (journal w ++ evs)%list /\
     Forall (fun ev => exists q, ev = Mkdir q /\ In q (Fs.ancestors outputDir)) evs) /\
  Fs.lookup (disk w1) outputDir = Some Dir /\
  (List.filter (Path.ends_with ".profile-meta.xml")
               (Fs.names (disk w1) inputDir) = [] ->
   Split.run inputDir outputDir shouldDelete w = Ret tt w1 /\
   Convert.run inputDir outputDir format shouldDelete w = Ret tt w1) /\
  (filter_of (fun item => Fs.isDirectory (Path.join inputDir item))
             (Fs.names (disk w1) inputDir) w1 = Ret [] w1 ->
   Merge.run inputDir outputDir shouldDelete w = Ret tt w1).
Proof.
  intros Hin Hnf w1.
  destruct (run_prelude inputDir outputDir w Hin Hnf)
    as (w1' & evs & Hpre & Hin1 & Hout1 & Hj & He).
  assert (w1 = w1') as Hw1 by (unfold w1; rewrite Hpre; reflexivity).
  clearbody w1. subst w1'.
  split; [exists evs; split; assumption|]. split; [exact Hout1|].
  assert (bool_decide (is_Some (Fs.lookup (disk w) inputDir)) = true) as Hex
    by (apply bool_decide_eq_true_2; rewrite Hin; eauto).
  split.
  - intros Hnone. split.
    + unfold Split.run. unfold bind at 1. rewrite existsSync_ret, Hex.
      cbv beta iota delta [negb].
      rewrite (after_prelude outputDir _ w w1 Hpre).
      unfold bind, Fs.readdirSync. rewrite Hin1, Hnone. reflexivity.
    + unfold Convert.run. unfold bind at 1. rewrite existsSync_ret, Hex.
      cbv beta iota delta [negb].
      rewrite (after_prelude outputDir _ w w1 Hpre).
      unfold bind, Fs.readdirSync. rewrite Hin1, Hnone. reflexivity.
  - intros Hnone.
    unfold Merge.run. unfold bind at 1. rewrite existsSync_ret, Hex.
    cbv beta iota delta [negb].
    rewrite (after_prelude outputDir _ w w1 Hpre).
    unfold bind, Fs.readdirSync. rewrite Hin1, Hnone. reflexivity.
Qed.

End Run_start.

Lemma run_without_input_directory_witness :
  Split.run ["in"] ["out"] true Sample.empty_world =
    Throw "Input directory in does not exist" Sample.empty_world /\
  Merge.run ["in"] ["out"] true Sample.empty_world =
    Throw "Input directory in does not exist" Sample.empty_world /\
  Convert.run ["in"] ["out"] "json" true Sample.empty_world =
    Throw "Input directory in does not exist" Sample.empty_world.
Proof.
  apply (run_without_input_directory ["in"] ["out"] "json" true Sample.empty_world).
  reflexivity.
Defined.

Lemma run_without_units_witness :
  exists w1 : world text,
    Fs.lookup (disk w1) ["fresh"] = Some Dir /\
    Split.run ["merged"] ["fresh"] true Sample.split_tree = Ret tt w1 /\
    Convert.run ["merged"] ["fresh"] "xml" true Sample.split_tree = Ret tt w1 /\
    Merge.run ["merged"] ["fresh"] true Sample.split_tree = Ret tt w1.
Proof.
  destruct (run_without_units ["merged"] ["fresh"] "xml" true Sample.split_tree)
    as (_ & Hout & Hfiles & Hdirs).
  - reflexivity.
  - repeat constructor; intros data; vm_compute; discriminate.
  - eexists. split; [exact Hout|].
    destruct Hfiles as [Hs Hc]; [vm_compute; reflexivity|].
    split; [exact Hs|]. split; [exact Hc|].
    apply Hdirs. vm_compute. reflexivity.
Defined.

(** ** A merge is all or nothing *)

Section Merge_outcome.
Context `{Codec bytes}.

(** Lines 93-154: [mergeProfile] either raises and leaves the world as it
    was, or returns after one change, the write of the output file. *)
Theorem mergeProfile_all_or_nothing (profileDir outputDir : path) (w : world bytes) :
  (exists message, Merge.mergeProfile profileDir outputDir w = Throw message w) \/
  (exists profile : list (string * value),
     let data := buildObject (VObj [("Profile", VObj profile)]) in
     let out := Merge.outputFile profileDir outputDir in
     Merge.mergeProfile profileDir outputDir w =
       Ret tt (commit (WriteFile out data) (<[out := File data]> (disk w)) w)).
Proof.
  unfold Merge.mergeProfile, bind.
  pose proof (mergedProfile_final profileDir w) as Hfin.
  destruct (Merge.mergedProfile profileDir w) as [profile w1|e w1];
    simpl in Hfin; subst w1.
  - destruct (Fs.writeFileSync _ _ w) as [[] w2|e w2] eqn:Hw.
    + apply writeFileSync_ret in Hw as (-> & _). right. exists profile. reflexivity.
    + apply writeFileSync_throw in Hw as ->. left. eauto.
  - left. eauto.
Qed.

Lemma mergeItem_parse_error (categoryName : string) (itemFile : path)
    (content : bytes) (message : string) (profile : list (string * value))
    (w : world bytes) :
  Fs.lookup (disk w) itemFile = Some (File content) ->
  parseString content = inl message ->
  Merge.mergeItem categoryName itemFile profile w =
  Throw ("Error processing item file " ++ Path.show itemFile ++ ": " ++ message) w.
Proof.
  intros Hfile Hparse.
  unfold Merge.mergeItem, try_catch, Merge.mergeParsed, bind, Fs.readFileSync.
  rewrite Hfile. unfold parseStringPromise. rewrite Hparse. reflexivity.
Qed.

Lemma fold_of_raises {A S} (body : A -> S -> M bytes S) (l : list A) (x : A)
    (w : world bytes) :
  In x l ->
  (forall y s, final (body y s w) = w) ->
  (forall s, thrown (body x s w) <> None) ->
  forall s, thrown (fold_of l body s w) <> None.
Proof.
  intros Hin Hpure Hx. induction l as [|y l IH]; intros s; [contradiction|].
  simpl. unfold bind. specialize (Hpure y s) as Hy.
  destruct Hin as [->|Hin].
  - specialize (Hx s). destruct (body x s w); [contradiction | discriminate].
  - destruct (body y s w) as [s1 w1|e w1]; [|discriminate].
    simpl in Hy. subst w1. apply IH, Hin.
Qed.

Lemma filter_of_keeps {A} (test : A -> M bytes bool) (l kept : list A) (x : A)
    (w : world bytes) :
  (forall y w0 b w1, test y w0 = Ret b w1 -> w1 = w0) ->
  filter_of test l w = Ret kept w ->
  In x l -> test x w = Ret true w -> In x kept.
Proof.
  intros Hpure. revert kept. induction l as [|y l IH]; intros kept Hf Hin Hx;
    [contradiction|].
  simpl in Hf. unfold bind in Hf.
  destruct (test y w) as [b w1|e w1] eqn:Hy; [|discriminate].
  apply Hpure in Hy as Hw. subst w1.
  destruct (filter_of test l w) as [kept' w2|e w2] eqn:Hrest; [|discriminate].
  assert (w2 = w) as ->.
  { pose proof Hf as Hf'. unfold ret in Hf'. congruence. }
  unfold ret in Hf. injection Hf as <-.
  destruct Hin as [->|Hin].
  - rewrite Hx in Hy. injection Hy as <-. left. reflexivity.
  - destruct b; [right|]; apply (IH kept' eq_refl Hin Hx).
Qed.

(** Lines 121-143: an artifact that does not parse ends the merge of its
    profile.  The error carries the path of the artifact and the parser's
    message, the artifacts listed after it are not read, and no output file
    is written for the profile. *)
Theorem merge_stops_at_unparsable_artifact (profileDir outputDir : path)
    (category file : string) (content : bytes) (message : string)
    (w : world bytes) :
  let categoryDir := Path.join profileDir category in
  let itemFile := Path.join categoryDir file in
  Fs.lookup (disk w) itemFile = Some (File content) ->
  parseString content = inl message ->
  (forall (before after : list path) profile profile1,
     fold_of before (Merge.mergeItem (Path.basename categoryDir)) profile w =
       Ret profile1 w ->
     fold_of (before ++ itemFile :: after)%list
       (Merge.mergeItem (Path.basename categoryDir)) profile w =
     Throw ("Error processing item file " ++ Path.show itemFile ++ ": " ++ message) w) /\
  (Fs.lookup (disk w) profileDir = Some Dir ->
   In category (Fs.names (disk w) profileDir) ->
   Fs.lookup (disk w) categoryDir = Some Dir ->
   In file (Fs.names (disk w) categoryDir) ->
   Path.ends_with ".xml" file = true ->
   exists e, Merge.mergeProfile profileDir outputDir w = Throw e w).
Proof.
  intros categoryDir itemFile Hfile Hparse. split.
  - intros before after profile profile1 Hbefore.
    rewrite fold_of_app, Hbefore. simpl. unfold bind.
    rewrite (mergeItem_parse_error _ _ _ _ _ _ Hfile Hparse). reflexivity.
  - intros Hpd Hcat Hcd Hin Hxml.
    assert (forall profile, thrown (Merge.mergeCategory categoryDir profile w) <> None)
      as Hcategory.
    { intros profile. unfold Merge.mergeCategory, bind, Fs.readdirSync.
      rewrite Hcd. apply (fold_of_raises _ _ itemFile).
      - apply in_map. apply filter_In. auto.
      - intros y s0. apply mergeItem_final.
      - intros s0. rewrite (mergeItem_parse_error _ _ _ _ _ _ Hfile Hparse).
        discriminate. }
    assert (thrown (Merge.mergedProfile profileDir w) <> None) as Hmerged.
    { unfold Merge.mergedProfile, bind, Fs.readdirSync. rewrite Hpd.
      pose proof (filter_of_isDirectory_final profileDir
                    (Fs.names (disk w) profileDir) w) as Hfin.
      destruct (filter_of _ (Fs.names (disk w) profileDir) w)
        as [subdirs w1|e w1] eqn:Hf; [|discriminate].
      simpl in Hfin. subst w1.
      apply (fold_of_raises _ _ categoryDir).
      - apply in_map.
        eapply (filter_of_keeps _ _ _ category w); [| exact Hf | exact Hcat |].
        + intros y w0 b w1. apply isDirectory_pure.
        + unfold Fs.isDirectory. fold categoryDir. rewrite Hcd. reflexivity.
      - intros y s0. apply mergeCategory_final.
      - exact Hcategory. }
    pose proof (mergedProfile_final profileDir w) as Hfin.
    unfold Merge.mergeProfile, bind.
    destruct (Merge.mergedProfile profileDir w) as [profile w1|e w1];
      [contradiction|].
    simpl in Hfin. subst w1. eauto.
Qed.

End Merge_outcome.

Lemma merge_stops_witness :
  (forall after profile,
     fold_of (["in"; "Guest"; "classAccesses"; "A.xml"] :: after)
       (Merge.mergeItem "classAccesses") profile Sample.mixed =
     Throw "Error processing item file in/Guest/classAccesses/A.xml: Unexpected end"
       Sample.mixed) /\
  exists e, Merge.mergeProfile ["in"; "Guest"] ["out"] Sample.mixed = Throw e Sample.mixed.
Proof.
  destruct (merge_stops_at_unparsable_artifact ["in"; "Guest"] ["out"]
              "classAccesses" "A.xml" (Malformed "Unexpected end") "Unexpected end"
              Sample.mixed) as [Hfold Hunit].
  - reflexivity.
  - reflexivity.
  - split.
    + intros after profile. apply (Hfold [] after profile profile). reflexivity.
    + apply Hunit.
      * reflexivity.
      * vm_compute. tauto.
      * reflexivity.
      * vm_compute. tauto.
      * reflexivity.
Defined.

(** ** The Merger concatenates *)

Section Merge_concatenation.
Context `{Codec bytes}.

(** Lines 121-139: the artifacts of a category are merged in the order in
    which they are listed, each adding all the records of its category
    entry, none or several, behind those merged before: the category ends up
    with the concatenation of the record lists.  The category is not called
    [_xmlns], which the profile object of line 98 holds already, nor like a
    member of [Object.prototype], which [profile[categoryName]] of line 132
    would find: in both cases [push] raises. *)
Theorem merge_concatenates_records (key : string) (itemFiles : list path)
    (lists : list (list value)) (w : world bytes) :
  key <> "_xmlns" ->
  ~ In key Js.inherited ->
  Forall2 (holds_records w key) itemFiles lists ->
  forall profile held,
    represents profile held ->
    exists profile',
      fold_of itemFiles (Merge.mergeItem key) profile w = Ret profile' w /\
      represents profile' (extend held key (concat lists)).
Proof.
  intros Hkey Hplain Hall.
  induction Hall as [|itemFile items itemFiles lists Hitem _ IH];
    intros profile held Hrep.
  - exists profile. split; [reflexivity|].
    eapply represents_ext; [|exact Hrep].
    intros k. unfold extend. destruct (String.eqb k key); [|reflexivity].
    simpl. rewrite app_nil_r. reflexivity.
  - destruct (mergeItem_records key itemFile items profile held w Hkey Hplain Hitem Hrep)
      as (profile1 & Hmerge & Hrep1).
    destruct (IH profile1 _ Hrep1) as (profile' & Hfold & Hrep').
    exists profile'. simpl fold_of. unfold bind. rewrite Hmerge.
    split; [exact Hfold|].
    eapply represents_ext; [|exact Hrep'].
    intros k. unfold extend. destruct (String.eqb k key); [|reflexivity].
    simpl. rewrite app_assoc. reflexivity.
Qed.

End Merge_concatenation.

Lemma merge_concatenates_witness :
  exists profile',
    fold_of [["split"; "Admin"; "classAccesses"; "B.xml"];
             ["split"; "Admin"; "classAccesses"; "A.xml"]]
      (Merge.mergeItem "classAccesses")
      [("_xmlns", VStr "http://soap.sforce.com/2006/04/metadata")]
      Sample.split_tree = Ret profile' Sample.split_tree /\
    represents profile'
      (extend (fun _ => []) "classAccesses" [Sample.classB; Sample.classA]).
Proof.
  apply (merge_concatenates_records "classAccesses"
           [["split"; "Admin"; "classAccesses"; "B.xml"];
            ["split"; "Admin"; "classAccesses"; "A.xml"]]
           [[Sample.classB]; [Sample.classA]] Sample.split_tree).
  - discriminate.
  - apply (bool_decide_unpack _). vm_compute. exact I.
  - repeat constructor.
    + exists (Xml (Split.artifact "classAccesses" Sample.classB (VStr "urn:other"))),
        (Split.artifact "classAccesses" Sample.classB (VStr "urn:other")).
      repeat split; try reflexivity; discriminate.
    + exists (Xml (Split.artifact "classAccesses" Sample.classA (VStr "urn:other"))),
        (Split.artifact "classAccesses" Sample.classA (VStr "urn:other")).
      repeat split; try reflexivity; discriminate.
  - split.
    + vm_compute. tauto.
    + intros key Hkey. simpl.
      destruct (String.eqb_spec key "_xmlns") as [Heq|_]; [contradiction | reflexivity].
Defined.

(** ** A unit removes nothing *)

Section Nothing_removed.
Context `{Codec bytes} `{Formats bytes}.

Lemma same_kind_refl (nd : node bytes) : same_kind nd nd.
Proof. destruct nd; exact I. Qed.

Lemma same_kind_trans (a b c : node bytes) :
  same_kind a b -> same_kind b c -> same_kind a c.
Proof. destruct a, b, c; simpl; tauto. Qed.

Lemma keeps_nodes_refl (w : world bytes) : keeps_nodes w w.
Proof. intros p nd Hp. exists nd. split; [exact Hp | apply same_kind_refl]. Qed.

Lemma keeps_nodes_trans (w1 w2 w3 : world bytes) :
  keeps_nodes w1 w2 -> keeps_nodes w2 w3 -> keeps_nodes w1 w3.
Proof.
  intros H12 H23 p nd Hp.
  destruct (H12 p nd Hp) as (nd2 & Hp2 & Hk2).
  destruct (H23 p nd2 Hp2) as (nd3 & Hp3 & Hk3).
  exists nd3. split; [exact Hp3 | eapply same_kind_trans; eassumption].
Qed.

Lemma keeps_nodes_same_disk (w w' : world bytes) :
  disk w' = disk w -> keeps_nodes w w'.
Proof. intros Hd p nd Hp. rewrite Hd. exists nd. split; [exact Hp | apply same_kind_refl]. Qed.

Lemma keeps_nodes_bind {A B} (m : M bytes A) (k : A -> M bytes B) (w : world bytes) :
  keeps_nodes w (final (m w)) ->
  (forall a w1, keeps_nodes w1 (final (k a w1))) ->
  keeps_nodes w (final (bind m k w)).
Proof.
  intros Hm Hk. unfold bind. destruct (m w) as [a w1|e w1]; simpl in *.
  - eapply keeps_nodes_trans; [exact Hm | apply Hk].
  - exact Hm.
Qed.

Lemma keeps_nodes_for_of {A} (body : A -> M bytes unit) (l : list A) :
  (forall x w, keeps_nodes w (final (body x w))) ->
  forall w, keeps_nodes w (final (for_of l body w)).
Proof.
  intros Hbody. induction l as [|x l IH]; intros w; simpl.
  - apply keeps_nodes_refl.
  - apply keeps_nodes_bind; [apply Hbody | intros _ w1; apply IH].
Qed.

Lemma keeps_nodes_when (c : bool) (m : M bytes unit) (w : world bytes) :
  keeps_nodes w (final (m w)) -> keeps_nodes w (final (when c m w)).
Proof. destruct c; [auto | intros _; apply keeps_nodes_refl]. Qed.

Lemma keeps_nodes_try {A} (m : M bytes A) (wrap : string -> string) (w : world bytes) :
  keeps_nodes w (final (m w)) ->
  keeps_nodes w (final (try_catch m (fun e => this_error (wrap e)) w)).
Proof. destruct (try_catch_error_final m wrap w) as [-> _]. auto. Qed.

Lemma mkdir1_keeps_nodes (p : path) (w : world bytes) :
  keeps_nodes w (final (Fs.mkdir1 p w)).
Proof.
  unfold Fs.mkdir1. destruct (Fs.lookup (disk w) p) as [[d|]|] eqn:Hl; simpl;
    try apply keeps_nodes_refl.
  intros q nd Hq. simpl. rewrite lookup_insert_fs by (intros ->; discriminate).
  case_decide as Heq.
  - subst q. congruence.
  - exists nd. split; [exact Hq | apply same_kind_refl].
Qed.

Lemma writeFileSync_keeps_nodes (p : path) (data : bytes) (w : world bytes) :
  keeps_nodes w (final (Fs.writeFileSync p data w)).
Proof.
  destruct (Fs.writeFileSync p data w) as [[] w1|e w1] eqn:Hw; simpl.
  - apply writeFileSync_ret in Hw as (-> & _ & Hnd).
    intros q nd Hq. simpl.
    rewrite lookup_insert_fs by (intros ->; apply Hnd; reflexivity).
    case_decide as Heq.
    + subst q. exists (File data). split; [reflexivity|].
      destruct nd; [exact I | contradiction].
    + exists nd. split; [exact Hq | apply same_kind_refl].
  - apply writeFileSync_throw in Hw as ->. apply keeps_nodes_refl.
Qed.

Lemma readFileSync_final (p : path) (w : world bytes) :
  final (Fs.readFileSync p w) = w.
Proof. unfold Fs.readFileSync. destruct (Fs.lookup (disk w) p) as [[d|]|]; reflexivity. Qed.

Lemma parseStringPromise_final (content : bytes) (w : world bytes) :
  final (parseStringPromise content w) = w.
Proof. unfold parseStringPromise. destruct (parseString content); reflexivity. Qed.

Lemma splitCategory_keeps_nodes (profileDir : path) (xmlns : value)
    (kv : string * value) (w : world bytes) :
  keeps_nodes w (final (Split.splitCategory profileDir xmlns kv w)).
Proof.
  unfold Split.splitCategory. apply keeps_nodes_when, keeps_nodes_bind.
  - rewrite existsSync_ret. apply keeps_nodes_refl.
  - intros present w1. apply keeps_nodes_bind.
    + apply keeps_nodes_when, keeps_nodes_for_of. intros q w2. apply mkdir1_keeps_nodes.
    + intros _ w2. apply keeps_nodes_for_of. intros item w3.
      unfold Split.splitItem. apply keeps_nodes_when, keeps_nodes_bind.
      * apply keeps_nodes_same_disk. apply itemName_final.
      * intros name w4. apply writeFileSync_keeps_nodes.
Qed.

Lemma splitProfile_keeps_nodes (profileFile outputDir : path) (w : world bytes) :
  keeps_nodes w (final (Split.splitProfile profileFile outputDir w)).
Proof.
  unfold Split.splitProfile. apply keeps_nodes_bind.
  - rewrite readFileSync_final. apply keeps_nodes_refl.
  - intros content w1. apply keeps_nodes_try.
    unfold Split.splitParsed. apply keeps_nodes_bind.
    { rewrite parseStringPromise_final. apply keeps_nodes_refl. }
    intros result w2. apply keeps_nodes_bind.
    { unfold js_member. destruct result; apply keeps_nodes_refl. }
    intros profile w3. apply keeps_nodes_bind.
    { rewrite existsSync_ret. apply keeps_nodes_refl. }
    intros present w4. apply keeps_nodes_bind.
    { apply keeps_nodes_when, keeps_nodes_for_of. intros q w5. apply mkdir1_keeps_nodes. }
    intros _ w5. apply keeps_nodes_bind.
    { unfold js_entries. destruct (Js.entries profile); apply keeps_nodes_refl. }
    intros categories w6. apply keeps_nodes_for_of.
    intros kv w7. apply splitCategory_keeps_nodes.
Qed.

Lemma convertProfile_keeps_nodes (profileFile outputDir : path) (format : string)
    (w : world bytes) :
  keeps_nodes w (final (Convert.convertProfile profileFile outputDir format w)).
Proof.
  unfold Convert.convertProfile. apply keeps_nodes_bind.
  - rewrite readFileSync_final. apply keeps_nodes_refl.
  - intros content w1. apply keeps_nodes_try.
    unfold Convert.convertParsed. apply keeps_nodes_bind.
    + rewrite parseStringPromise_final. apply keeps_nodes_refl.
    + intros result w2. apply writeFileSync_keeps_nodes.
Qed.

Lemma mergeProfile_keeps_nodes (profileDir outputDir : path) (w : world bytes) :
  keeps_nodes w (final (Merge.mergeProfile profileDir outputDir w)).
Proof.
  unfold Merge.mergeProfile. apply keeps_nodes_bind.
  - rewrite mergedProfile_final. apply keeps_nodes_refl.
  - intros profile w1. apply writeFileSync_keeps_nodes.
Qed.

(** Processing a unit, in any of the three commands and whether it ends
    well or raises, removes nothing: what existed before still exists, a
    directory as a directory and a file as a file (its content may have been
    replaced). *)
Theorem units_remove_nothing (unit outputDir : path) (format : string)
    (w : world bytes) :
  keeps_nodes w (final (Split.splitProfile unit outputDir w)) /\
  keeps_nodes w (final (Merge.mergeProfile unit outputDir w)) /\
  keeps_nodes w (final (Convert.convertProfile unit outputDir format w)).
Proof.
  split; [apply splitProfile_keeps_nodes|].
  split; [apply mergeProfile_keeps_nodes | apply convertProfile_keeps_nodes].
Qed.

End Nothing_removed.

(** ** Removing the originals *)

Section Originals.
Context `{Codec bytes} `{Formats bytes}.

Lemma lookup_delete_fs (d : gmap path (node bytes)) (p q : path) :
  p <> [] ->
  Fs.lookup (delete p d) q = if decide (q = p) then None else Fs.lookup d q.
Proof.
  intros Hp. unfold Fs.lookup. destruct q as [|seg q].
  - rewrite decide_False by congruence. reflexivity.
  - case_decide as Hd.
    + subst p. apply lookup_delete_eq.
    + apply lookup_delete_ne. congruence.
Qed.

(** Unlinking files that are all there and all different removes them and
    nothing else. *)
Lemma unlink_all (files : list path) (w : world bytes) :
  NoDup files ->
  (forall f, In f files -> exists data, Fs.lookup (disk w) f = Some (File data)) ->
  exists w2 : world bytes,
    for_of files Fs.unlinkSync w = Ret tt w2 /\
    (forall f, In f files -> Fs.lookup (disk w2) f = None) /\
    (forall p, ~ In p files -> Fs.lookup (disk w2) p = Fs.lookup (disk w) p) /\
    journal w2 = (journal w ++ map Unlink files)%list.
Proof.
  revert w. induction files as [|f files IH]; intros w Hnd Hfiles.
  - exists w. simpl. rewrite app_nil_r. repeat split; auto. intros f [].
  - apply NoDup_cons in Hnd as [Hnew Hnd].
    destruct (Hfiles f (or_introl eq_refl)) as [data Hf].
    assert (f <> []) as Hne by (intros ->; discriminate).
    set (w1 := commit (Unlink f) (delete f (disk w)) w).
    destruct (IH w1 Hnd) as (w2 & Hfor & Hgone & Hrest & Hj).
    { intros g Hg. simpl. rewrite lookup_delete_fs by exact Hne.
      rewrite decide_False; [apply Hfiles; right; exact Hg|].
      intros ->. apply Hnew, list_elem_of_In, Hg. }
    exists w2. simpl for_of. unfold bind, Fs.unlinkSync at 1. rewrite Hf.
    fold w1. split; [exact Hfor|]. split; [|split].
    + intros g [<-|Hg]; [|apply Hgone, Hg].
      rewrite Hrest by (intros Hin; apply Hnew, list_elem_of_In, Hin).
      simpl. rewrite lookup_delete_fs by exact Hne.
      rewrite decide_True by reflexivity. reflexivity.
    + intros p Hp. rewrite Hrest by (intros Hin; apply Hp; right; exact Hin).
      simpl. rewrite lookup_delete_fs by exact Hne.
      rewrite decide_False; [reflexivity|]. intros ->. apply Hp. left. reflexivity.
    + rewrite Hj. simpl. rewrite <- app_assoc. reflexivity.
Qed.

(** After a loop that went through all its units, units that must be
    files to be processed are files. *)
Lemma processed_units_are_files (process : path -> M bytes unit)
    (units : list path) :
  (forall f w0 w0', process f w0 = Ret tt w0' ->
     exists data, Fs.lookup (disk w0) f = Some (File data)) ->
  (forall f w0, keeps_nodes w0 (final (process f w0))) ->
  forall w w1,
    for_of units process w = Ret tt w1 ->
    forall f, In f units -> exists data, Fs.lookup (disk w1) f = Some (File data).
Proof.
  intros Hread Hkeep. induction units as [|x units IH]; intros w w1 Hfor f Hin;
    [contradiction|].
  simpl in Hfor. unfold bind in Hfor.
  destruct (process x w) as [[] w'|e w'] eqn:Hx; [|discriminate].
  destruct Hin as [<-|Hin]; [|apply (IH w' w1 Hfor f Hin)].
  destruct (Hread x w w' Hx) as [data Hfile].
  assert (keeps_nodes w w1) as Hk.
  { eapply keeps_nodes_trans.
    - pose proof (Hkeep x w) as Hk1. rewrite Hx in Hk1. exact Hk1.
    - pose proof (keeps_nodes_for_of process units Hkeep w') as Hk2.
      rewrite Hfor in Hk2. exact Hk2. }
  destruct (Hk x _ Hfile) as ([data'|] & Hl & Hkind); [eauto | contradiction].
Qed.

Lemma splitProfile_reads (f outputDir : path) (w0 w0' : world bytes) :
  Split.splitProfile f outputDir w0 = Ret tt w0' ->
  exists data, Fs.lookup (disk w0) f = Some (File data).
Proof.
  unfold Split.splitProfile, bind, Fs.readFileSync.
  destruct (Fs.lookup (disk w0) f) as [[data|]|]; try discriminate. eauto.
Qed.

Lemma convertProfile_reads (f outputDir : path) (format : string)
    (w0 w0' : world bytes) :
  Convert.convertProfile f outputDir format w0 = Ret tt w0' ->
  exists data, Fs.lookup (disk w0) f = Some (File data).
Proof.
  unfold Convert.convertProfile, bind, Fs.readFileSync.
  destruct (Fs.lookup (disk w0) f) as [[data|]|]; try discriminate. eauto.
Qed.

Lemma convert_run_units (inputDir outputDir : path) (format : string)
    (shouldDelete : bool) (w : world bytes) :
  Fs.lookup (disk w) inputDir = Some Dir ->
  is_Some (Fs.lookup (disk w) outputDir) ->
  let profileFiles :=
    map (Path.join inputDir)
        (List.filter (Path.ends_with ".profile-meta.xml")
                     (Fs.names (disk w) inputDir)) in
  Convert.run inputDir outputDir format shouldDelete w =
  bind (for_of profileFiles (fun f => Convert.convertProfile f outputDir format))
       (fun _ => when shouldDelete (for_of profileFiles Fs.unlinkSync)) w.
Proof.
  intros Hin Hout. unfold Convert.run, bind, Fs.existsSync, Fs.readdirSync.
  rewrite (bool_decide_eq_true_2 (is_Some (Fs.lookup (disk w) inputDir)))
    by (rewrite Hin; eauto).
  cbv beta iota delta [negb].
  rewrite (bool_decide_eq_true_2 _ Hout).
  unfold when at 1, ret at 1. cbv beta iota delta [negb]. rewrite Hin.
  destruct (map _ _); [destruct shouldDelete|]; reflexivity.
Qed.

Lemma profileFiles_NoDup (inputDir : path) (d : gmap path (node bytes)) :
  Forall simple (List.filter (Path.ends_with ".profile-meta.xml") (Fs.names d inputDir)) ->
  NoDup (map (Path.join inputDir)
           (List.filter (Path.ends_with ".profile-meta.xml") (Fs.names d inputDir))).
Proof.
  intros Hsimple.
  assert (NoDup (List.filter (Path.ends_with ".profile-meta.xml") (Fs.names d inputDir)))
    as Hnd by (apply NoDup_ListNoDup, List.NoDup_filter, NoDup_ListNoDup, names_NoDup).
  revert Hsimple Hnd.
  generalize (List.filter (Path.ends_with ".profile-meta.xml") (Fs.names d inputDir)).
  intros l Hsimple Hnd.
  rewrite (map_ext_in _ (fun n => (inputDir ++ [n])%list)).
  - assert (Inj eq eq (fun n : string => (inputDir ++ [n])%list)) as Hinj
      by (intros a b Heq; apply app_inv_head in Heq; congruence).
    exact (NoDup_fmap_2 _ _ Hnd).
  - intros n Hn. rewrite List.Forall_forall in Hsimple. apply Hsimple, Hn.
Qed.

Lemma split_run_removes (inputDir outputDir : path) (w w1 : world bytes) :
  Fs.lookup (disk w) inputDir = Some Dir ->
  is_Some (Fs.lookup (disk w) outputDir) ->
  let names := List.filter (Path.ends_with ".profile-meta.xml")
                           (Fs.names (disk w) inputDir) in
  let profileFiles := map (Path.join inputDir) names in
  Forall simple names ->
  for_of profileFiles (fun f => Split.splitProfile f outputDir) w = Ret tt w1 ->
  exists w2,
    Split.run inputDir outputDir true w = Ret tt w2 /\
    (forall f, In f profileFiles -> Fs.lookup (disk w2) f = None) /\
    (forall p, ~ In p profileFiles -> Fs.lookup (disk w2) p = Fs.lookup (disk w1) p).
Proof.
  intros Hin Hout names profileFiles Hsimple Hfor.
  pose proof (profileFiles_NoDup inputDir (disk w) Hsimple) as Hnd.
  fold names in Hnd. fold profileFiles in Hnd.
  destruct (unlink_all profileFiles w1 Hnd) as (w2 & Hun & Hgone & Hrest & _).
  { apply (processed_units_are_files
             (fun f => Split.splitProfile f outputDir) profileFiles) with (w := w).
    - intros f w0 w0'. apply splitProfile_reads.
    - intros f w0. apply splitProfile_keeps_nodes.
    - exact Hfor. }
  exists w2. split; [|split; assumption].
  rewrite (split_run_units inputDir outputDir true w Hin Hout).
  fold names. fold profileFiles. unfold bind. rewrite Hfor. exact Hun.
Qed.

Lemma convert_run_removes (inputDir outputDir : path) (format : string)
    (w w1 : world bytes) :
  Fs.lookup (disk w) inputDir = Some Dir ->
  is_Some (Fs.lookup (disk w) outputDir) ->
  let names := List.filter (Path.ends_with ".profile-meta.xml")
                           (Fs.names (disk w) inputDir) in
  let profileFiles := map (Path.join inputDir) names in
  Forall simple names ->
  for_of profileFiles (fun f => Convert.convertProfile f outputDir format) w =
    Ret tt w1 ->
  exists w2,
    Convert.run inputDir outputDir format true w = Ret tt w2 /\
    (forall f, In f profileFiles -> Fs.lookup (disk w2) f = None) /\
    (forall p, ~ In p profileFiles -> Fs.lookup (disk w2) p = Fs.lookup (disk w1) p).
Proof.
  intros Hin Hout names profileFiles Hsimple Hfor.
  pose proof (profileFiles_NoDup inputDir (disk w) Hsimple) as Hnd.
  fold names in Hnd. fold profileFiles in Hnd.
  destruct (unlink_all profileFiles w1 Hnd) as (w2 & Hun & Hgone & Hrest & _).
  { apply (processed_units_are_files
             (fun f => Convert.convertProfile f outputDir format) profileFiles)
      with (w := w).
    - intros f w0 w0'. apply convertProfile_reads.
    - intros f w0. apply convertProfile_keeps_nodes.
    - exact Hfor. }
  exists w2. split; [|split; assumption].
  rewrite (convert_run_units inputDir outputDir format true w Hin Hout).
  fold names. fold profileFiles. unfold bind. rewrite Hfor. exact Hun.
Qed.

(** Lines 82-88 of split.ts and the same lines of convert.ts: when every
    unit of a run with the delete flag was processed without error, the
    run ends without error, every original profile file is gone, and
    nothing else was touched by the removal. *)
Theorem originals_removed_after_success (inputDir outputDir : path)
    (format : string) (w : world bytes) :
  Fs.lookup (disk w) inputDir = Some Dir ->
  is_Some (Fs.lookup (disk w) outputDir) ->
  let names := List.filter (Path.ends_with ".profile-meta.xml")
                           (Fs.names (disk w) inputDir) in
  let profileFiles := map (Path.join inputDir) names in
  Forall simple names ->
  (forall w1,
     for_of profileFiles (fun f => Split.splitProfile f outputDir) w = Ret tt w1 ->
     exists w2,
       Split.run inputDir outputDir true w = Ret tt w2 /\
       (forall f, In f profileFiles -> Fs.lookup (disk w2) f = None) /\
       (forall p, ~ In p profileFiles -> Fs.lookup (disk w2) p = Fs.lookup (disk w1) p)) /\
  (forall w1,
     for_of profileFiles (fun f => Convert.convertProfile f outputDir format) w =
       Ret tt w1 ->
     exists w2,
       Convert.run inputDir outputDir format true w = Ret tt w2 /\
       (forall f, In f profileFiles -> Fs.lookup (disk w2) f = None) /\
       (forall p, ~ In p profileFiles -> Fs.lookup (disk w2) p = Fs.lookup (disk w1) p)).
Proof.
  intros Hin Hout names profileFiles Hsimple.
  split; intros w1 Hfor.
  - exact (split_run_removes inputDir outputDir w w1 Hin Hout Hsimple Hfor).
  - exact (convert_run_removes inputDir outputDir format w w1 Hin Hout Hsimple Hfor).
Qed.

End Originals.

Lemma originals_removed_witness :
  (exists w2,
     Split.run ["in"] ["out"] true Sample.clean = Ret tt w2 /\
     Fs.lookup (disk w2) ["in"; "Clean.profile-meta.xml"] = None /\
     Fs.lookup (disk w2) ["out"; "Clean"; "pageAccesses"; "Home.xml"] =
       Some (File (Xml (Split.artifact "pageAccesses" Sample.pageHome (VStr "urn:ns"))))) /\
  (exists w2,
     Convert.run ["in"] ["out"] "xml" true Sample.clean = Ret tt w2 /\
     Fs.lookup (disk w2) ["in"; "Clean.profile-meta.xml"] = None /\
     Fs.lookup (disk w2) ["out"; "Clean.profile-meta.xml"] =
       Some (File (Xml Sample.clean_doc))).
Proof.
  pose proof (originals_removed_after_success ["in"] ["out"] "xml" Sample.clean) as H.
  assert (Fs.lookup (disk Sample.clean) ["in"] = Some Dir) as Hin by reflexivity.
  assert (is_Some (Fs.lookup (disk Sample.clean) ["out"])) as Hout
    by (exists Dir; reflexivity).
  specialize (H Hin Hout). cbv zeta in H.
  assert (List.filter (Path.ends_with ".profile-meta.xml")
            (Fs.names (disk Sample.clean) ["in"]) = ["Clean.profile-meta.xml"]) as Hn
    by (vm_compute; reflexivity).
  rewrite Hn in H.
  assert (Forall simple ["Clean.profile-meta.xml"]) as Hsimple
    by (repeat constructor; intros dir; reflexivity).
  destruct (H Hsimple) as [Hsplit Hconvert]. split.
  - destruct (Hsplit
                (final (Split.splitProfile ["in"; "Clean.profile-meta.xml"] ["out"]
                          Sample.clean)))
      as (w2 & Hrun & Hgone & Hrest); [vm_compute; reflexivity|].
    exists w2. split; [exact Hrun|]. split.
    + apply Hgone. left. reflexivity.
    + rewrite Hrest; [vm_compute; reflexivity|].
      intros [Heq|[]]. discriminate.
  - destruct (Hconvert
                (final (Convert.convertProfile ["in"; "Clean.profile-meta.xml"] ["out"]
                          "xml" Sample.clean)))
      as (w2 & Hrun & Hgone & Hrest); [vm_compute; reflexivity|].
    exists w2. split; [exact Hrun|]. split.
    + apply Hgone. left. reflexivity.
    + rewrite Hrest; [vm_compute; reflexivity|].
      intros [Heq|[]]. discriminate.
Defined.

(** ** Converting in place *)

Section Convert_in_place.
Context `{Codec bytes} `{Formats bytes}.

Lemma ends_with_nil (suffix : string) :
  Path.ends_with suffix "" = String.eqb "" suffix.
Proof. destruct suffix; reflexivity. Qed.

Lemma ends_with_cons (suffix : string) (c : ascii) (s : string) :
  Path.ends_with suffix (String c s) =
  String.eqb (String c s) suffix || Path.ends_with suffix s.
Proof. reflexivity. Qed.

Lemma ends_with_length (suffix s : string) :
  Path.ends_with suffix s = true -> String.length suffix <= String.length s.
Proof.
  induction s as [|c s IH].
  - rewrite ends_with_nil. intros Heq. apply String.eqb_eq in Heq. subst. simpl. lia.
  - rewrite ends_with_cons. intros Hor. apply orb_true_iff in Hor as [Heq|Hrest].
    + apply String.eqb_eq in Heq. subst. simpl. lia.
    + specialize (IH Hrest). simpl. lia.
Qed.

Lemma substring_all (s : string) : String.substring 0 0 s = "".
Proof. destruct s; reflexivity. Qed.

Lemma drop_suffix_append (suffix s : string) :
  Path.ends_with suffix s = true -> Path.drop_suffix suffix s ++ suffix = s.
Proof.
  unfold Path.drop_suffix. induction s as [|c s IH].
  - rewrite ends_with_nil. intros Heq. apply String.eqb_eq in Heq. subst. reflexivity.
  - rewrite ends_with_cons. intros Hor.
    destruct (String.eqb_spec (String c s) suffix) as [<-|Hne].
    + rewrite Nat.sub_diag, substring_all. reflexivity.
    + simpl in Hor. pose proof (ends_with_length suffix s Hor) as Hlen.
      replace (String.length (String c s) - String.length suffix)
        with (S (String.length s - String.length suffix)) by (simpl; lia).
      cbn [String.substring].
      change (String c (String.substring 0 (String.length s - String.length suffix) s
                        ++ suffix) = String c s).
      f_equal. apply IH, Hor.
Qed.

(** The output of an XML conversion into the directory of the profile is
    the profile file itself. *)
Lemma convert_output_is_input (dir : path) (n format : string) :
  simple n ->
  Path.ends_with ".profile-meta.xml" n = true ->
  n <> ".profile-meta.xml" ->
  format <> "json" ->
  Path.join dir
    (Convert.outputFileName
       (Path.basename_ext (Path.join dir n) ".profile-meta.xml") format) =
  Path.join dir n.
Proof.
  intros Hsimple Hends Hne Hformat.
  unfold Convert.outputFileName, Path.basename_ext, Path.basename.
  rewrite (Hsimple dir), last_last, Hends.
  apply String.eqb_neq in Hne, Hformat. rewrite Hne, Hformat. simpl.
  rewrite (drop_suffix_append _ _ Hends). apply Hsimple.
Qed.

Lemma convertProfile_in_place (dir : path) (n format : string) (w w' : world bytes) :
  simple n ->
  Path.ends_with ".profile-meta.xml" n = true ->
  n <> ".profile-meta.xml" ->
  format <> "json" ->
  Convert.convertProfile (Path.join dir n) dir format w = Ret tt w' ->
  exists data, journal w' = (journal w ++ [WriteFile (Path.join dir n) data])%list.
Proof.
  intros Hsimple Hends Hne Hformat.
  unfold Convert.convertProfile, bind.
  destruct (Fs.readFileSync (Path.join dir n) w) as [content w1|e w1] eqn:Hr;
    [|discriminate].
  apply readFileSync_pure in Hr as [-> _].
  unfold try_catch, Convert.convertParsed, bind, parseStringPromise.
  destruct (parseString content) as [m|result]; [discriminate|].
  unfold ret at 1.
  rewrite (convert_output_is_input dir n format Hsimple Hends Hne Hformat).
  destruct (Fs.writeFileSync _ _ w) as [[] w2|e w2] eqn:Hw; [|discriminate].
  apply writeFileSync_ret in Hw as (-> & _). intros [= <-]. eauto.
Qed.

(** Lines 222-268: an XML conversion with the delete flag whose output
    directory is the input directory (the default of both flags is the same
    directory) writes every converted profile over its original and then
    removes it: when all units were converted, the run ends without error
    and none of the files it wrote exists any more. *)
Theorem convert_in_place_removes_its_output (dir : path) (format : string)
    (w w1 : world bytes) :
  Fs.lookup (disk w) dir = Some Dir ->
  format <> "json" ->
  let names := List.filter (Path.ends_with ".profile-meta.xml")
                           (Fs.names (disk w) dir) in
  let profileFiles := map (Path.join dir) names in
  Forall simple names ->
  ~ In ".profile-meta.xml" names ->
  for_of profileFiles (fun f => Convert.convertProfile f dir format) w = Ret tt w1 ->
  exists (w2 : world bytes) (evs : list (event bytes)),
    Convert.run dir dir format true w = Ret tt w2 /\
    journal w1 = (journal w ++ evs)%list /\
    map fst (written evs) = profileFiles /\
    forall f, In f (map fst (written evs)) -> Fs.lookup (disk w2) f = None.
Proof.
  intros Hdir Hformat names profileFiles Hsimple Hproper Hfor.
  assert (is_Some (Fs.lookup (disk w) dir)) as Hout by (rewrite Hdir; eauto).
  destruct (convert_run_removes dir dir format w w1 Hdir Hout Hsimple Hfor)
    as (w2 & Hrun & Hgone & _).
  assert (Forall (fun n => Path.ends_with ".profile-meta.xml" n = true) names) as Hends.
  { apply List.Forall_forall. intros n Hn. apply filter_In in Hn. tauto. }
  assert (exists evs, journal w1 = (journal w ++ evs)%list /\
                      map fst (written evs) = profileFiles) as (evs & Hj & Hw).
  { subst profileFiles. clearbody names. clear Hrun Hgone Hout Hdir.
    revert w Hfor. induction names as [|n names IH]; intros w Hfor.
    - simpl in Hfor. injection Hfor as <-. exists []. rewrite app_nil_r. auto.
    - apply Forall_cons in Hsimple as [Hn Hsimple].
      apply Forall_cons in Hends as [Hen Hends].
      simpl in Hfor. unfold bind in Hfor.
      destruct (Convert.convertProfile (Path.join dir n) dir format w)
        as [[] w'|e w'] eqn:Hc; [|discriminate].
      destruct (convertProfile_in_place dir n format w w' Hn Hen) as [data Hj']; auto.
      { intros ->. apply Hproper. left. reflexivity. }
      destruct (IH Hsimple (fun Hin => Hproper (or_intror Hin)) Hends w' Hfor)
        as (evs & Hj & Hw).
      exists (WriteFile (Path.join dir n) data :: evs).
      rewrite Hj, Hj', <- app_assoc. simpl. rewrite Hw. auto. }
  exists w2, evs. split; [exact Hrun|]. split; [exact Hj|]. split; [exact Hw|].
  intros f Hf. rewrite Hw in Hf. apply Hgone, Hf.
Qed.

End Convert_in_place.

Lemma convert_in_place_witness :
  exists (w2 : world text) (evs : list (event text)),
    Convert.run ["in"] ["in"] "xml" true Sample.clean = Ret tt w2 /\
    journal (final (Convert.convertProfile ["in"; "Clean.profile-meta.xml"] ["in"] "xml"
                      Sample.clean)) = (journal Sample.clean ++ evs)%list /\
    map fst (written evs) = [["in"; "Clean.profile-meta.xml"]] /\
    forall f, In f (map fst (written evs)) -> Fs.lookup (disk w2) f = None.
Proof.
  pose proof (convert_in_place_removes_its_output ["in"] "xml" Sample.clean
                (final (Convert.convertProfile ["in"; "Clean.profile-meta.xml"] ["in"]
                          "xml" Sample.clean))) as H.
  assert (Fs.lookup (disk Sample.clean) ["in"] = Some Dir) as Hin by reflexivity.
  assert ("xml" <> "json") as Hformat by discriminate.
  specialize (H Hin Hformat). cbv zeta in H.
  assert (List.filter (Path.ends_with ".profile-meta.xml")
            (Fs.names (disk Sample.clean) ["in"]) = ["Clean.profile-meta.xml"]) as Hn
    by (vm_compute; reflexivity).
  rewrite Hn in H.
  apply H.
  - repeat constructor.
  - intros [Heq|[]]. discriminate.
  - vm_compute. reflexivity.
Defined.

(** ** Removing a directory tree *)

Section Delete_directory.
Context `{Codec bytes}.

Lemma below_refl (dir : path) : below dir dir.
Proof. exists []. rewrite app_nil_r. reflexivity. Qed.

Lemma below_child (dir p : path) (n : string) :
  below (dir ++ [n])%list p -> below dir p.
Proof. intros [q ->]. exists (n :: q). rewrite <- app_assoc. reflexivity. Qed.

Lemma shrinks_within_refl (dir : path) (w : world bytes) : shrinks_within dir w w.
Proof. split; auto. Qed.

Lemma shrinks_within_trans (dir : path) (w1 w2 w3 : world bytes) :
  shrinks_within dir w1 w2 -> shrinks_within dir w2 w3 -> shrinks_within dir w1 w3.
Proof.
  intros [Ha1 Hb1] [Ha2 Hb2]. split.
  - intros p Hp. rewrite Ha2, Ha1 by exact Hp. reflexivity.
  - intros p Hp. apply Hb1, Hb2, Hp.
Qed.

Lemma shrinks_within_child (dir : path) (n : string) (w w' : world bytes) :
  shrinks_within (dir ++ [n])%list w w' -> shrinks_within dir w w'.
Proof.
  intros [Ha Hb]. split; [|exact Hb].
  intros p Hp. apply Ha. intros Hbelow. apply Hp, (below_child dir p n Hbelow).
Qed.

Lemma shrinks_within_same (dir : path) (w w' : world bytes) :
  w' = w -> shrinks_within dir w w'.
Proof. intros ->. apply shrinks_within_refl. Qed.

Lemma tidy_shrinks (dir : path) (w w' : world bytes) :
  tidy (disk w) -> shrinks_within dir w w' -> tidy (disk w').
Proof. intros Ht [_ Hb] p n Hp. apply (Ht p n), Hb, Hp. Qed.

Lemma shrinks_within_delete (dir p : path) (ev : event bytes) (w : world bytes) :
  below dir p ->
  shrinks_within dir w (commit ev (delete p (disk w)) w).
Proof.
  intros Hbelow. split; simpl.
  - intros q Hq. apply lookup_delete_ne. intros ->. contradiction.
  - intros q [x Hx]. apply lookup_delete_Some in Hx as [_ Hx]. eauto.
Qed.

Lemma unlinkSync_shrinks (dir p : path) (w : world bytes) :
  below dir p -> shrinks_within dir w (final (Fs.unlinkSync p w)).
Proof.
  intros Hbelow. unfold Fs.unlinkSync.
  destruct (Fs.lookup (disk w) p) as [[d|]|]; simpl;
    [apply shrinks_within_delete, Hbelow | apply shrinks_within_refl..].
Qed.

Lemma rmdirSync_shrinks (dir : path) (w : world bytes) :
  shrinks_within dir w (final (Fs.rmdirSync dir w)).
Proof.
  unfold Fs.rmdirSync. destruct dir as [|seg dir]; [apply shrinks_within_refl|].
  destruct (Fs.lookup (disk w) (seg :: dir)) as [[d|]|]; simpl;
    try apply shrinks_within_refl.
  destruct (Fs.names (disk w) (seg :: dir)); simpl;
    [apply shrinks_within_delete, below_refl | apply shrinks_within_refl].
Qed.

(** A loop over names that are path segments, in worlds that stay tidy. *)
Lemma shrinks_within_for_of (dir : path) (body : string -> M bytes unit)
    (l : list string) :
  (forall n w0, In n l -> tidy (disk w0) ->
     shrinks_within dir w0 (final (body n w0))) ->
  forall w, tidy (disk w) -> shrinks_within dir w (final (for_of l body w)).
Proof.
  induction l as [|n l IH]; intros Hbody w Ht; simpl.
  - apply shrinks_within_refl.
  - unfold bind.
    pose proof (Hbody n w (or_introl eq_refl) Ht) as Hn.
    destruct (body n w) as [[] w1|e w1]; simpl in *; [|exact Hn].
    eapply shrinks_within_trans; [exact Hn|].
    apply IH.
    + intros m w0 Hm. apply Hbody. right. exact Hm.
    + eapply tidy_shrinks; eassumption.
Qed.

(** Lines 156-168: on a tidy disk [deleteDirectory] makes nothing and
    changes nothing outside the directory it is called on, however far it
    gets. *)
Theorem deleteDirectory_stays_inside (fuel : nat) (directory : path)
    (w : world bytes) :
  tidy (disk w) ->
  shrinks_within directory w (final (Merge.deleteDirectory fuel directory w)).
Proof.
  revert directory w. induction fuel as [|fuel IH]; intros directory w Ht; simpl.
  - apply shrinks_within_refl.
  - unfold bind at 1. rewrite existsSync_ret.
    destruct (bool_decide _); cbv beta iota delta [when];
      [|apply shrinks_within_refl].
    unfold bind at 1.
    destruct (Fs.readdirSync directory w) as [listing w1|e w1] eqn:Hr.
    + apply readdirSync_pure in Hr as [-> ->].
      unfold bind at 1.
      assert (shrinks_within directory w
                (final (for_of (Fs.names (disk w) directory)
                          (fun file =>
                             bind (Fs.isDirectory (Path.join directory file))
                               (fun isDir =>
                                  if isDir
                                  then Merge.deleteDirectory fuel
                                         (Path.join directory file)
                                  else Fs.unlinkSync (Path.join directory file)))
                          w))) as Hloop.
      { apply shrinks_within_for_of; [|exact Ht].
        intros n w0 Hn Ht0.
        assert (Path.join directory n = (directory ++ [n])%list) as ->
          by (apply (Ht directory n), names_spec, Hn).
        unfold bind.
        destruct (Fs.isDirectory (directory ++ [n])%list w0) as [b w2|e w2] eqn:Hd.
        - apply isDirectory_pure in Hd as ->. destruct b.
          + apply shrinks_within_child with (n := n), IH, Ht0.
          + apply unlinkSync_shrinks. exists [n]. reflexivity.
        - apply isDirectory_throw in Hd as ->. apply shrinks_within_refl. }
      destruct (for_of _ _ w) as [[] w2|e w2]; simpl in Hloop |- *; [|exact Hloop].
      eapply shrinks_within_trans; [exact Hloop | apply rmdirSync_shrinks].
    + apply readdirSync_throw in Hr as ->. apply shrinks_within_refl.
Qed.

(** Lines 157 and 166: when [deleteDirectory] returns, the directory is not
    there any more; when it was a directory before, nothing is left
    directly below it either. *)
Theorem deleteDirectory_removes_the_directory (fuel : nat) (directory : path)
    (w w' : world bytes) :
  Merge.deleteDirectory fuel directory w = Ret tt w' ->
  Fs.lookup (disk w') directory = None /\
  (Fs.lookup (disk w) directory = Some Dir ->
   forall n, disk w' !! (directory ++ [n])%list = None).
Proof.
  destruct fuel as [|fuel]; [discriminate|]. simpl.
  unfold bind at 1. rewrite existsSync_ret.
  case_bool_decide as Hex; cbv beta iota delta [when].
  - unfold bind at 1.
    destruct (Fs.readdirSync directory w) as [listing w1|e w1]; [|discriminate].
    unfold bind at 1.
    destruct (for_of listing _ w1) as [[] w2|e w2]; [|discriminate].
    unfold Fs.rmdirSync. destruct directory as [|seg directory]; [discriminate|].
    destruct (Fs.lookup (disk w2) (seg :: directory)) as [[d|]|]; try discriminate.
    destruct (Fs.names (disk w2) (seg :: directory)) as [|n0 l] eqn:Hnames;
      [|discriminate].
    intros [= <-]. simpl. split; [apply lookup_delete_eq|].
    intros _ n. rewrite lookup_delete_ne.
    + destruct (disk w2 !! ((seg :: directory) ++ [n])%list) as [x|] eqn:Hx;
        [|exact Hx].
      exfalso. assert (In n (Fs.names (disk w2) (seg :: directory))) as Hin
        by (apply names_spec; eauto).
      rewrite Hnames in Hin. contradiction.
    + intros Heq. apply (f_equal (@List.length string)) in Heq.
      simpl in Heq. rewrite length_app in Heq. simpl in Heq. lia.
  - intros [= <-]. split.
    + destruct (Fs.lookup (disk w) directory) eqn:Hl; [|reflexivity].
      exfalso. apply Hex. eauto.
    + intros Hdir. exfalso. apply Hex. rewrite Hdir. eauto.
Qed.

Lemma within_depth_child (d : gmap path (node bytes)) (dir : path) (n : string)
    (k : nat) :
  within_depth d dir k -> is_Some (d !! (dir ++ [n])%list) ->
  exists k', k = S k' /\ within_depth d (dir ++ [n])%list k'.
Proof.
  intros Hd Hn. pose proof (Hd [n] Hn) as Hk. simpl in Hk.
  destruct k as [|k']; [lia|]. exists k'. split; [reflexivity|].
  intros q Hq. rewrite <- app_assoc in Hq. specialize (Hd _ Hq). simpl in Hd. lia.
Qed.

Lemma within_depth_shrinks (dir dir' : path) (k : nat) (w w' : world bytes) :
  shrinks_within dir' w w' -> within_depth (disk w) dir k ->
  within_depth (disk w') dir k.
Proof. intros [_ Hb] Hd q Hq. apply Hd, Hb, Hq. Qed.

Lemma not_below_sibling (dir : path) (n m : string) :
  n <> m -> ~ below (dir ++ [n])%list (dir ++ [m])%list.
Proof.
  intros Hne [q Hq]. rewrite <- app_assoc in Hq. apply app_inv_head in Hq.
  simpl in Hq. injection Hq as Hq _. congruence.
Qed.

Lemma not_below_parent (dir : path) (n : string) : ~ below (dir ++ [n])%list dir.
Proof.
  intros [q Hq]. apply (f_equal (@List.length string)) in Hq.
  rewrite !length_app in Hq. simpl in Hq. lia.
Qed.

Lemma lookup_path_nonempty (d : gmap path (node bytes)) (p : path) :
  p <> [] -> Fs.lookup d p = d !! p.
Proof. destruct p; [congruence | reflexivity]. Qed.

Lemma delete_entries (fuel k : nat) (directory : path) :
  forall (l : list string) (w : world bytes),
    (forall (n : string) (w0 : world bytes),
       In n l -> tidy (disk w0) ->
       Fs.lookup (disk w0) (directory ++ [n])%list = Some Dir ->
       within_depth (disk w0) (directory ++ [n])%list k ->
       exists w', Merge.deleteDirectory fuel (directory ++ [n])%list w0 = Ret tt w' /\
                  disk w' !! (directory ++ [n])%list = None /\
                  shrinks_within (directory ++ [n])%list w0 w') ->
    NoDup l -> tidy (disk w) ->
    (forall n, In n l -> within_depth (disk w) (directory ++ [n])%list k) ->
    (forall n, In n l -> is_Some (disk w !! (directory ++ [n])%list)) ->
    exists w1,
      for_of l (delete_entry fuel directory) w = Ret tt w1 /\
      (forall n, In n l -> disk w1 !! (directory ++ [n])%list = None) /\
      (forall p, (forall n, In n l -> ~ below (directory ++ [n])%list p) ->
         disk w1 !! p = disk w !! p) /\
      (forall p, is_Some (disk w1 !! p) -> is_Some (disk w !! p)).
Proof.
  induction l as [|n l IHl]; intros w IH Hnd Ht Hdeep Hthere.
  - exists w. split; [reflexivity|]. split; [intros n []|]. split; auto.
  - apply NoDup_cons in Hnd as [Hnl Hnd].
    assert (In n (n :: l)) as Hn by (left; reflexivity).
    assert (exists w0, delete_entry fuel directory n w = Ret tt w0 /\
                       disk w0 !! (directory ++ [n])%list = None /\
                       shrinks_within (directory ++ [n])%list w w0)
      as (w0 & Hbody & Hgone & Hshr).
    { unfold delete_entry.
      rewrite (Ht directory n (Hthere n Hn) directory).
      unfold bind, Fs.isDirectory. rewrite lookup_nonempty.
      destruct (Hthere n Hn) as [[data|] Hx]; rewrite Hx.
      - unfold Fs.unlinkSync. rewrite lookup_nonempty, Hx.
        eexists. split; [reflexivity|]. split; [apply lookup_delete_eq|].
        apply shrinks_within_delete, below_refl.
      - apply IH; auto. rewrite lookup_nonempty. exact Hx. }
    destruct (IHl w0) as (w1 & Hfor & Hnone & Hsame & Hsub).
    { intros m w2 Hm. apply IH. right. exact Hm. }
    { exact Hnd. }
    { eapply tidy_shrinks; eassumption. }
    { intros m Hm. eapply within_depth_shrinks; [exact Hshr|].
      apply Hdeep. right. exact Hm. }
    { intros m Hm. rewrite (proj1 Hshr).
      - apply Hthere. right. exact Hm.
      - apply not_below_sibling. intros ->. apply Hnl, list_elem_of_In, Hm. }
    exists w1. split; [|split; [|split]].
    + simpl. unfold bind. rewrite Hbody. exact Hfor.
    + intros m [<-|Hm]; [|apply Hnone, Hm].
      destruct (disk w1 !! (directory ++ [n])%list) as [x|] eqn:Hx; [|reflexivity].
      exfalso. destruct (Hsub _ (ex_intro _ x Hx)) as [y Hy].
      pose proof (eq_trans (eq_sym Hy) Hgone) as Hno. discriminate.
    + intros p Hp. rewrite Hsame by (intros m Hm; apply Hp; right; exact Hm).
      apply (proj1 Hshr), Hp. left. reflexivity.
    + intros p Hp. apply (proj2 Hshr), Hsub, Hp.
Qed.

(** Lines 156-168: on a tidy disk, a directory whose tree is less deep than
    the call stack allows is deleted without error: [deleteDirectory]
    returns, the directory is gone, and nothing outside it has changed. *)
Theorem deleteDirectory_returns (fuel : nat) :
  forall (k : nat) (directory : path) (w : world bytes),
    tidy (disk w) -> directory <> [] ->
    Fs.lookup (disk w) directory = Some Dir ->
    within_depth (disk w) directory k ->
    k < fuel ->
    exists w', Merge.deleteDirectory fuel directory w = Ret tt w' /\
               disk w' !! directory = None /\ shrinks_within directory w w'.
Proof.
  induction fuel as [|fuel IH]; intros k directory w Ht Hne Hdir Hdeep Hk; [lia|].
  simpl. unfold bind at 1. rewrite existsSync_ret.
  rewrite bool_decide_eq_true_2 by (rewrite Hdir; eauto).
  cbv beta iota delta [when].
  unfold bind at 1, Fs.readdirSync. rewrite Hdir. unfold bind at 1.
  change (fun file : string =>
            bind (Fs.isDirectory (Path.join directory file))
              (fun isDir : bool =>
                 if isDir then Merge.deleteDirectory fuel (Path.join directory file)
                 else Fs.unlinkSync (Path.join directory file)))
    with (delete_entry fuel directory).
  destruct (delete_entries fuel (pred k) directory (Fs.names (disk w) directory) w)
    as (w1 & Hfor & Hnone & Hsame & Hsub).
  { intros n w0 Hn Ht0 Hd0 Hdeep0. apply names_spec in Hn.
    destruct (within_depth_child _ _ n k Hdeep Hn) as (k' & -> & _).
    apply (IH k'); auto; [destruct directory; discriminate | lia]. }
  { apply names_NoDup. }
  { exact Ht. }
  { intros n Hn. apply names_spec in Hn.
    destruct (within_depth_child _ _ n k Hdeep Hn) as (k' & -> & Hd). exact Hd. }
  { intros n Hn. apply names_spec, Hn. }
  rewrite Hfor.
  rewrite (lookup_path_nonempty _ _ Hne) in Hdir.
  assert (disk w1 !! directory = Some Dir) as Hdir1
    by (rewrite Hsame by (intros n _; apply not_below_parent); exact Hdir).
  assert (Fs.names (disk w1) directory = []) as Hnames.
  { destruct (Fs.names (disk w1) directory) as [|n0 rest] eqn:Hnames; [reflexivity|].
    exfalso.
    assert (In n0 (Fs.names (disk w1) directory)) as Hin
      by (rewrite Hnames; left; reflexivity).
    apply names_spec in Hin. pose proof (Hsub _ Hin) as Hw.
    apply names_spec in Hw. destruct Hin as [x Hx].
    pose proof (eq_trans (eq_sym Hx) (Hnone n0 Hw)) as Hno. discriminate. }
  destruct directory as [|seg directory]; [congruence|].
  unfold Fs.rmdirSync.
  assert (Fs.lookup (disk w1) (seg :: directory) = Some Dir) as -> by exact Hdir1.
  rewrite Hnames.
  eexists. split; [reflexivity|]. split; [apply lookup_delete_eq|].
  split; simpl.
  - intros p Hp. rewrite lookup_delete_ne by (intros <-; apply Hp, below_refl).
    apply Hsame. intros n _ Hbelow. apply Hp, (below_child _ _ n Hbelow).
  - intros p [x Hx]. apply lookup_delete_Some in Hx as [_ Hx]. apply Hsub. eauto.
Qed.

End Delete_directory.

Lemma tidy_world_of {bytes} (entries : list (path * node bytes)) :
  Forall (fun e => forall p n, fst e = (p ++ [n])%list -> simple n) entries ->
  tidy (disk (world_of entries)).
Proof.
  intros Hall p n [x Hx]. simpl in Hx. apply elem_of_list_to_map_2 in Hx.
  apply list_elem_of_In in Hx. rewrite List.Forall_forall in Hall.
  exact (Hall _ Hx p n eq_refl).
Qed.

Lemma within_depth_world_of {bytes} (entries : list (path * node bytes))
    (dir : path) (k : nat) :
  Forall (fun e => forall q, fst e = (dir ++ q)%list -> List.length q <= k) entries ->
  within_depth (disk (world_of entries)) dir k.
Proof.
  intros Hall q [x Hx]. simpl in Hx. apply elem_of_list_to_map_2 in Hx.
  apply list_elem_of_In in Hx. rewrite List.Forall_forall in Hall.
  exact (Hall _ Hx q eq_refl).
Qed.

Lemma deleteDirectory_stays_inside_witness :
  shrinks_within ["split"; "Admin"] Sample.split_tree
    (final (Merge.deleteDirectory 4 ["split"; "Admin"] Sample.split_tree)) /\
  thrown (Merge.deleteDirectory 4 ["split"; "Admin"] Sample.split_tree) = None.
Proof.
  split; [|reflexivity].
  apply (deleteDirectory_stays_inside 4 ["split"; "Admin"] Sample.split_tree).
  unfold Sample.split_tree. apply tidy_world_of.
  repeat constructor; intros p n Heq;
    apply (f_equal (fun l => List.last l "")) in Heq; rewrite last_last in Heq;
    simpl in Heq; subst n; intros dir; reflexivity.
Defined.

Lemma deleteDirectory_removes_witness :
  let w' := final (Merge.deleteDirectory 4 ["split"; "Admin"] Sample.split_tree) in
  Fs.lookup (disk w') ["split"; "Admin"] = None /\
  forall n, disk w' !! (["split"; "Admin"] ++ [n])%list = None.
Proof.
  intros w'.
  pose proof (deleteDirectory_removes_the_directory 4 ["split"; "Admin"]
                Sample.split_tree w') as H.
  assert (Merge.deleteDirectory 4 ["split"; "Admin"] Sample.split_tree = Ret tt w')
    as Hret by (vm_compute; reflexivity).
  destruct (H Hret) as [Hgone Hempty].
  split; [exact Hgone|]. apply Hempty. reflexivity.
Defined.

Lemma deleteDirectory_returns_witness :
  exists w' : world text,
    Merge.deleteDirectory 3 ["split"; "Admin"] Sample.split_tree = Ret tt w' /\
    disk w' !! ["split"; "Admin"] = None /\
    shrinks_within ["split"; "Admin"] Sample.split_tree w'.
Proof.
  apply (deleteDirectory_returns 3 2 ["split"; "Admin"] Sample.split_tree).
  - unfold Sample.split_tree. apply tidy_world_of.
    repeat constructor; intros p n Heq;
      apply (f_equal (fun l => List.last l "")) in Heq; rewrite last_last in Heq;
      simpl in Heq; subst n; intros dir; reflexivity.
  - discriminate.
  - reflexivity.
  - unfold Sample.split_tree. apply within_depth_world_of.
    repeat (apply Forall_cons; split); try exact (List.Forall_nil _);
      intros q Heq; simpl in Heq; inversion Heq; simpl; lia.
  - lia.
Defined.

(** ** Names with separators *)

Section Escaping.
Context `{Codec bytes}.

Lemma segments_nonempty (s : string) : Path.segments s <> [].
Proof.
  destruct s as [|c s]; simpl; [discriminate|].
  destruct (Ascii.eqb c "/"); [discriminate|].
  destruct (Path.segments s); discriminate.
Qed.

Lemma segments_cons_single (c : ascii) (s : string) :
  Path.segments (String c s) = [String c s] ->
  Ascii.eqb c "/" = false /\ Path.segments s = [s].
Proof.
  simpl. destruct (Ascii.eqb c "/").
  - intros Heq. exfalso. injection Heq as Hc _. discriminate.
  - pose proof (segments_nonempty s) as Hne.
    destruct (Path.segments s) as [|seg segs]; [contradiction|].
    intros [= -> ->]. auto.
Qed.

Lemma segments_append (x y : string) :
  Path.segments x = [x] -> Path.segments y = [y] ->
  Path.segments (x ++ y) = [x ++ y].
Proof.
  intros Hx Hy. induction x as [|c x IH]; [exact Hy|].
  apply segments_cons_single in Hx as [Hc Hx].
  change (String c x ++ y) with (String c (x ++ y)).
  simpl. rewrite Hc, (IH Hx). reflexivity.
Qed.

Lemma segments_replaceAll (s : string) :
  Path.segments (Js.replaceAll "/" s) = [Js.replaceAll "/" s].
Proof.
  induction s as [|c s IH]; [reflexivity|].
  simpl Js.replaceAll. simpl Path.segments.
  destruct (Ascii.eqb_spec c "/") as [->|Hne].
  - change (Ascii.eqb "-" "/") with false. cbv iota. rewrite IH. reflexivity.
  - apply Ascii.eqb_neq in Hne. rewrite Hne, IH. reflexivity.
Qed.

Lemma string_length_append (s t : string) :
  String.length (s ++ t) = String.length s + String.length t.
Proof. induction s as [|c s IH]; simpl; [reflexivity | rewrite IH; reflexivity]. Qed.

(** A file name with an extension, and without a separator, is appended
    as one segment. *)
Lemma simple_with_extension (stem : string) :
  Path.segments stem = [stem] -> simple (stem ++ ".xml").
Proof.
  intros Hstem dir. unfold Path.join.
  rewrite (segments_append stem ".xml" Hstem eq_refl). simpl. unfold Path.push_segment.
  assert (forall t, String.length t < 4 -> String.eqb (stem ++ ".xml") t = false) as Hlen.
  { intros t Ht. apply String.eqb_neq. intros Heq.
    apply (f_equal String.length) in Heq. rewrite string_length_append in Heq.
    simpl in Heq. lia. }
  rewrite !Hlen by (simpl; lia). reflexivity.
Qed.

(** Lines 130-131 and 150-151: a record that is named after its layout
    gets the layout with every ['/'] turned into ['-'] as its name, and its
    artifact lies directly in the category directory, whatever the layout
    is. *)
Theorem layout_name_is_escaped (item : value) (layout : string)
    (categoryDir : path) (w : world bytes) :
  Js.truthy (Js.get item "name") = false ->
  Split.has_first item "application" = false ->
  Js.first (Js.get item "layout") = VStr layout ->
  layout <> "" ->
  Split.itemName item w = Ret (VStr (Js.replaceAll "/" layout)) w /\
  Path.join categoryDir (Js.toString (VStr (Js.replaceAll "/" layout)) ++ ".xml") =
    (categoryDir ++ [(Js.replaceAll "/" layout ++ ".xml")%string])%list.
Proof.
  intros Hname Happ Hfirst Hne. split.
  - unfold Split.itemName. rewrite Hname, Happ.
    assert (Split.has_first item "layout" = true) as ->.
    { unfold Split.has_first. rewrite Hfirst.
      assert (Js.truthy (VStr layout) = true) as ->
        by (destruct layout; [congruence | reflexivity]).
      destruct (Js.get item "layout") as [|[|c s]| |]; try reflexivity;
        cbv in Hfirst; discriminate. }
    rewrite Hfirst. reflexivity.
  - apply (simple_with_extension _ (segments_replaceAll layout)).
Qed.

End Escaping.

Lemma layout_name_witness :
  Split.itemName Sample.layoutAccount Sample.empty_world =
    Ret (VStr "Account-Account Layout-v2") Sample.empty_world /\
  Path.join ["out"; "Admin"; "layoutAssignments"]
    (Js.toString (VStr "Account-Account Layout-v2") ++ ".xml") =
    ["out"; "Admin"; "layoutAssignments"; "Account-Account Layout-v2.xml"].
Proof.
  apply (layout_name_is_escaped Sample.layoutAccount "Account-Account Layout/v2"
           ["out"; "Admin"; "layoutAssignments"] Sample.empty_world).
  - reflexivity.
  - reflexivity.
  - reflexivity.
  - discriminate.
Defined.

(** ** Records of the same name *)

Section Collisions.
Context `{Codec bytes}.
Variable label : value -> string.


End Collisions.


(** ** Units and their names *)

Section Unit_names.
Context `{Codec bytes} `{Formats bytes}.

Lemma substring_prefix (n rest : string) :
  String.substring 0 (String.length n) (n ++ rest) = n.
Proof.
  induction n as [|c n IH]; [apply substring_all|].
  simpl. rewrite IH. reflexivity.
Qed.

Lemma drop_suffix_of_append (n ext : string) : Path.drop_suffix ext (n ++ ext) = n.
Proof.
  unfold Path.drop_suffix. rewrite string_length_append.
  replace (String.length n + String.length ext - String.length ext)
    with (String.length n) by lia.
  apply substring_prefix.
Qed.

(** Lines 94 and 150-151 of split.ts, 94 and 151 of merge.ts: the names of
    the units round trip.  The split directory of [X.profile-meta.xml],
    [X] not empty, is merged into a file called [X.profile-meta.xml] again,
    and the file that a directory [X] is merged into is split into a
    directory called [X]. *)
Theorem unit_names_round_trip (dir outputDir mergedDir : path) (n : string) :
  simple n ->
  (Path.ends_with ".profile-meta.xml" n = true ->
   n <> ".profile-meta.xml" ->
   simple (Path.basename_ext (dir ++ [n])%list ".profile-meta.xml") ->
   Merge.outputFile
     (Path.join outputDir (Path.basename_ext (dir ++ [n])%list ".profile-meta.xml"))
     mergedDir = Path.join mergedDir n) /\
  (n <> "" ->
   simple (n ++ ".profile-meta.xml") ->
   Path.basename_ext (Merge.outputFile (dir ++ [n])%list mergedDir)
     ".profile-meta.xml" = n).
Proof.
  intros Hn. split.
  - intros Hends Hne Hstem. unfold Merge.outputFile.
    rewrite (Hstem outputDir). unfold Path.basename at 1. rewrite last_last.
    unfold Path.basename_ext, Path.basename. rewrite last_last, Hends.
    destruct (String.eqb_spec n ".profile-meta.xml") as [Heq|_]; [contradiction|].
    simpl. rewrite (drop_suffix_append _ _ Hends). reflexivity.
  - intros Hne Hfile. unfold Merge.outputFile, Path.basename_ext, Path.basename.
    rewrite !last_last, (Hfile mergedDir), last_last, ends_with_app.
    assert (String.eqb (n ++ ".profile-meta.xml") ".profile-meta.xml" = false) as ->.
    { apply String.eqb_neq. intros Heq.
      apply (f_equal String.length) in Heq. rewrite string_length_append in Heq.
      destruct n; [congruence | simpl in Heq; lia]. }
    simpl. apply drop_suffix_of_append.
Qed.

(** Lines 270-301: converting a profile either raises and leaves the world
    as it was, or returns after one change: the write of the whole parse
    result, dumped or rebuilt as the format says, to the file that the
    format names. *)
Theorem convertProfile_all_or_nothing (profileFile outputDir : path)
    (format : string) (w : world bytes) :
  (exists message,
     Convert.convertProfile profileFile outputDir format w = Throw message w) \/
  (exists (content : bytes) (result : value),
     Fs.lookup (disk w) profileFile = Some (File content) /\
     parseString content = inr result /\
     let name := Path.basename_ext profileFile ".profile-meta.xml" in
     let out :=
       Path.join outputDir
         (if String.eqb format "json" then name ++ ".json"
          else name ++ ".profile-meta.xml") in
     let data :=
       if String.eqb format "json" then stringify result
       else buildObjectPretty result in
     Convert.convertProfile profileFile outputDir format w =
       Ret tt (commit (WriteFile out data) (<[out := File data]> (disk w)) w)).
Proof.
  unfold Convert.convertProfile, bind.
  destruct (Fs.readFileSync profileFile w) as [content w1|e w1] eqn:Hr.
  - apply readFileSync_pure in Hr as [-> Hfile].
    unfold try_catch, Convert.convertParsed, bind, parseStringPromise.
    destruct (parseString content) as [m|result] eqn:Hparse.
    + left. eexists. reflexivity.
    + unfold ret. cbv beta iota.
      destruct (Fs.writeFileSync _ _ w) as [[] w2|e w2] eqn:Hw.
      * apply writeFileSync_ret in Hw as (-> & _). right.
        exists content, result. split; [exact Hfile|]. split; [exact Hparse|].
        reflexivity.
      * apply writeFileSync_throw in Hw as ->. left. eexists. reflexivity.
  - apply readFileSync_throw in Hr as ->. left. eauto.
Qed.

(** Lines 101-111 and 158-160 of split.ts: a document that parses but has
    no [Profile] root makes the split raise, after the profile directory
    was made: the error carries the profile's name, and the directory stays
    behind, empty of anything the split made. *)
Theorem split_without_Profile_root (profileFile outputDir : path)
    (content : bytes) (result : value) (w : world bytes) :
  Fs.lookup (disk w) profileFile = Some (File content) ->
  parseString content = inr result ->
  result <> VUndef ->
  Js.get result "Profile" = VUndef ->
  let name := Path.basename_ext profileFile ".profile-meta.xml" in
  let profileDir := Path.join outputDir name in
  Forall (no_file w) (Fs.ancestors profileDir) ->
  exists (w1 : world bytes) (evs : list (event bytes)),
    Split.splitProfile profileFile outputDir w =
      Throw ("Error processing profile " ++ name ++
             ": Cannot convert undefined or null to object") w1 /\
    Fs.lookup (disk w1) profileDir = Some Dir /\
    journal w1 = (journal w ++ evs)%list /\
    Forall (fun ev => exists q, ev = Mkdir q /\ In q (Fs.ancestors profileDir)) evs.
Proof.
  intros Hfile Hparse Hres Hroot name profileDir Hnf.
  destruct (ensure_directory profileDir w Hnf) as (w1 & evs & Hens & Hdir & Hj & He).
  exists w1, evs. split; [|auto].
  unfold Split.splitProfile, bind at 1, Fs.readFileSync. rewrite Hfile.
  fold name. unfold try_catch, Split.splitParsed, parseStringPromise.
  rewrite Hparse. unfold bind at 1, ret at 1.
  assert (js_member (bytes := bytes) result "Profile" = ret VUndef) as ->
    by (unfold js_member; rewrite <- Hroot; destruct result;
        [congruence | reflexivity..]).
  unfold bind at 1, ret at 1. fold profileDir.
  rewrite (after_prelude profileDir _ w w1 Hens). reflexivity.
Qed.

End Unit_names.

Lemma unit_names_witness :
  Merge.outputFile
    (Path.join ["out"]
       (Path.basename_ext ["in"; "Admin.profile-meta.xml"] ".profile-meta.xml"))
    ["merged"] = ["merged"; "Admin.profile-meta.xml"] /\
  Path.basename_ext (Merge.outputFile ["split"; "Admin"] ["merged"])
    ".profile-meta.xml" = "Admin".
Proof.
  split.
  - apply (proj1 (unit_names_round_trip ["in"] ["out"] ["merged"]
                    "Admin.profile-meta.xml" (fun dir => eq_refl))).
    + reflexivity.
    + discriminate.
    + intros dir. reflexivity.
  - apply (proj2 (unit_names_round_trip ["split"] ["out"] ["merged"] "Admin"
                    (fun dir => eq_refl))).
    + discriminate.
    + intros dir. reflexivity.
Defined.

Lemma split_without_Profile_root_witness :
  exists (w1 : world text) (evs : list (event text)),
    Split.splitProfile ["in"; "Stray.profile-meta.xml"] ["out"] Sample.stray =
      Throw "Error processing profile Stray: Cannot convert undefined or null to object"
        w1 /\
    Fs.lookup (disk w1) ["out"; "Stray"] = Some Dir /\
    journal w1 = (journal Sample.stray ++ evs)%list /\
    Forall (fun ev => exists q, ev = Mkdir q /\ In q (Fs.ancestors ["out"; "Stray"])) evs.
Proof.
  apply (split_without_Profile_root ["in"; "Stray.profile-meta.xml"] ["out"]
           (Xml Sample.stray_doc) Sample.stray_doc Sample.stray).
  - reflexivity.
  - reflexivity.
  - discriminate.
  - reflexivity.
  - repeat constructor; intros data; vm_compute; discriminate.
Defined.

(** ** Categories named like inherited members *)

Section Inherited_names.
Context `{Codec bytes}.

(** Lines 128-142: a category that is called like a member of
    [Object.prototype] cannot be merged.  [profile[categoryName]] of line 132
    finds the inherited member, which is truthy, so no list is made, and
    [push] of line 137 raises; the error of line 141 carries the path of the
    first artifact of the category that holds a record. *)
Theorem merge_raises_on_inherited_name (key : string) (itemFile : path)
    (first : value) (others : list value) (profile : list (string * value))
    (w : world bytes) :
  In key Js.inherited ->
  Js.owns key profile = false ->
  holds_records w key itemFile (first :: others) ->
  Merge.mergeItem key itemFile profile w =
    Throw ("Error processing item file " ++ Path.show itemFile ++
           ": profile[categoryName].push is not a function") w.
Proof.
  intros Hin Hown (content & doc & Hfile & Hparse & Hdoc & Hentry).
  assert (Js.read key profile = Js.Inherited) as Hread.
  { unfold Js.read. rewrite Hown.
    assert (existsb (String.eqb key) Js.inherited = true) as ->; [|reflexivity].
    apply existsb_exists. exists key. split; [exact Hin | apply String.eqb_refl]. }
  unfold Merge.mergeItem, try_catch, Merge.mergeParsed, bind, Fs.readFileSync.
  rewrite Hfile. unfold parseStringPromise. rewrite Hparse. unfold ret at 1.
  assert (js_member (bytes := bytes) doc "Profile" = ret (Js.get doc "Profile")) as ->
    by (destruct doc; [congruence | reflexivity..]).
  unfold ret at 1. rewrite Hentry.
  assert (Js.truthy (Js.get doc "Profile") = true) as ->.
  { destruct (Js.get doc "Profile") as [|[|c s]| |]; try reflexivity; discriminate. }
  cbn [Js.truthy andb]. unfold Merge.pushItems. rewrite Hread.
  cbn [Js.member_truthy negb]. rewrite Hread. reflexivity.
Qed.

End Inherited_names.

Lemma merge_raises_on_inherited_name_witness :
  Merge.mergeItem "constructor" ["split"; "Odd"; "constructor"; "A.xml"]
    [("_xmlns", VStr "http://soap.sforce.com/2006/04/metadata")] Sample.odd_tree =
    Throw "Error processing item file split/Odd/constructor/A.xml: profile[categoryName].push is not a function"
      Sample.odd_tree /\
  thrown (Merge.mergeProfile ["split"; "Odd"] ["merged"] Sample.odd_tree) =
    Some "Error processing item file split/Odd/constructor/A.xml: profile[categoryName].push is not a function".
Proof.
  split; [|reflexivity].
  apply (merge_raises_on_inherited_name "constructor"
           ["split"; "Odd"; "constructor"; "A.xml"] Sample.classA []
           [("_xmlns", VStr "http://soap.sforce.com/2006/04/metadata")]
           Sample.odd_tree).
  - vm_compute. tauto.
  - reflexivity.
  - exists (Xml (Sample.parsed_artifact "constructor" Sample.classA)),
      (Sample.parsed_artifact "constructor" Sample.classA).
    repeat split; try reflexivity; discriminate.
Defined.
